(** * abcresearch: PDF table extraction, Datalab Marker client, graphify

    A shallow embedding of three Python modules of the repository,

    - [api/extract_tables.py]              (module [extract_tables]),
    - [extraction_scripts/datalab_marker.py] (module [datalab_marker]),
    - [scripts/graphify_images.py]         (module [graphify_images]),

    together with the part of the Python object model they rely on
    (module [Py]): JSON values as the [json] module yields them, dict
    access, truthiness, and the split of the exception hierarchy into
    [Exception] and the [BaseException]s outside it.

    Library calls whose result depends on the outside world (HTTP
    exchanges, the clock, the file system, the generated plotting code run
    in the child process) are taken from explicit oracles, and their
    effects are recorded in an explicit world state. *)

From Stdlib Require Import ZArith String Ascii List Lia Bool.
From stdpp Require Import gmap strings list pretty.
Import ListNotations.
Local Open Scope string_scope.

(* ===================================================================== *)
(** * The Python object model *)
(* ===================================================================== *)

Module Py.

(** Values produced by [json.loads] / [resp.json()].  A JSON object is a
    Python dict: an association list whose keys are distinct, looked up by
    [assoc].  Numbers are the integral ones; no code path modelled here
    inspects the fractional part of a number.  Characters are the code
    points below 256. *)
#[warnings="-register-all"]
Inductive Json : Type :=
| JNull
| JBool (b : bool)
| JNum (n : Z)
| JStr (s : string)
| JArr (xs : list Json)
| JObj (kvs : list (string * Json)).

Definition dict := list (string * Json).

(** [k in d], [d[k]] *)
Fixpoint assoc (k : string) (d : dict) : option Json :=
  match d with
  | [] => None
  | (k', v) :: d' => if String.eqb k k' then Some v else assoc k d'
  end.

(** [d.pop(k, None)], the dict left *)
Fixpoint dict_pop (k : string) (d : dict) : dict :=
  match d with
  | [] => []
  | (k', v) :: d' =>
      if String.eqb k k' then dict_pop k d' else (k', v) :: dict_pop k d'
  end.

(** [d[k] = v]: an existing key keeps its position *)
Fixpoint dict_set (k : string) (v : Json) (d : dict) : dict :=
  match d with
  | [] => [(k, v)]
  | (k', v') :: d' =>
      if String.eqb k k' then (k, v) :: d' else (k', v') :: dict_set k v d'
  end.

(** [d.get(k, default)] on a dict *)
Definition dict_get (k : string) (default : Json) (d : dict) : Json :=
  match assoc k d with
  | Some v => v
  | None => default
  end.

(** [bool(v)] *)
Definition truthy (v : Json) : bool :=
  match v with
  | JNull => false
  | JBool b => b
  | JNum n => negb (n =? 0)%Z
  | JStr s => negb (String.eqb s "")
  | JArr xs => match xs with [] => false | _ => true end
  | JObj kvs => match kvs with [] => false | _ => true end
  end.

(** [v == s] for a str literal [s] *)
Definition eq_str (v : Json) (s : string) : bool :=
  match v with
  | JStr s' => String.eqb s' s
  | _ => false
  end.

(** [isinstance(v, str)] *)
Definition is_str (v : Json) : bool :=
  match v with JStr _ => true | _ => false end.

(** [isinstance(v, (dict, list))] *)
Definition is_dict_or_list (v : Json) : bool :=
  match v with JObj _ | JArr _ => true | _ => false end.

(** lists and dicts are unhashable: [v in {...}] raises TypeError on them *)
Definition hashable (v : Json) : bool :=
  match v with JArr _ | JObj _ => false | _ => true end.

(** ** Strings *)

(** [c.isspace()] *)
Definition isspace (c : ascii) : bool :=
  let n := nat_of_ascii c in
  (((9 <=? n) && (n <=? 13)) || ((28 <=? n) && (n <=? 32))
   || (n =? 133) || (n =? 160))%nat.

(** [s.lstrip(chars)], the characters to drop given by a test *)
Fixpoint lstrip_if (drop : ascii -> bool) (s : string) : string :=
  match s with
  | EmptyString => EmptyString
  | String c s' => if drop c then lstrip_if drop s' else s
  end.

(** [s.rstrip(chars)] *)
Fixpoint rstrip_if (drop : ascii -> bool) (s : string) : string :=
  match s with
  | EmptyString => EmptyString
  | String c s' =>
      match rstrip_if drop s' with
      | EmptyString => if drop c then EmptyString else String c EmptyString
      | r => String c r
      end
  end.

Definition strip_if (drop : ascii -> bool) (s : string) : string :=
  rstrip_if drop (lstrip_if drop s).

(** [s.strip()] *)
Definition strip (s : string) : string := strip_if isspace s.

(** [c.lower()] *)
Definition lower_char (c : ascii) : ascii :=
  let n := nat_of_ascii c in
  if (((65 <=? n) && (n <=? 90)) || ((192 <=? n) && (n <=? 214))
      || ((216 <=? n) && (n <=? 222)))%nat
  then ascii_of_nat (n + 32) else c.

(** [s.lower()] *)
Fixpoint lower (s : string) : string :=
  match s with
  | EmptyString => EmptyString
  | String c s' => String (lower_char c) (lower s')
  end.

(** [needle in hay] for two strs *)
Fixpoint contains (needle hay : string) : bool :=
  String.prefix needle hay
  || match hay with
     | EmptyString => false
     | String _ hay' => contains needle hay'
     end.

(** ** Exceptions *)

(** [SystemExit text arg] stands for [SystemExit(f"<text>{arg}...")]: the
    literal head of the message and the first interpolated value.  It is
    the one exception here that derives from [BaseException] directly;
    the others all derive from [Exception]. *)
Inductive exn : Type :=
| SystemExit (text : string) (arg : Json)
| Timeout                      (* requests.exceptions.Timeout *)
| ConnectionError              (* any other failure inside requests *)
| HTTPError (status_code : Z)  (* resp.raise_for_status() *)
| AttributeError
| TypeError
| KeyError
| IndexError
| UnboundLocalError
| ValueError
| OSError.

(** [isinstance(e, Exception)]: what an [except Exception] clause catches *)
Definition is_Exception (e : exn) : bool :=
  match e with
  | SystemExit _ _ => false
  | _ => true
  end.

Inductive Res (A : Type) : Type :=
| Return (a : A)
| Raise (e : exn).
Arguments Return {A} a.
Arguments Raise {A} e.

(** [x.get(k, default)]: only dicts have [get] *)
Definition get (x : Json) (k : string) (default : Json) : Res Json :=
  match x with
  | JObj d => Return (dict_get k default d)
  | _ => Raise AttributeError
  end.

(** [resp.raise_for_status()]: raises for 4xx and 5xx *)
Definition raise_for_status (status_code : Z) : option exn :=
  if ((400 <=? status_code) && (status_code <? 600))%Z
  then Some (HTTPError status_code) else None.

(** ** Computations with a world state and exceptions *)

Definition M (W A : Type) : Type := W -> Res A * W.

Definition ret {W A} (a : A) : M W A := fun w => (Return a, w).
Definition raise {W A} (e : exn) : M W A := fun w => (Raise e, w).
Definition bind {W A B} (m : M W A) (k : A -> M W B) : M W B :=
  fun w => match m w with
           | (Return a, w') => k a w'
           | (Raise e, w') => (Raise e, w')
           end.
Definition lift {W A} (r : Res A) : M W A := fun w => (r, w).
Definition modify {W} (f : W -> W) : M W unit := fun w => (Return tt, f w).

(** [try: m  except Exception as exc: h exc]; state changes made by [m]
    before it raised persist. *)
Definition try_except {W A} (m : M W A) (h : exn -> M W A) : M W A :=
  fun w => match m w with
           | (Raise e, w') => if is_Exception e then h e w' else (Raise e, w')
           | r => r
           end.

(** [try: m  except Exception as exc: h exc  else: els]; the [else]
    suite runs outside the protection of the [except] clause. *)
Definition try_except_else {W A B}
    (m : M W A) (h : exn -> M W B) (els : A -> M W B) : M W B :=
  fun w => match m w with
           | (Return a, w') => els a w'
           | (Raise e, w') => if is_Exception e then h e w' else (Raise e, w')
           end.

(** ** A serializer to run examples with

    Compact JSON text.  Wherever a statement depends on what [json.dumps]
    or [json.loads] computes, the function is a parameter instead. *)

Definition quote : string := String (ascii_of_nat 34) EmptyString.
Definition backslash : ascii := ascii_of_nat 92.

Fixpoint escape (s : string) : string :=
  match s with
  | EmptyString => EmptyString
  | String c s' =>
      if (Ascii.eqb c (ascii_of_nat 34) || Ascii.eqb c backslash)%bool
      then String backslash (String c (escape s'))
      else String c (escape s')
  end.

Fixpoint dumps (v : Json) : string :=
  match v with
  | JNull => "null"
  | JBool b => if b then "true" else "false"
  | JNum n => pretty n
  | JStr s => quote ++ escape s ++ quote
  | JArr xs =>
      "[" ++ (fix items (xs : list Json) : string :=
                match xs with
                | [] => ""
                | x :: xs' =>
                    dumps x ++ match xs' with
                               | [] => ""
                               | _ => ", " ++ items xs'
                               end
                end) xs ++ "]"
  | JObj kvs =>
      "{" ++ (fix members (kvs : list (string * Json)) : string :=
                match kvs with
                | [] => ""
                | (k, x) :: kvs' =>
                    quote ++ escape k ++ quote ++ ": " ++ dumps x
                    ++ match kvs' with
                       | [] => ""
                       | _ => ", " ++ members kvs'
                       end
                end) kvs ++ "}"
  end.

(** the class name, standing for [str(exc)] in examples *)
Definition class_name (e : exn) : string :=
  match e with
  | SystemExit text _ => text
  | Timeout => "Timeout"
  | ConnectionError => "ConnectionError"
  | HTTPError _ => "HTTPError"
  | AttributeError => "AttributeError"
  | TypeError => "TypeError"
  | KeyError => "KeyError"
  | IndexError => "IndexError"
  | UnboundLocalError => "UnboundLocalError"
  | ValueError => "ValueError"
  | OSError => "OSError"
  end.

End Py.

Import Py.

Notation "'let*' x := m 'in' k" := (Py.bind m (fun x => k))
  (at level 10, x name, m at level 100, k at level 200).
Notation "m ;; k" := (Py.bind m (fun _ => k))
  (at level 100, k at level 200, right associativity).

(* ===================================================================== *)
(** * api/extract_tables.py *)
(* ===================================================================== *)

Module extract_tables.

(** What [page.extract_tables()] yields: per table a list of rows, per row
    a list of cells, a cell being a str or [None]. *)
Definition Row := list (option string).
Definition Table := list Row.

Record TableRecord : Type := {
  page_number : nat;
  table_number : nat;
  data : list (list string);
  rows : nat;
  columns : nat
}.

(** the body of [for cell in row] *)
Definition clean_cell (cell : option string) : string :=
  match cell with
  | Some c => strip c
  | None => ""
  end.

Fixpoint clean_row (row : Row) : list string :=
  match row with
  | [] => []
  | cell :: row' => clean_cell cell :: clean_row row'
  end.

(** [for row in table: if row: ...] *)
Fixpoint clean_table (table : Table) : list (list string) :=
  match table with
  | [] => []
  | row :: table' =>
      match row with
      | [] => clean_table table'
      | _ :: _ => clean_row row :: clean_table table'
      end
  end.

(** [for table_num, table in enumerate(page_tables, 1)] *)
Fixpoint page_loop (page_num table_num : nat) (page_tables : list Table)
  : list TableRecord :=
  match page_tables with
  | [] => []
  | table :: rest =>
      let tail := page_loop page_num (S table_num) rest in
      match table with
      | [] => tail
      | _ :: _ =>
          let cleaned_table := clean_table table in
          match cleaned_table with
          | [] => tail
          | first :: _ =>
              {| page_number := page_num;
                 table_number := table_num;
                 data := cleaned_table;
                 rows := length cleaned_table;
                 columns := length first |} :: tail
          end
      end
  end.

(** [for page_num, page in enumerate(pdf.pages, 1)]; a page is given by
    the tables pdfplumber finds on it. *)
Fixpoint pdf_loop (page_num : nat) (pages : list (list Table))
  : list TableRecord :=
  match pages with
  | [] => []
  | page_tables :: rest =>
      page_loop page_num 1 page_tables ++ pdf_loop (S page_num) rest
  end.

Definition extract_tables_from_pdf (pages : list (list Table))
  : list TableRecord :=
  pdf_loop 1 pages.

(** a PDF with one ragged table: two columns, then three *)
Definition ragged_pdf : list (list Table) :=
  [[ [ [Some " a "; None]; []; [Some "b"; Some "c"; Some "d "] ] ]].

(** ** [create_excel_file] *)

(** A column label of a DataFrame: its position, as [pd.DataFrame(rows)]
    numbers the columns, or a cell of the row promoted to header. *)
Inductive Label : Type :=
| Position (i : nat)
| Header (cell : option string).

(** A DataFrame built from rows of strs: pandas fills the rows shorter
    than the widest one with [None]. *)
Record Frame : Type := {
  labels : list Label;
  cells : list (list (option string))
}.

Definition width (data : list (list string)) : nat :=
  fold_right (fun row w => Nat.max (length row) w) 0%nat data.

Definition pad (w : nat) (row : list string) : list (option string) :=
  (map Some row ++ repeat None (w - length row))%list.

(** [pd.DataFrame(table['data'])] *)
Definition DataFrame (data : list (list string)) : Frame :=
  {| labels := map Position (seq 0 (width data));
     cells := map (pad (width data)) data |}.

Definition cell_eqb (a b : option string) : bool :=
  match a, b with
  | Some x, Some y => String.eqb x y
  | None, None => true
  | _, _ => false
  end.

(** [first_row.equals(second_row)] for two rows of one frame *)
Fixpoint row_equals (a b : list (option string)) : bool :=
  match a, b with
  | [], [] => true
  | x :: a', y :: b' => cell_eqb x y && row_equals a' b'
  | _, _ => false
  end.

(** [if len(df) > 1: ... df.columns = first_row; df = df.drop(df.index[0])] *)
Definition promote_header (df : Frame) : Frame :=
  match cells df with
  | first_row :: ((second_row :: _) as rest) =>
      if negb (row_equals first_row second_row)
      then {| labels := map Header first_row; cells := rest |}
      else df
  | _ => df
  end.

(** [for i, table in enumerate(tables, 1)]: the sheets handed to the
    writer, by name *)
Fixpoint sheets_from (i : nat) (tables : list TableRecord)
  : list (string * Frame) :=
  match tables with
  | [] => []
  | table :: rest =>
      ("Table_" ++ pretty i, promote_header (DataFrame (data table)))
      :: sheets_from (S i) rest
  end.

Definition sheets (tables : list TableRecord) : list (string * Frame) :=
  sheets_from 1 tables.

(** ** [handler] *)

(** the request object: [request.method], and the attributes [json] and
    [body] when it has them *)
Record Request : Type := {
  method : string;
  json_attr : option Json;
  body_attr : option Json
}.

Record Response : Type := {
  statusCode : Z;
  headers : list (string * string);
  body : Json    (* the object passed to json.dumps *)
}.

Definition cors_headers : list (string * string) :=
  [("Access-Control-Allow-Origin", "https://www.developent.guru");
   ("Access-Control-Allow-Methods", "POST, OPTIONS, GET");
   ("Access-Control-Allow-Headers", "Content-Type, Authorization");
   ("Access-Control-Max-Age", "86400");
   ("Content-Type", "application/json")].

Definition reply (status : Z) (body : Json) : Response :=
  {| statusCode := status; headers := cors_headers; body := body |}.

Definition table_json (t : TableRecord) : Json :=
  JObj [("page_number", JNum (Z.of_nat (page_number t)));
        ("table_number", JNum (Z.of_nat (table_number t)));
        ("data", JArr (map (fun row => JArr (map JStr row)) (data t)));
        ("rows", JNum (Z.of_nat (rows t)));
        ("columns", JNum (Z.of_nat (columns t)))].

Section Handler.

(** [json.loads]; [None] when it raises *)
Variable json_loads : string -> option Json.
(** [base64.b64decode] of a str; [None] when it raises *)
Variable b64decode : string -> option string.
(** [base64.b64encode(...).decode('utf-8')] *)
Variable b64encode : string -> string.
(** pdfplumber on the bytes of a PDF: the tables of each page, or the
    exception it raises *)
Variable open_pdf : string -> Res (list (list Table)).
(** the Excel writer on the sheets: the bytes of the workbook, or the
    exception it raises *)
Variable write_excel : list (string * Frame) -> Res string.
(** [str(obj)] *)
Variable py_str : Json -> string.
(** [str(e)] *)
Variable exn_str : exn -> string.

Definition and_then {A B} (r : Res A) (k : A -> Res B) : Res B :=
  match r with
  | Return a => k a
  | Raise e => Raise e
  end.

(** [data] of the handler *)
Definition request_data (request : Request) : Res Json :=
  match json_attr request with
  | Some data => Return data
  | None =>
      match body_attr request with
      | Some (JStr text) =>
          match json_loads text with
          | Some data => Return data
          | None => Raise ValueError
          end
      | Some _ => Raise TypeError
      | None => Return (JObj [])
      end
  end.

(** [f"{filename}"] *)
Definition show (v : Json) : string :=
  match v with
  | JStr s => s
  | other => py_str other
  end.

(** the [try] suite *)
Definition handle (request : Request) : Res Response :=
  if String.eqb (method request) "OPTIONS" then
    Return (reply 200 (JObj [("message", JStr "CORS preflight")]))
  else if negb (String.eqb (method request) "POST") then
    Return (reply 405 (JObj [("error", JStr "Method not allowed")]))
  else
    and_then (request_data request) (fun data =>
    and_then (get data "pdf_data" JNull) (fun pdf_data =>
    and_then (get data "filename" (JStr "document.pdf")) (fun filename =>
    if negb (truthy pdf_data) then
      Return (reply 400 (JObj [("success", JBool false);
                               ("error", JStr "No PDF data provided")]))
    else
      and_then (match pdf_data with
                | JStr s => match b64decode s with
                            | Some pdf_bytes => Return pdf_bytes
                            | None => Raise ValueError
                            end
                | _ => Raise TypeError
                end) (fun pdf_bytes =>
      and_then (open_pdf pdf_bytes) (fun pages =>
      let tables := extract_tables_from_pdf pages in
      match tables with
      | [] =>
          Return (reply 200 (JObj [("success", JBool false);
                                   ("error", JStr "No tables found in the PDF");
                                   ("tables", JArr [])]))
      | _ :: _ =>
          and_then (write_excel (sheets tables)) (fun excel_data =>
          Return (reply 200
                    (JObj [("success", JBool true);
                           ("tables", JArr (map table_json tables));
                           ("excel_data", JStr (b64encode excel_data));
                           ("message",
                            JStr ("Successfully extracted "
                                  ++ pretty (length tables)
                                  ++ " table(s) from " ++ show filename))])))
      end))))).

(** [handler]: the [try] suite under [except Exception as e] *)
Definition handler (request : Request) : Res Response :=
  match handle request with
  | Return response => Return response
  | Raise e =>
      if is_Exception e then
        Return (reply 500
                  (JObj [("success", JBool false);
                         ("error", JStr ("Error processing PDF: " ++ exn_str e));
                         ("tables", JArr [])]))
      else Raise e
  end.

End Handler.

(** ** Scenarios *)

(** the request [test_local.py] sends without a PDF: base64 of "test" *)
Definition mock_request : Request :=
  {| method := "POST";
     json_attr := Some (JObj [("pdf_data", JStr "dGVzdA==");
                              ("filename", JStr "test.pdf")]);
     body_attr := None |}.

(** a PDF reader that finds the ragged table in every document *)
Definition finds_ragged (_ : string) : Res (list (list Table)) :=
  Return ragged_pdf.

(** a PDF reader that rejects every document *)
Definition rejects_pdf (_ : string) : Res (list (list Table)) :=
  Raise ValueError.

Definition decode_test (s : string) : option string :=
  if String.eqb s "dGVzdA==" then Some "test" else None.

End extract_tables.

(* ===================================================================== *)
(** * The file system *)
(* ===================================================================== *)

Module Fs.

(** Text files by path.  [unwritable p] tells whether [write_text] on [p]
    raises, and [torn p] what the failing write leaves at [p]: [None]
    when the file could not be opened (missing directory, permissions),
    so that nothing changes, and [Some n] when [open] had created or
    truncated it and the write broke after [n] characters (full disk,
    a character that cannot be encoded). *)
Record FS : Type := {
  files : gmap string string;
  unwritable : string -> bool;
  torn : string -> option nat
}.

(** the file system with [content] at [p] *)
Definition store (p content : string) (fs : FS) : FS :=
  {| files := <[p := content]> (files fs);
     unwritable := unwritable fs;
     torn := torn fs |}.

(** [Path(p).write_text(content)], that is
    [with self.open(mode='w') as f: f.write(content)] *)
Definition write_text (p content : string) : M FS unit :=
  fun fs =>
    if unwritable fs p then
      (Raise OSError,
       match torn fs p with
       | None => fs
       | Some n => store p (String.substring 0 n content) fs
       end)
    else (Return tt, store p content fs).

(** [Path(p).exists()] *)
Definition exists_ (p : string) (fs : FS) : bool :=
  match files fs !! p with Some _ => true | None => false end.

(** [out_dir / name] *)
Definition join (dir name : string) : string := dir ++ "/" ++ name.

End Fs.

(* ===================================================================== *)
(** * extraction_scripts/datalab_marker.py *)
(* ===================================================================== *)

Module datalab_marker.

(** One poll tick's exchange, [requests.get] followed by [resp.json()]. *)
Inductive GetOutcome : Type :=
| GetRaises (e : exn)            (* requests.get raises *)
| GetNonJson (status_code : Z)   (* resp.json() raises *)
| GetJson (status_code : Z) (data : Json).

(** The endpoint as seen by the client: what the n-th request (from 0)
    yields and how long it takes.  Clock readings and durations are
    counted in ticks of one fixed unit, so [timeout_s] and
    [poll_interval_s] are numbers of ticks as well. *)
Record Tick : Type := { latency : N; outcome : GetOutcome }.

Record World : Type := {
  now : Z;       (* what time.time() reads *)
  polls : nat    (* requests sent so far *)
}.

(** [time.sleep(d)] for [d >= 0] *)
Definition sleep (d : Z) (w : World) : World :=
  {| now := now w + d; polls := polls w |}.

(** [requests.get(check_url, ...)] *)
Definition request (server : nat -> Tick) (w : World) : GetOutcome * World :=
  let t := server (polls w) in
  (outcome t, {| now := now w + Z.of_N (latency t); polls := S (polls w) |}).

(** [status in {"complete", "processing", None}] for a hashable status *)
Definition known_status (status : Json) : bool :=
  eq_str status "complete" || eq_str status "processing"
  || match status with JNull => true | _ => false end.

(** The loop body from [resp.json()] on.  [Return (Some data)] is
    [break] with [last_data = data], [Return None] goes round again. *)
Definition inspect (o : GetOutcome) : Res (option Json) :=
  match o with
  | GetRaises e => Raise e
  | GetNonJson status_code =>
      match raise_for_status status_code with
      | Some e => Raise e
      | None =>
          Raise (SystemExit "Unexpected non-JSON poll response (HTTP "
                            (JNum status_code))
      end
  | GetJson _ data =>
      match get data "status" JNull with
      | Raise e => Raise e
      | Return status =>
          if eq_str status "complete" then Return (Some data)
          else if negb (hashable status) then Raise TypeError
          else if negb (known_status status)
               then Raise (SystemExit "Unexpected status from Datalab: " status)
               else Return None
      end
  end.

(** [while True: ...]; [fuel] bounds the number of iterations, [None]
    means the bound was reached. *)
Fixpoint poll_loop (fuel : nat) (server : nat -> Tick)
    (timeout_s poll_interval_s start : Z) (w : World)
  : option (Res Json * World) :=
  match fuel with
  | O => None
  | S fuel' =>
      if (now w - start >? timeout_s)%Z
      then Some (Raise (SystemExit
                          "Timed out waiting for Datalab job to complete."
                          JNull), w)
      else if (poll_interval_s <? 0)%Z
      then Some (Raise ValueError, w)   (* time.sleep rejects it *)
      else
        let (o, w') := request server (sleep poll_interval_s w) in
        match inspect o with
        | Raise e => Some (Raise e, w')
        | Return (Some last_data) => Some (Return last_data, w')
        | Return None =>
            poll_loop fuel' server timeout_s poll_interval_s start w'
        end
  end.

(** the statements after the loop *)
Definition check_success (last_data : Json) : Res Json :=
  match get last_data "success" (JBool false) with
  | Raise e => Raise e
  | Return success =>
      if negb (truthy success)
      then match get last_data "error" (JStr "Unknown error") with
           | Raise e => Raise e
           | Return err => Raise (SystemExit "Datalab job failed: " err)
           end
      else Return last_data
  end.

Definition poll_until_complete (fuel : nat) (server : nat -> Tick)
    (timeout_s poll_interval_s : Z) (w : World)
  : option (Res Json * World) :=
  let start := now w in
  match poll_loop fuel server timeout_s poll_interval_s start w with
  | None => None
  | Some (Raise e, w') => Some (Raise e, w')
  | Some (Return last_data, w') => Some (check_success last_data, w')
  end.

(** ** [main]: the structured-extraction artifact *)

Definition extraction_keys : list string :=
  ["json"; "structured_output"; "structured_data"; "extractions"; "extracted"].

(** [for key in extraction_keys: val = result.get(key); if
    isinstance(val, (dict, list)): extraction_obj = val; break] *)
Fixpoint scan_keys (keys : list string) (result : dict) : option Json :=
  match keys with
  | [] => None
  | key :: rest =>
      let val := dict_get key JNull result in
      if is_dict_or_list val then Some val else scan_keys rest result
  end.

Definition response_json_path (out_dir base_name : string) : string :=
  Fs.join out_dir (base_name ++ "-response.json").

Definition extra_json_path (out_dir base_name : string) : string :=
  Fs.join out_dir (base_name ++ "-extractions.json").

Section Materialize.

(** [json.dumps(obj, ensure_ascii=False, indent=2)] *)
Variable json_dumps : Json -> string.

Definition save_json (obj : Json) (out_path : string) : M Fs.FS unit :=
  Fs.write_text out_path (json_dumps obj).

(** [if page_schema_json is not None: ...] of [main] *)
Definition save_extraction (page_schema_json : option string)
    (out_dir base_name : string) (result : dict) : M Fs.FS unit :=
  match page_schema_json with
  | None => ret tt
  | Some _ =>
      match scan_keys extraction_keys result with
      | None => ret tt
      | Some extraction_obj =>
          save_json extraction_obj (extra_json_path out_dir base_name)
      end
  end.

End Materialize.

(** Following the spec's words: "the first matching non-empty structured
    value" among the candidate keys. *)
Fixpoint first_nonempty_structured (keys : list string) (result : dict)
  : option Json :=
  match keys with
  | [] => None
  | key :: rest =>
      let val := dict_get key JNull result in
      if is_dict_or_list val && truthy val then Some val
      else first_nonempty_structured rest result
  end.

(** ** Scenarios *)

Definition processing : Json := JObj [("status", JStr "processing")].
Definition complete_ok : Json :=
  JObj [("status", JStr "complete"); ("success", JBool true);
        ("markdown", JStr "# title")].
Definition complete_failed : Json :=
  JObj [("status", JStr "complete"); ("success", JBool false);
        ("error", JStr "page limit exceeded")].
Definition queued : Json := JObj [("status", JStr "queued")].

Definition instant (data : Json) : Tick :=
  {| latency := 0%N; outcome := GetJson 200 data |}.

(** still processing at the first poll, complete at the second *)
Definition slow_job (n : nat) : Tick :=
  match n with
  | O => instant processing
  | _ => instant complete_ok
  end.

(** a job that never leaves [processing] *)
Definition stuck_job (_ : nat) : Tick := instant processing.

(** the same job behind a link on which every request takes one tick *)
Definition stuck_link (_ : nat) : Tick :=
  {| latency := 1%N; outcome := GetJson 200 processing |}.

Definition failing_job (n : nat) : Tick :=
  match n with
  | O => instant processing
  | _ => instant complete_failed
  end.

Definition queued_job (n : nat) : Tick :=
  match n with
  | O => instant processing
  | 1 => instant queued
  | _ => instant complete_ok
  end.

Definition epoch : World := {| now := 0; polls := 0 |}.

(** a response whose first candidate key holds an empty list *)
Definition empty_first : dict :=
  [("status", JStr "complete"); ("success", JBool true);
   ("json", JArr []);
   ("structured_output", JObj [("title", JStr "Phase 2 results")])].

Definition empty_fs : Fs.FS :=
  {| Fs.files := ∅;
     Fs.unwritable := fun _ => false;
     Fs.torn := fun _ => None |}.

(** ** [read_api_key], [build_form_data], [submit_marker_job] *)

(** [a or b] for two optional strs: Python yields the first operand when
    it is a non-empty str and the second one otherwise *)
Definition or_else (a b : option string) : option string :=
  match a with
  | Some s => if String.eqb s "" then b else a
  | None => b
  end.

(** [env_key] is [os.getenv("DATALAB_API_KEY")] *)
Definition read_api_key (cmdline_api_key env_key : option string)
  : Res string :=
  match or_else cmdline_api_key env_key with
  | Some api_key =>
      if String.eqb api_key ""
      then Raise (SystemExit "Missing API key. Provide --api-key or set DATALAB_API_KEY environment variable." JNull)
      else Return api_key
  | None =>
      Raise (SystemExit "Missing API key. Provide --api-key or set DATALAB_API_KEY environment variable." JNull)
  end.

(** [str(b).lower()] *)
Definition bool_lower (b : bool) : string :=
  lower (if b then "True" else "False").

(** the value of a multipart field: an open file or a text *)
Inductive FormValue : Type :=
| OpenFile (path : string)
| Text (s : string).

(** a field as [requests] takes it: file name, value, content type *)
Definition FormField : Type := (option string * FormValue * option string)%type.

Definition build_form_data (pdf_name pdf_path output_format : string)
    (force_ocr paginate : bool) (use_llm : option bool)
    (strip_existing_ocr disable_image_extraction : bool)
    (page_schema_json : option string) : list (string * FormField) :=
  let form :=
    [("file", (Some pdf_name, OpenFile pdf_path, Some "application/pdf"));
     ("output_format", (None, Text output_format, None));
     ("force_ocr", (None, Text (bool_lower force_ocr), None));
     ("paginate", (None, Text (bool_lower paginate), None));
     ("strip_existing_ocr", (None, Text (bool_lower strip_existing_ocr), None));
     ("disable_image_extraction",
      (None, Text (bool_lower disable_image_extraction), None))] in
  let form :=
    match use_llm with
    | Some b => (form ++ [("use_llm", (None, Text (bool_lower b), None))])%list
    | None => form
    end in
  match page_schema_json with
  | Some schema => (form ++ [("page_schema", (None, Text schema, None))])%list
  | None => form
  end.

(** [form[k]] *)
Fixpoint form_field (k : string) (form : list (string * FormField))
  : option FormField :=
  match form with
  | [] => None
  | (k', v) :: form' => if String.eqb k k' then Some v else form_field k form'
  end.

(** [use_llm_opt] of [main], from [args.use_llm] and the schema *)
Definition use_llm_opt (args_use_llm page_schema_json : option string)
  : option bool :=
  match args_use_llm with
  | None => match page_schema_json with
            | Some _ => Some true
            | None => None
            end
  | Some s => Some (String.eqb (lower s) "true")
  end.

(** The submission's exchange, [requests.post] followed by [resp.json()];
    [text] is [resp.text]. *)
Inductive SubmitOutcome : Type :=
| SubmitRaises (e : exn)
| SubmitNonJson (status_code : Z) (text : string)
| SubmitJson (status_code : Z) (text : string) (data : Json).

Definition submit_marker_job (o : SubmitOutcome) : Res Json :=
  match o with
  | SubmitRaises e => Raise e
  | SubmitNonJson status_code _ =>
      match raise_for_status status_code with
      | Some e => Raise e
      | None => Raise (SystemExit "Unexpected non-JSON response (HTTP "
                                  (JNum status_code))
      end
  | SubmitJson status_code text data =>
      (* resp.status_code >= 400 or not data.get("success", False) *)
      let failed :=
        if (status_code >=? 400)%Z then Return true
        else match get data "success" (JBool false) with
             | Return success => Return (negb (truthy success))
             | Raise e => Raise e
             end in
      match failed with
      | Raise e => Raise e
      | Return true =>
          match get data "error" JNull with
          | Raise e => Raise e
          | Return error =>
              Raise (SystemExit "Marker submission failed: "
                       (if truthy error then error else JStr text))
          end
      | Return false =>
          match get data "request_check_url" JNull with
          | Raise e => Raise e
          | Return url =>
              if negb (truthy url)
              then Raise (SystemExit
                            "Marker response missing 'request_check_url'."
                            JNull)
              else Return data
          end
      end
  end.

(** ** [safe_stem] *)

(** [c.isalnum()] *)
Definition isalnum (c : ascii) : bool :=
  let n := nat_of_ascii c in
  (((48 <=? n) && (n <=? 57)) || ((65 <=? n) && (n <=? 90))
   || ((97 <=? n) && (n <=? 122)) || (n =? 170)
   || ((178 <=? n) && (n <=? 179)) || (n =? 181)
   || ((185 <=? n) && (n <=? 186)) || ((188 <=? n) && (n <=? 190))
   || ((192 <=? n) && (n <=? 214)) || ((216 <=? n) && (n <=? 246))
   || ((248 <=? n) && (n <=? 255)))%nat.

(** [c.isalnum() or c in ("-", "_")] *)
Definition keeps (c : ascii) : bool :=
  isalnum c || Ascii.eqb c (ascii_of_nat 45) || Ascii.eqb c (ascii_of_nat 95).

(** on the stem of the path *)
Fixpoint safe_stem (stem : string) : string :=
  match stem with
  | EmptyString => EmptyString
  | String c stem' =>
      String (if keeps c then c else ascii_of_nat 45) (safe_stem stem')
  end.

(** ** Saving the markdown and the images *)

Definition md_path (out_dir base_name : string) : string :=
  Fs.join out_dir (base_name ++ ".md").

(** [if isinstance(markdown, str) and markdown.strip(): ...] of [main];
    yields [md_path] *)
Definition save_markdown (out_dir base_name : string) (result : dict)
  : M Fs.FS (option string) :=
  match dict_get "markdown" JNull result with
  | JStr markdown =>
      if negb (String.eqb (strip markdown) "") then
        Fs.write_text (md_path out_dir base_name) markdown ;;
        ret (Some (md_path out_dir base_name))
      else ret None
  | _ => ret None
  end.

Section Images.

(** [base64.b64decode]; [None] when it raises *)
Variable b64decode : string -> option string.
(** [json.dumps(obj, ensure_ascii=False, indent=2)] *)
Variable json_dumps : Json -> string.
(** [str(obj)] *)
Variable py_str : Json -> string.
(** [str(dir / name)] *)
Variable div : string -> string -> string.
(** [Path(name).stem] *)
Variable stem_of : string -> string.

(** [data = base64.b64decode(s); out_path.write_bytes(data); return True] *)
Definition decode_to_file (s out_path : string) : M Fs.FS bool :=
  match b64decode s with
  | None => raise ValueError
  | Some data => Fs.write_text out_path data ;; ret true
  end.

(** [for key in ("data", "content", "base64", "b64"): if key in content
    and isinstance(content[key], str): ...]: the str the loop stops at *)
Fixpoint first_str (keys : list string) (content : dict) : option string :=
  match keys with
  | [] => None
  | key :: rest =>
      match assoc key content with
      | Some (JStr s) => Some s
      | _ => first_str rest content
      end
  end.

Definition try_decode_base64_to_file (content : Json) (out_path : string)
  : M Fs.FS bool :=
  try_except
    (match content with
     | JStr s => decode_to_file s out_path
     | JObj d =>
         match first_str ["data"; "content"; "base64"; "b64"] d with
         | Some s => decode_to_file s out_path
         | None => ret false
         end
     | _ => ret false
     end)
    (fun _ => ret false).

(** ["." in filename] *)
Definition has_dot (filename : Json) : Res bool :=
  match filename with
  | JStr s => Return (contains "." s)
  | JArr xs => Return (existsb (fun x => eq_str x ".") xs)
  | JObj d => Return (match assoc "." d with Some _ => true | None => false end)
  | _ => Raise TypeError
  end.

(** the file name of an entry, with ".png" added when it has no dot *)
Definition entry_filename (key : string) (value : Json) : Res Json :=
  let filename :=
    match value with
    | JObj d =>
        let given := dict_get "filename" JNull d in
        if truthy given then given else JStr key
    | _ => JStr key
    end in
  match has_dot filename with
  | Raise e => Raise e
  | Return true => Return filename
  | Return false =>
      (* f"{filename}.png" *)
      Return (JStr (match filename with
                    | JStr s => s
                    | other => py_str other
                    end ++ ".png"))
  end.

(** the loop variables [num_saved], [num_urls], [urls_lines] *)
Record Counts : Type := {
  num_saved : nat;
  num_urls : nat;
  urls_lines : list string
}.

Definition tab : string := String (ascii_of_nat 9) EmptyString.

(** the body of [for key, value in images.items()] *)
Definition save_image (images_dir key : string) (value : Json) (c : Counts)
  : M Fs.FS Counts :=
  let* filename := lift (entry_filename key value) in
  match filename with
  | JStr filename =>
      let out_path := div images_dir filename in
      let* decoded := try_decode_base64_to_file value out_path in
      if decoded then
        ret {| num_saved := S (num_saved c); num_urls := num_urls c;
               urls_lines := urls_lines c |}
      else
        match value with
        | JObj d =>
            match dict_get "url" JNull d with
            | JStr url =>
                ret {| num_saved := num_saved c; num_urls := S (num_urls c);
                       urls_lines :=
                         urls_lines c ++ [filename ++ tab ++ url] |}
            | _ =>
                Fs.write_text (div images_dir (stem_of filename ++ ".raw.json"))
                  (json_dumps value) ;;
                ret c
            end
        | _ =>
            Fs.write_text (div images_dir (stem_of filename ++ ".raw.json"))
              (json_dumps value) ;;
            ret c
        end
  | _ => raise TypeError   (* images_dir / filename *)
  end.

Fixpoint save_each (images_dir : string) (images : dict) (c : Counts)
  : M Fs.FS Counts :=
  match images with
  | [] => ret c
  | (key, value) :: rest =>
      let* c := save_image images_dir key value c in
      save_each images_dir rest c
  end.

(** ["\n".join(lines)] *)
Fixpoint join_lines (lines : list string) : string :=
  match lines with
  | [] => ""
  | [l] => l
  | l :: rest => l ++ String (ascii_of_nat 10) (join_lines rest)
  end.

Definition save_images_if_present (response : dict) (images_dir : string)
  : M Fs.FS (nat * nat) :=
  match dict_get "images" JNull response with
  | JObj ((_ :: _) as images) =>
      let* c := save_each images_dir images
                  {| num_saved := 0; num_urls := 0; urls_lines := [] |} in
      match urls_lines c with
      | [] => ret (num_saved c, num_urls c)
      | _ =>
          Fs.write_text (div images_dir "image_urls.txt")
            (join_lines (urls_lines c)) ;;
          ret (num_saved c, num_urls c)
      end
  | _ => ret (0%nat, 0%nat)
  end.

End Images.

(** a decoder that knows one text *)
Definition decode_known (s : string) : option string :=
  if String.eqb s "aGk=" then Some "hi" else None.

(** three attachments: inline base64, a link, and something else *)
Definition three_images : dict :=
  [("images",
    JObj [("fig1.png", JStr "aGk=");
          ("fig2", JObj [("url", JStr "https://cdn.example/fig2.png")]);
          ("fig3.png", JNum 7)])].

End datalab_marker.

(* ===================================================================== *)
(** * scripts/graphify_images.py *)
(* ===================================================================== *)

Module graphify_images.

Definition SUPPORTED_IMAGE_EXTS : list string :=
  [".png"; ".jpg"; ".jpeg"; ".webp"].

Record GptConfig : Type := {
  api_key : string;
  api_base : string;
  model : string;
  timeout_s : Z;
  temperature : Z
}.

(** A [pathlib.Path] split the way the code reads it. *)
Record Path : Type := { parent : string; stem : string; suffix : string }.

Definition name (p : Path) : string := stem p ++ suffix p.
Definition str (p : Path) : string := Fs.join (parent p) (name p).

Definition mem (s : string) (l : list string) : bool :=
  existsb (String.eqb s) l.

Definition infer_mime_type (path : Path) : string :=
  let ext := lower (suffix path) in
  if mem ext [".jpg"; ".jpeg"] then "image/jpeg"
  else if String.eqb ext ".png" then "image/png"
  else if String.eqb ext ".webp" then "image/webp"
  else "application/octet-stream".

Definition to_data_url (mime b64 : string) : string :=
  "data:" ++ mime ++ ";base64," ++ b64.

(** ** The outside world *)

(** One vision call attempt: [requests.post] followed by [resp.json()]. *)
Inductive PostOutcome : Type :=
| PostTimeout                      (* post raises requests.exceptions.Timeout *)
| PostRaises                       (* post raises another Exception *)
| PostNonJson (status_code : Z)    (* resp.json() raises *)
| PostJson (status_code : Z) (data : Json).

(** What the generated code does in the child process before the parent
    stops waiting for it. *)
Inductive CodeOutcome : Type :=
| ExecRaises (exc_text : string)      (* import, compile or exec raises *)
| NotCallable                         (* no callable recreate_plot defined *)
| Recreated                           (* recreate(output_path) returned *)
| RecreateRaises (exc_text : string)  (* recreate(output_path) raised *)
| StillRunning                        (* alive after join(exec_timeout_s) *)
| Vanished.                           (* exited without a result message *)

Record World : Type := {
  fs : Fs.FS;
  slept : list Z;              (* arguments of time.sleep, in order *)
  posted : list (Z * dict);    (* attempt and body of each requests.post *)
  executed : list (string * string)
                               (* code and path of each sandboxed run *)
}.

(** a finished task of the pool: the image and what [fut.result()] does *)
Definition Future : Type := Path * Res Json.

Record Env : Type := {
  (** base64 of [path.read_bytes()]; [None] when the read raises *)
  read_b64 : Path -> option string;
  (** the endpoint: image, attempt number, request body *)
  post : Path -> Z -> dict -> PostOutcome;
  (** [json.loads]; [None] when it raises *)
  json_loads : string -> option Json;
  (** [json.dumps(obj, ensure_ascii=False, indent=2)] *)
  json_dumps : Json -> string;
  (** [str(exc)] *)
  exn_str : exn -> string;
  (** the generated code: source text, output path, time limit, and the
      files before; yields the files it leaves behind *)
  run_code : string -> string -> Z -> Fs.FS -> CodeOutcome * Fs.FS;
  (** the order in which [as_completed] yields the futures *)
  as_completed : list Future -> list Future
}.

Definition sleep (d : Z) : M World unit :=
  modify (fun w => {| fs := fs w; slept := slept w ++ [d];
                      posted := posted w; executed := executed w |}).

Definition log_post (attempt : Z) (body : dict) : M World unit :=
  modify (fun w => {| fs := fs w; slept := slept w;
                      posted := posted w ++ [(attempt, body)];
                      executed := executed w |}).

Definition log_exec (code path : string) : M World unit :=
  modify (fun w => {| fs := fs w; slept := slept w; posted := posted w;
                      executed := executed w ++ [(code, path)] |}).

Definition with_fs {A} (m : M Fs.FS A) : M World A :=
  fun w => let (r, fs') := m (fs w) in
           (r, {| fs := fs'; slept := slept w; posted := posted w;
                  executed := executed w |}).

Definition load_image_b64 (env : Env) (path : Path) : M World (string * string) :=
  match read_b64 env path with
  | None => raise OSError
  | Some b64 => ret (infer_mime_type path, b64)
  end.

(** ** [call_gpt_vision_json] *)

Definition schema_desc : string :=
  "Return a JSON object with keys: is_graph (bool), graph_type (string), reason (string), "
  ++ "data (object with arrays/series suitable for plotting), python_code (string), assumptions (string). "
  ++ "In python_code, define a function recreate_plot(output_path: str) that recreates the plot using matplotlib "
  ++ "(Agg backend) and saves to output_path without showing UI.".

Definition newline : string := String (ascii_of_nat 10) EmptyString.

Definition user_text (extra_context : option string) : string :=
  let text :=
    "You are a scientific figure analyzer. Determine if the image is a data visualization (graph/chart/plot). "
    ++ "If yes, extract approximate numeric data and produce Python code to reconstruct it. "
    ++ "Prefer simple lists of numbers over dataframes. Include title/axes/legend when inferable. "
    ++ "Do not use external files or network. Do not embed the image itself in output. "
    ++ "Schema: " ++ schema_desc ++ " " in
  match extra_context with
  | Some c => if String.eqb c "" then text
              else text ++ newline ++ "Context: " ++ c
  | None => text
  end.

Definition base_body (cfg : GptConfig) (extra_context : option string)
    (data_url : string) : dict :=
  [("model", JStr (model cfg));
   ("temperature", JNum (temperature cfg));
   ("response_format", JObj [("type", JStr "json_object")]);
   ("messages",
    JArr [JObj [("role", JStr "system");
                ("content",
                 JStr ("You convert static images of figures into approximate datasets and minimal plotting code. "
                       ++ "When data is ambiguous, make reasonable numeric approximations and note them in assumptions."))];
          JObj [("role", JStr "user");
                ("content",
                 JArr [JObj [("type", JStr "text");
                             ("text", JStr (user_text extra_context))];
                       JObj [("type", JStr "image_url");
                             ("image_url", JObj [("url", JStr data_url)])]])]])].

Definition max_attempts : Z := 3.

(** [range(1, max_attempts + 1)] *)
Definition attempt_range : list Z :=
  map Z.of_nat (seq 1 (Z.to_nat max_attempts)).

(** [min(2 ** (attempt - 1), 8)] *)
Definition backoff (attempt : Z) : Z := Z.min (2 ^ (attempt - 1)) 8.

(** [if attempt == max_attempts: raise last_error], then
    [time.sleep(min(2 ** (attempt - 1), 8))] before [continue] *)
Definition sleep_or_raise (attempt : Z) (last_error : exn) : M World unit :=
  if (attempt =? max_attempts)%Z then raise last_error
  else sleep (backoff attempt).

(** [field in message.lower() and "unsupported" in message.lower()] *)
Definition says_unsupported (field : string) (message : Json) : Res bool :=
  match message with
  | JStr s => Return (contains field (lower s)
                      && contains "unsupported" (lower s))
  | _ => Raise AttributeError
  end.

(** [param == field or (field in message.lower() and ...)] *)
Definition blames (field : string) (param message : Json) : Res bool :=
  if eq_str param field then Return true
  else says_unsupported field message.

Definition has_key (k : string) (d : dict) : bool :=
  match assoc k d with Some _ => true | None => false end.

Definition drop_temperature (body : dict) : dict :=
  if has_key "temperature" body then dict_pop "temperature" body else body.

Definition strict_json_message : Json :=
  JObj [("role", JStr "system");
        ("content", JStr "Respond with strict JSON only.")].

Definition drop_response_format (body : dict) : dict :=
  if has_key "response_format" body then
    let body := dict_pop "response_format" body in
    let body_messages :=
      match dict_get "messages" (JArr []) body with
      | JArr ms => ms
      | _ => []
      end in
    dict_set "messages" (JArr (strict_json_message :: body_messages)) body
  else body.

(** [x[0]] *)
Definition index0 (x : Json) : Res Json :=
  match x with
  | JArr [] => Raise IndexError
  | JArr (v :: _) => Return v
  | JStr EmptyString => Raise IndexError
  | JStr (String c _) => Return (JStr (String c EmptyString))
  | JObj _ => Raise KeyError
  | _ => Raise TypeError
  end.

Definition bind_res {A B} (r : Res A) (k : A -> Res B) : Res B :=
  match r with
  | Return a => k a
  | Raise e => Raise e
  end.

(** [data.get("choices", [{}])[0].get("message", {}).get("content")] *)
Definition reply_content (data : Json) : Res Json :=
  bind_res (get data "choices" (JArr [JObj []])) (fun choices =>
  bind_res (index0 choices) (fun choice =>
  bind_res (get choice "message" (JObj [])) (fun message =>
  get message "content" JNull))).

(** [json.loads(content)] under [except Exception as exc] with its handler
    [raise SystemExit(f"...: {exc}. Raw: {content[:500]}")].  A str that
    does not parse (JSONDecodeError, a ValueError) or a list (TypeError)
    ends in [SystemExit] with the text of that exception; any other
    value makes [json.loads] raise TypeError and then fails again on
    [content[:500]] inside the handler (TypeError; KeyError for a dict
    from Python 3.12), which is the exception that leaves. *)
Definition parse_content (env : Env) (content : Json) : Res Json :=
  match content with
  | JStr s =>
      match json_loads env s with
      | Some parsed => Return parsed
      | None => Raise (SystemExit "Failed to parse GPT JSON content: "
                         (JStr (exn_str env ValueError)))
      end
  | JArr _ => Raise (SystemExit "Failed to parse GPT JSON content: "
                       (JStr (exn_str env TypeError)))
  | _ => Raise TypeError
  end.

(** the statements of the loop body after [if resp.status_code >= 400] *)
Definition read_reply (env : Env) (data : Json) : Res Json :=
  bind_res (reply_content data) (fun content =>
  if negb (truthy content)
  then Raise (SystemExit "GPT API returned empty content: " data)
  else parse_content env content).

(** [err = data.get("error", {}) if isinstance(data, dict) else {}],
    [param = err.get("param")], [message = err.get("message", "")] *)
Definition error_fields (data : Json) : Res (Json * Json) :=
  let err := match data with
             | JObj d => dict_get "error" (JObj []) d
             | _ => JObj []
             end in
  bind_res (get err "param" JNull) (fun param =>
  bind_res (get err "message" (JStr "")) (fun message =>
  Return (param, message))).

(** [status == 429 or 500 <= status < 600] *)
Definition overloaded (status : Z) : bool :=
  ((status =? 429) || ((500 <=? status) && (status <? 600)))%Z.

(** The suite of [if resp.status_code >= 400].  [Return body'] is
    [continue] with the request body to use next. *)
Definition on_error_status (attempt status : Z) (data : Json) (body : dict)
  : M World dict :=
  let* fields := lift (error_fields data) in
  let param := fst fields in
  let message := snd fields in
  let* temp := lift (blames "temperature" param message) in
  if temp then
    let body := drop_temperature body in
    sleep_or_raise attempt (SystemExit "GPT API error: " data) ;;
    ret body
  else
    let* fmt := lift (blames "response_format" param message) in
    if fmt then
      let body := drop_response_format body in
      sleep_or_raise attempt (SystemExit "GPT API error: " data) ;;
      ret body
    else if overloaded status then
      sleep_or_raise attempt
        (SystemExit "GPT API error after retries: " data) ;;
      ret body
    else raise (SystemExit "GPT API error: " data).

(** What one pass through the loop body leads to. *)
Inductive Pass : Type :=
| Parsed (parsed : Json)                    (* return parsed *)
| Continue (body : dict) (resp : option Z). (* continue *)

(** One pass of [for attempt in range(1, max_attempts + 1)].  [resp] is
    the status of the response the variable [resp] is bound to, if any:
    the handler of a failed [requests.post] calls
    [resp.raise_for_status()] on whatever an earlier pass left there. *)
Definition attempt_once (env : Env) (image_path : Path) (attempt : Z)
    (body : dict) (resp : option Z) : M World Pass :=
  log_post attempt body ;;
  match post env image_path attempt body with
  | PostTimeout =>
      sleep_or_raise attempt
        (SystemExit "GPT API timeout on " (JStr (name image_path))) ;;
      ret (Continue body resp)
  | PostRaises =>
      match resp with
      | None => raise UnboundLocalError
      | Some status =>
          match raise_for_status status with
          | Some e => raise e
          | None => raise (SystemExit "Non-JSON response from GPT API (HTTP "
                                      (JNum status))
          end
      end
  | PostNonJson status =>
      match raise_for_status status with
      | Some e => raise e
      | None => raise (SystemExit "Non-JSON response from GPT API (HTTP "
                                  (JNum status))
      end
  | PostJson status data =>
      if (status >=? 400)%Z then
        let* body := on_error_status attempt status data body in
        ret (Continue body (Some status))
      else
        let* parsed := lift (read_reply env data) in
        ret (Parsed parsed)
  end.

Fixpoint attempt_loop (env : Env) (image_path : Path) (attempts : list Z)
    (body : dict) (resp : option Z) : M World Json :=
  match attempts with
  | [] => raise (SystemExit "GPT API call failed after retries" JNull)
  | attempt :: rest =>
      let* pass := attempt_once env image_path attempt body resp in
      match pass with
      | Parsed parsed => ret parsed
      | Continue body resp => attempt_loop env image_path rest body resp
      end
  end.

Definition call_gpt_vision_json (env : Env) (cfg : GptConfig)
    (image_path : Path) (extra_context : option string) : M World Json :=
  let* image := load_image_b64 env image_path in
  let data_url := to_data_url (fst image) (snd image) in
  let body := base_body cfg extra_context data_url in
  attempt_loop env image_path attempt_range body None.

(** ** [sanitize_filename] *)

(** a character of the class [A-Za-z0-9_.-] *)
Definition safe_char (c : ascii) : bool :=
  let n := nat_of_ascii c in
  (((65 <=? n) && (n <=? 90)) || ((97 <=? n) && (n <=? 122))
   || ((48 <=? n) && (n <=? 57)) || (n =? 95) || (n =? 46) || (n =? 45))%nat.

Definition dash : ascii := ascii_of_nat 45.

(** [re.sub(r"[^A-Za-z0-9_.-]+", "-", name)]; [in_run] tells that the
    previous character already belonged to the run being replaced *)
Fixpoint sub_unsafe (in_run : bool) (s : string) : string :=
  match s with
  | EmptyString => EmptyString
  | String c s' =>
      if safe_char c then String c (sub_unsafe false s')
      else if in_run then sub_unsafe true s'
      else String dash (sub_unsafe true s')
  end.

Definition sanitize_filename (name : string) : string :=
  let cleaned := strip_if (Ascii.eqb dash) (sub_unsafe false name) in
  if String.eqb cleaned "" then "untitled" else cleaned.

(** ** The sandbox: [_exec_child] and [execute_generated_code] *)

(** What [_exec_child] puts on [result_queue], by what the code did. *)
Definition _exec_child (outcome : CodeOutcome) : list dict :=
  match outcome with
  | ExecRaises t | RecreateRaises t =>
      [[("ok", JBool false); ("error", JStr ("Execution error: " ++ t))]]
  | NotCallable =>
      [[("ok", JBool false);
        ("error", JStr "No recreate_plot(output_path: str) found")]]
  | Recreated => [[("ok", JBool true)]]
  | StillRunning | Vanished => []
  end.

(** [p.is_alive()] after [p.join(exec_timeout_s)] *)
Definition is_alive (outcome : CodeOutcome) : bool :=
  match outcome with StillRunning => true | _ => false end.

(** [p.start(); p.join(exec_timeout_s)]: the child runs and leaves its
    files behind *)
Definition run_child (env : Env) (code output_path : string)
    (exec_timeout_s : Z) : M World CodeOutcome :=
  fun w =>
    let (outcome, fs') := run_code env code output_path exec_timeout_s (fs w) in
    (Return outcome,
     {| fs := fs'; slept := slept w; posted := posted w;
        executed := executed w |}).

(** Returns the pair [(ok, error)], [None] being [JNull]. *)
Definition execute_generated_code (env : Env) (python_code output_path : string)
    (exec_timeout_s : Z) : M World (bool * Json) :=
  log_exec python_code output_path ;;
  let* outcome := run_child env python_code output_path exec_timeout_s in
  if is_alive outcome then
    ret (false,
         JStr ("Execution timed out after " ++ pretty exec_timeout_s ++ "s"))
  else
    match _exec_child outcome with
    | [] => ret (false, JStr "No result returned from execution")
    | res :: _ =>
        if truthy (dict_get "ok" JNull res) then ret (true, JNull)
        else
          let error := dict_get "error" JNull res in
          ret (false,
               if truthy error then error else JStr "Unknown execution error")
    end.

(** ** [iter_images] *)

Record DirEntry : Type := { entry_path : Path; is_file : bool }.

(** [listing] is [sorted(images_dir.iterdir())] *)
Fixpoint iter_images (listing : list DirEntry) : list Path :=
  match listing with
  | [] => []
  | e :: rest =>
      if is_file e && mem (lower (suffix (entry_path e))) SUPPORTED_IMAGE_EXTS
      then entry_path e :: iter_images rest
      else iter_images rest
  end.

(** [l[:n]] *)
Definition slice_to {A} (n : Z) (l : list A) : list A :=
  if (n <? 0)%Z then firstn (Z.to_nat (Z.of_nat (length l) + n)) l
  else firstn (Z.to_nat n) l.

(** ** [detect_and_reconstruct_graphs] and its worker [_process] *)

(** [result.setdefault(k, v)] *)
Definition setdefault (result : Json) (k : string) (v : Json) : Res dict :=
  match result with
  | JObj d => Return (if has_key k d then d else (d ++ [(k, v)])%list)
  | _ => Raise AttributeError
  end.

(** [(result.get("error") or "") + f" | save-json-error: {exc}"] stored
    under ["error"] *)
Definition add_save_error (env : Env) (result : dict) (exc : exn) : Res dict :=
  let error := dict_get "error" JNull result in
  match (if truthy error then error else JStr "") with
  | JStr s =>
      Return (dict_set "error"
                (JStr (s ++ " | save-json-error: " ++ exn_str env exc)) result)
  | _ => Raise TypeError
  end.

Section Batch.

Variable env : Env.
Variable out_dir : string.
Variable gpt_cfg : GptConfig.
Variable execute : bool.
Variable extra_context : option string.
Variable exec_timeout_s : Z.

Definition json_path_of (img_path : Path) : string :=
  Fs.join out_dir (sanitize_filename (stem img_path) ++ ".graph.json").

Definition recon_path_of (img_path : Path) : string :=
  Fs.join out_dir (sanitize_filename (stem img_path) ++ ".reconstructed.png").

(** the classification step: [try ... except Exception ... else ...] *)
Definition classify (img_path : Path) : M World dict :=
  try_except_else
    (call_gpt_vision_json env gpt_cfg img_path extra_context)
    (fun exc =>
       ret [("is_graph", JBool false);
            ("error", JStr ("GPT call failed: " ++ exn_str env exc))])
    (fun result => lift (setdefault result "is_graph" (JBool false))).

(** the second [try]: save the raw JSON result *)
Definition save_result (json_path : string) (result : dict) : M World dict :=
  try_except
    (with_fs (Fs.write_text json_path (json_dumps env (JObj result))) ;;
     ret result)
    (fun exc => lift (add_save_error env result exc)).

(** the guard of the sandboxed run *)
Definition wants_execution (result : dict) : bool :=
  execute && truthy (dict_get "is_graph" JNull result)
  && is_str (dict_get "python_code" JNull result).

Definition _process (img_path : Path) : M World Json :=
  let json_path := json_path_of img_path in
  let recon_path := recon_path_of img_path in
  let* result := classify img_path in
  let* result := save_result json_path result in
  let* ran :=
    if wants_execution result then
      match dict_get "python_code" JNull result with
      | JStr python_code =>
          execute_generated_code env python_code recon_path exec_timeout_s
      | _ => ret (false, JNull)
      end
    else ret (false, JNull) in
  let reconstructed_ok := fst ran in
  let exec_error := snd ran in
  let error := dict_get "error" JNull result in
  ret (JObj [("image", JStr (str img_path));
             ("json", JStr json_path);
             ("reconstructed",
              if reconstructed_ok then JStr recon_path else JNull);
             ("is_graph", JBool (truthy (dict_get "is_graph" JNull result)));
             ("graph_type", dict_get "graph_type" JNull result);
             ("error", if truthy error then error else exec_error)]).

(** [pool.submit(_process, p) for p in images]: every task runs to its
    end, whatever the others do; a task that raises keeps the exception
    in its future.  The tasks' effects are recorded one task after the
    other. *)
Fixpoint submit_all (images : list Path) (w : World) : list Future * World :=
  match images with
  | [] => ([], w)
  | p :: rest =>
      let (r, w') := _process p w in
      let (futures, w'') := submit_all rest w' in
      ((p, r) :: futures, w'')
  end.

Definition worker_error_entry (p : Path) (exc : exn) : Json :=
  JObj [("image", JStr (str p));
        ("json", JNull);
        ("reconstructed", JNull);
        ("is_graph", JBool false);
        ("graph_type", JNull);
        ("error", JStr ("worker-error: " ++ exn_str env exc))].

(** [for fut in as_completed(futures): try: entry = fut.result() except
    Exception ...; summary.append(entry)] *)
Fixpoint collect (futures : list Future) (summary : list Json)
  : Res (list Json) :=
  match futures with
  | [] => Return summary
  | (p, r) :: rest =>
      match r with
      | Return entry => collect rest (summary ++ [entry])
      | Raise exc =>
          if is_Exception exc
          then collect rest (summary ++ [worker_error_entry p exc])
          else Raise exc
      end
  end.

(** [for p in images: summary.append(_process(p))] *)
Fixpoint one_by_one (images : list Path) (summary : list Json)
  : M World (list Json) :=
  match images with
  | [] => ret summary
  | p :: rest =>
      let* entry := _process p in
      one_by_one rest (summary ++ [entry])
  end.

(** the function up to the point where [summary] is complete *)
Definition build_summary (listing : list DirEntry) (max_images : option Z)
    (concurrency : Z) : M World (list Json) :=
  let images := iter_images listing in
  let images := match max_images with
                | Some n => slice_to n images
                | None => images
                end in
  if (negb (concurrency =? 0) && (concurrency >? 1))%Z then
    fun w =>
      let (futures, w') := submit_all images w in
      (collect (as_completed env futures) [], w')
  else one_by_one images [].

Definition summary_path : string := Fs.join out_dir "summary.json".

Definition detect_and_reconstruct_graphs (listing : list DirEntry)
    (max_images : option Z) (concurrency : Z) : M World Json :=
  let* summary := build_summary listing max_images concurrency in
  with_fs (Fs.write_text summary_path (json_dumps env (JArr summary))) ;;
  ret (JObj [("summary_path", JStr summary_path);
             ("count", JNum (Z.of_nat (length summary)))]).

End Batch.


(** ** Scenarios *)

Definition cfg : GptConfig :=
  {| api_key := "sk-test"; api_base := "https://api.openai.com/v1";
     model := "gpt-5-mini"; timeout_s := 120; temperature := 1 |}.

Definition figure1 : Path :=
  {| parent := "paper_images"; stem := "figure 1"; suffix := ".png" |}.
Definition figure2 : Path :=
  {| parent := "paper_images"; stem := "figure 2"; suffix := ".JPG" |}.
Definition notes : Path :=
  {| parent := "paper_images"; stem := "notes"; suffix := ".txt" |}.

Definition two_figures : list DirEntry :=
  [ {| entry_path := figure1; is_file := true |};
    {| entry_path := figure2; is_file := true |};
    {| entry_path := notes; is_file := true |} ].

(** what the model answers about a bar chart *)
Definition graph_reply : Json :=
  JObj [("is_graph", JBool true); ("graph_type", JStr "bar");
        ("python_code", JStr "def recreate_plot(output_path): pass")].

(** a chat completion carrying [content] *)
Definition completion (content : string) : Json :=
  JObj [("choices",
         JArr [JObj [("message", JObj [("role", JStr "assistant");
                                       ("content", JStr content)])]])].

(** a parser that knows the one reply used here *)
Definition loads_known (s : string) : option Json :=
  if String.eqb s (dumps graph_reply) then Some graph_reply else None.

Definition scenario (post : Path -> Z -> dict -> PostOutcome)
    (run_code : string -> string -> Z -> Fs.FS -> CodeOutcome * Fs.FS) : Env :=
  {| read_b64 := fun _ => Some "iVBORw0KGgo=";
     post := post;
     json_loads := loads_known;
     json_dumps := dumps;
     exn_str := class_name;
     run_code := run_code;
     as_completed := fun futures => futures |}.

Definition put_file (p content : string) (fs : Fs.FS) : Fs.FS :=
  Fs.store p content fs.

(** generated code that draws the plot *)
Definition draws : string -> string -> Z -> Fs.FS -> CodeOutcome * Fs.FS :=
  fun _ output_path _ fs => (Recreated, put_file output_path "PNG" fs).

(** generated code whose entry point returns without saving anything *)
Definition forgets_to_save
  : string -> string -> Z -> Fs.FS -> CodeOutcome * Fs.FS :=
  fun _ _ _ fs => (Recreated, fs).


(** every request times out *)
Definition unreachable_endpoint : Env :=
  scenario (fun _ _ _ => PostTimeout) draws.

Definition bad_key_reply : Json :=
  JObj [("error", JObj [("message", JStr "Incorrect API key provided");
                        ("type", JStr "invalid_request_error");
                        ("param", JNull);
                        ("code", JStr "invalid_api_key")])].

(** every request is rejected with HTTP 401 *)
Definition rejecting_endpoint : Env :=
  scenario (fun _ _ _ => PostJson 401 bad_key_reply) draws.

Definition no_temperature_reply : Json :=
  JObj [("error", JObj [("message", JStr "Unsupported parameter: temperature");
                        ("type", JStr "invalid_request_error")])].

(** an endpoint that refuses requests carrying [temperature] *)
Definition picky_post : Path -> Z -> dict -> PostOutcome :=
  fun _ _ body =>
    if has_key "temperature" body then PostJson 400 no_temperature_reply
    else PostJson 200 (completion (dumps graph_reply)).

Definition picky_endpoint : Env := scenario picky_post draws.

(** an endpoint that answers at once *)
Definition plain_endpoint
    (run_code : string -> string -> Z -> Fs.FS -> CodeOutcome * Fs.FS) : Env :=
  scenario (fun _ _ _ => PostJson 200 (completion (dumps graph_reply))) run_code.

(** the entry of [figure1] once classified and redrawn *)
Definition redrawn_entry : Json :=
  JObj [("image", JStr "paper_images/figure 1.png");
        ("json", JStr "out/figure-1.graph.json");
        ("reconstructed", JStr "out/figure-1.reconstructed.png");
        ("is_graph", JBool true);
        ("graph_type", JStr "bar");
        ("error", JNull)].

(** a gateway in front of the endpoint answers 502 with an HTML page *)
Definition gateway_down : Env :=
  scenario (fun _ _ _ => PostNonJson 502) draws.

(** the link drops the first two requests, then a gateway answers 503
    with an HTML page *)
Definition worn_out_post : Path -> Z -> dict -> PostOutcome :=
  fun _ attempt _ =>
    if (attempt <? 3)%Z then PostTimeout else PostNonJson 503.

Definition worn_out_endpoint : Env := scenario worn_out_post draws.

Definition world0 : World :=
  {| fs := {| Fs.files := ∅;
              Fs.unwritable := fun _ => false;
              Fs.torn := fun _ => None |};
     slept := []; posted := []; executed := [] |}.

End graphify_images.

(* ===================================================================== *)
(** * Statements *)
(* ===================================================================== *)

Module Spec.

Definition first_char (s : string) : option ascii :=
  match s with
  | EmptyString => None
  | String c _ => Some c
  end.

Fixpoint last_char (s : string) : option ascii :=
  match s with
  | EmptyString => None
  | String c EmptyString => Some c
  | String _ s' => last_char s'
  end.

(** no whitespace at either end *)
Definition stripped (s : string) : Prop :=
  (forall c, first_char s = Some c -> isspace c = false)
  /\ (forall c, last_char s = Some c -> isspace c = false).

Definition nonempty {A} (l : list A) : bool :=
  match l with [] => false | _ => true end.

(** what a table record must look like *)
Definition record_shape (t : extract_tables.TableRecord) : Prop :=
  extract_tables.data t <> []
  /\ Forall (fun row => row <> []) (extract_tables.data t)
  /\ Forall (Forall stripped) (extract_tables.data t)
  /\ extract_tables.rows t = length (extract_tables.data t)
  /\ extract_tables.columns t = length (hd [] (extract_tables.data t)).

(** ** Polling *)

(** what the loop body makes of the n-th request's reply *)
Definition verdict (server : nat -> datalab_marker.Tick) (n : nat)
  : Res (option Json) :=
  datalab_marker.inspect (datalab_marker.outcome (server n)).

Definition timed_out : exn :=
  SystemExit "Timed out waiting for Datalab job to complete." JNull.

(** "it either returns before timeout_s elapses or fails with
    TimeoutError", for every timeout and poll interval *)
Definition returns_in_time_or_times_out : Prop :=
  forall (server : nat -> datalab_marker.Tick) (timeout_s poll_interval_s : Z)
         (w : datalab_marker.World),
  exists fuel r w',
    datalab_marker.poll_until_complete fuel server timeout_s poll_interval_s w
    = Some (r, w')
    /\ match r with
       | Return _ =>
           (datalab_marker.now w' - datalab_marker.now w <= timeout_s)%Z
       | Raise e => e = timed_out
       end.

(** ** Materializing the structured extraction *)

(** "persists the first matching non-empty structured value": whenever a
    schema was supplied, the extraction artifact holds the first
    candidate value that is a non-empty dict or list *)
Definition persists_first_nonempty : Prop :=
  forall (json_dumps : Json -> string) (schema out_dir base_name : string)
         (result : dict) (fs : Fs.FS) (v : Json),
    datalab_marker.first_nonempty_structured
      datalab_marker.extraction_keys result = Some v ->
    Fs.unwritable fs (datalab_marker.extra_json_path out_dir base_name)
    = false ->
    Fs.files (snd (datalab_marker.save_extraction json_dumps (Some schema)
                     out_dir base_name result fs))
      !! datalab_marker.extra_json_path out_dir base_name
    = Some (json_dumps v).

(** ** The vision call *)

(** the error reply blames [field], by its [param] or by its message *)
Definition blamed (field : string) (data : Json) : bool :=
  match graphify_images.error_fields data with
  | Return (param, message) =>
      match graphify_images.blames field param message with
      | Return b => b
      | Raise _ => false
      end
  | Raise _ => false
  end.

(** an error reply that blames neither optional field *)
Definition plain_error (data : Json) : bool :=
  match graphify_images.error_fields data with
  | Return (param, message) =>
      match graphify_images.blames "temperature" param message,
            graphify_images.blames "response_format" param message with
      | Return false, Return false => true
      | _, _ => false
      end
  | Raise _ => false
  end.

(** the failures the specification lists as retried: transport timeout,
    HTTP 429, HTTP 5xx *)
Definition transient (o : graphify_images.PostOutcome) : bool :=
  match o with
  | graphify_images.PostTimeout => true
  | graphify_images.PostJson status _
  | graphify_images.PostNonJson status => graphify_images.overloaded status
  | graphify_images.PostRaises => false
  end.

(** the failures after which the code may go round again: a timeout, or
    an error reply that blames a field or has status 429 or 5xx *)
Definition retryable (o : graphify_images.PostOutcome) : bool :=
  match o with
  | graphify_images.PostTimeout => true
  | graphify_images.PostJson status data =>
      (status >=? 400)%Z
      && (blamed "temperature" data || blamed "response_format" data
          || graphify_images.overloaded status)
  | _ => false
  end.

(** what the endpoint answered to a logged request *)
Definition outcome_of (env : graphify_images.Env) (img : graphify_images.Path)
    (a : Z * dict) : graphify_images.PostOutcome :=
  graphify_images.post env img (fst a) (snd a).

(** every attempt but the last ended in a failure accepted by [ok] *)
Definition retried_only_when (ok : graphify_images.PostOutcome -> bool)
    (env : graphify_images.Env) (img : graphify_images.Path)
    (w' : graphify_images.World) : Prop :=
  Forall (fun a => ok (outcome_of env img a) = true)
         (removelast (graphify_images.posted w')).

(** "retrying only on transport timeout, HTTP 429, and HTTP 5xx" *)
Definition retries_only_when_transient : Prop :=
  forall env cfg img ctx r w',
    graphify_images.call_gpt_vision_json env cfg img ctx
      graphify_images.world0 = (r, w') ->
    retried_only_when transient env img w'.

(** the request body after a retryable failure *)
Definition next_body (o : graphify_images.PostOutcome) (body : dict) : dict :=
  match o with
  | graphify_images.PostJson _ data =>
      if blamed "temperature" data
      then graphify_images.drop_temperature body
      else if blamed "response_format" data
           then graphify_images.drop_response_format body
           else body
  | _ => body
  end.

(** the world after one more request, followed by the given sleeps *)
Definition after_request (w : graphify_images.World) (attempt : Z)
    (body : dict) (sleeps : list Z) : graphify_images.World :=
  {| graphify_images.fs := graphify_images.fs w;
     graphify_images.slept := graphify_images.slept w ++ sleeps;
     graphify_images.posted :=
       graphify_images.posted w ++ [(attempt, body)];
     graphify_images.executed := graphify_images.executed w |}.

(** ** The sandbox *)


(** the world after a sandboxed run: the files are those the generated
    code left behind *)
Definition after_run (env : graphify_images.Env) (w : graphify_images.World)
    (python_code output_path : string) (exec_timeout_s : Z)
  : graphify_images.World :=
  {| graphify_images.fs :=
       snd (graphify_images.run_code env python_code output_path
              exec_timeout_s (graphify_images.fs w));
     graphify_images.slept := graphify_images.slept w;
     graphify_images.posted := graphify_images.posted w;
     graphify_images.executed :=
       graphify_images.executed w ++ [(python_code, output_path)] |}.

(** ** The batch entries *)

(** [entry[k]] *)
Definition field (k : string) (entry : Json) : Json :=
  match entry with
  | JObj d => dict_get k JNull d
  | _ => JNull
  end.

(** ** File names and image lists *)

(** every character of [s] passes the test *)
Fixpoint all_chars (p : ascii -> bool) (s : string) : bool :=
  match s with
  | EmptyString => true
  | String c s' => p c && all_chars p s'
  end.

(** a directory entry that [iter_images] yields *)
Definition supported (e : graphify_images.DirEntry) : bool :=
  graphify_images.is_file e
  && graphify_images.mem
       (lower (graphify_images.suffix (graphify_images.entry_path e)))
       graphify_images.SUPPORTED_IMAGE_EXTS.

(** the images of a batch, after the cut to [max_images] *)
Definition batch_images (listing : list graphify_images.DirEntry)
    (max_images : option Z) : list graphify_images.Path :=
  match max_images with
  | Some n => graphify_images.slice_to n (graphify_images.iter_images listing)
  | None => graphify_images.iter_images listing
  end.

(** the summary entry a finished task of the pool leads to *)
Definition entry_of (env : graphify_images.Env) (f : graphify_images.Future)
  : Json :=
  match snd f with
  | Return entry => entry
  | Raise exc => graphify_images.worker_error_entry env (fst f) exc
  end.

(** the task returned, or raised an [Exception] *)
Definition captured (f : graphify_images.Future) : bool :=
  match snd f with
  | Return _ => true
  | Raise exc => is_Exception exc
  end.

(** ** Request bodies of one vision call *)

(** the requests of a call in the order sent: each body is the previous
    one after the change its reply asked for *)
Inductive follows (env : graphify_images.Env) (img : graphify_images.Path)
  : list (Z * dict) -> Prop :=
| follows_nil : follows env img []
| follows_one a : follows env img [a]
| follows_cons a b rest :
    snd b = next_body (outcome_of env img a) (snd a) ->
    follows env img (b :: rest) ->
    follows env img (a :: b :: rest).

(** what every request body of a call keeps of the first one, [body0]:
    the model, and the messages, with the strict-JSON system message in
    front exactly when response_format has been dropped *)
Definition same_request (body0 body : dict) : Prop :=
  dict_get "model" JNull body = dict_get "model" JNull body0
  /\ ((graphify_images.has_key "response_format" body = true
       /\ dict_get "messages" JNull body = dict_get "messages" JNull body0)
      \/ (graphify_images.has_key "response_format" body = false
          /\ exists ms,
               dict_get "messages" JNull body0 = JArr ms
               /\ dict_get "messages" JNull body
                  = JArr (graphify_images.strict_json_message :: ms))).

(** [list(body.get("messages", []))] *)
Definition messages_of (body : dict) : list Json :=
  match dict_get "messages" (JArr []) body with
  | JArr ms => ms
  | _ => []
  end.

(** ** Attachments of a Datalab result *)

(** the base64 text [try_decode_base64_to_file] takes from an entry: the
    entry itself when it is a str, else the first str among its keys
    data, content, base64, b64 *)
Definition attachment_text (content : Json) : option string :=
  match content with
  | JStr s => Some s
  | JObj d => datalab_marker.first_str ["data"; "content"; "base64"; "b64"] d
  | _ => None
  end.


(** ** The handler's bodies *)

(** the body of the reply to a request that could not be processed *)
Definition processing_error (text : string) : Json :=
  JObj [("success", JBool false);
        ("error", JStr ("Error processing PDF: " ++ text));
        ("tables", JArr [])].

Definition no_pdf_data : Json :=
  JObj [("success", JBool false); ("error", JStr "No PDF data provided")].

Definition no_tables_found : Json :=
  JObj [("success", JBool false);
        ("error", JStr "No tables found in the PDF");
        ("tables", JArr [])].

(** ** Failing writes *)

(** what a failing write of [content] at [p] may leave of [fs]: every
    other file as it was, and [p] as it was or holding a beginning of
    [content] *)
Definition after_failed_write (p content : string) (fs fs' : Fs.FS) : Prop :=
  (forall q, q <> p -> Fs.files fs' !! q = Fs.files fs !! q)
  /\ (Fs.files fs' !! p = Fs.files fs !! p
      \/ exists n, Fs.files fs' !! p = Some (String.substring 0 n content)).

(** ** The attempts of a vision call *)

(** the code can read the error reply: the [error] entry of the reply,
    if it has one, is an object, and its message is a str unless its
    param is "temperature" *)
Definition readable_error (data : Json) : bool :=
  match graphify_images.error_fields data with
  | Return (param, message) =>
      match graphify_images.blames "temperature" param message with
      | Return _ => true
      | Raise _ => false
      end
  | Raise _ => false
  end.

(** the failures after which the loop goes round again when an attempt
    is left: a transport timeout, and a readable error reply that blames
    temperature or response_format or has status 429 or 5xx *)
Definition goes_round (o : graphify_images.PostOutcome) : bool :=
  match o with
  | graphify_images.PostTimeout => true
  | graphify_images.PostJson status data =>
      (status >=? 400)%Z && readable_error data
      && (blamed "temperature" data || blamed "response_format" data
          || graphify_images.overloaded status)
  | _ => false
  end.

(** the HTTP status of a reply *)
Definition status_of (o : graphify_images.PostOutcome) : option Z :=
  match o with
  | graphify_images.PostJson status _
  | graphify_images.PostNonJson status => Some status
  | _ => None
  end.

(** the reply blames temperature or response_format *)
Definition names_field (o : graphify_images.PostOutcome) : bool :=
  match o with
  | graphify_images.PostJson status data =>
      (status >=? 400)%Z
      && (blamed "temperature" data || blamed "response_format" data)
  | _ => false
  end.

(** transport timeout, HTTP 429, HTTP 5xx, or an error reply that names
    temperature or response_format *)
Definition retried_kind (o : graphify_images.PostOutcome) : bool :=
  transient o || names_field o.

(** the message of the SystemExit that a readable error reply ends in *)
Definition error_text (status : Z) (data : Json) : string :=
  if blamed "temperature" data || blamed "response_format" data
  then "GPT API error: "
  else if graphify_images.overloaded status
       then "GPT API error after retries: "
       else "GPT API error: ".

(** "exhausting all attempts fails with an exhaustion error": when the
    third attempt ends in a timeout, a 429 or a 5xx, the call raises
    SystemExit, the only error the code raises on purpose *)
Definition exhausting_raises_SystemExit : Prop :=
  forall env cfg img ctx r w' a,
    graphify_images.call_gpt_vision_json env cfg img ctx
      graphify_images.world0 = (r, w') ->
    last (graphify_images.posted w') = Some a ->
    fst a = graphify_images.max_attempts ->
    transient (outcome_of env img a) = true ->
    exists text arg, r = Raise (SystemExit text arg).
End Spec.

(* ===================================================================== *)
(** * Tactics *)
(* ===================================================================== *)

(** closes the side goals left after one pass of the attempt loop has
    been run on a given reply *)
Ltac finish :=
  repeat (first [split | intro]);
  try congruence;
  try (unfold Spec.after_request; rewrite ?app_nil_r; reflexivity);
  try (unfold graphify_images.max_attempts in *; lia);
  try (match goal with
       | H : graphify_images.PostJson _ _ = graphify_images.PostJson _ _
         |- _ => injection H as <- <-
       end;
       repeat match goal with
              | H : _ = _ |- _ => rewrite H in *
              end;
       first [discriminate | reflexivity | lia]).

Ltac run_pass :=
  unfold graphify_images.attempt_once, graphify_images.on_error_status,
    graphify_images.sleep_or_raise, graphify_images.log_post,
    graphify_images.sleep, Py.bind, Py.ret, Py.raise, Py.lift, Py.modify,
    graphify_images.max_attempts in *;
  simpl in *.

(** a run of the attempt loop unrolled down to its last pass, of which
    [E] says how it ended *)
Ltac leaf_run E Hrun Hposted Hslept :=
  injection Hrun as <- <-;
  unfold Spec.retried_only_when, Spec.after_request; simpl;
  rewrite Hposted, Hslept; simpl;
  split; [lia|]; split; [reflexivity|]; split; [reflexivity|];
  split; [repeat (apply List.Forall_cons; [vm_compute; auto|]);
          apply List.Forall_nil|];
  split; [repeat (apply List.Forall_cons; [assumption|]);
          apply List.Forall_nil|];
  intros a [= <-]; unfold Spec.outcome_of; simpl; exact E.

(** case analysis on the first [match] or [if] scrutinee found in [H] *)
Ltac break_match H :=
  match type of H with
  | context [match ?x with _ => _ end] => destruct x eqn:?
  | context [if ?x then _ else _] => destruct x eqn:?
  end.

(** closes what is to be shown of a pass that met a JSON reply, once the
    pass has been run *)
Ltac json_leaf H :=
  simpl;
  repeat match goal with |- _ /\ _ => split end;
  try discriminate; try reflexivity; try assumption;
  try (intros; first [assumption | lia]);
  try (intros ? ? [= <- <-] ?;
       rewrite ?H; simpl;
       repeat match goal with
              | E : _ = _ |- _ => rewrite E
              end;
       simpl; first [reflexivity | assumption | lia]).
(* ===================================================================== *)
(** * Table extraction *)
(* ===================================================================== *)

Section Strip.

Variable drop : ascii -> bool.

Lemma lstrip_if_first s c :
  Spec.first_char (lstrip_if drop s) = Some c -> drop c = false.
Proof.
  induction s as [|a s IH]; simpl; [discriminate|].
  destruct (drop a) eqn:Ea; [exact IH|].
  simpl. intros [= <-]. exact Ea.
Qed.

Lemma rstrip_if_first s c :
  Spec.first_char (rstrip_if drop s) = Some c -> Spec.first_char s = Some c.
Proof.
  destruct s as [|a s]; simpl; [discriminate|].
  destruct (rstrip_if drop s); [destruct (drop a)|]; simpl; congruence.
Qed.

Lemma rstrip_if_last s c :
  Spec.last_char (rstrip_if drop s) = Some c -> drop c = false.
Proof.
  induction s as [|a s IH]; simpl; [discriminate|].
  destruct (rstrip_if drop s) as [|b r] eqn:Er.
  - destruct (drop a) eqn:Ea; simpl; [discriminate|].
    intros [= <-]. exact Ea.
  - simpl in *. exact IH.
Qed.

End Strip.

Lemma strip_stripped s : Spec.stripped (strip s).
Proof.
  split; intros c Hc; unfold strip, strip_if in Hc.
  - apply rstrip_if_first in Hc. eapply lstrip_if_first; eassumption.
  - eapply rstrip_if_last; eassumption.
Qed.

Lemma clean_cell_stripped cell : Spec.stripped (extract_tables.clean_cell cell).
Proof.
  destruct cell as [c|]; simpl; [apply strip_stripped|].
  split; intros c; discriminate.
Qed.

Lemma clean_row_map row :
  extract_tables.clean_row row = map extract_tables.clean_cell row.
Proof. induction row as [|c row IH]; simpl; congruence. Qed.

Lemma clean_table_map table :
  extract_tables.clean_table table
  = map (map extract_tables.clean_cell) (List.filter Spec.nonempty table).
Proof.
  induction table as [|row table IH]; simpl; [reflexivity|].
  destruct row as [|c row]; simpl; [exact IH|].
  rewrite IH, clean_row_map. reflexivity.
Qed.

Lemma clean_table_rows table :
  Forall (fun row => row <> []) (extract_tables.clean_table table)
  /\ Forall (Forall Spec.stripped) (extract_tables.clean_table table).
Proof.
  induction table as [|row table [IH1 IH2]]; simpl; [split; constructor|].
  destruct row as [|c row]; [split; assumption|].
  split; constructor; try assumption.
  - simpl. discriminate.
  - rewrite clean_row_map. apply Forall_map, Forall_forall.
    intros cell _. apply clean_cell_stripped.
Qed.

Lemma page_loop_shape page_num page_tables :
  forall table_num,
    Forall (fun t => Spec.record_shape t
                     /\ exists table, In table page_tables
                          /\ extract_tables.data t
                             = extract_tables.clean_table table)
           (extract_tables.page_loop page_num table_num page_tables).
Proof.
  induction page_tables as [|table rest IH]; intros table_num; simpl;
    [constructor|].
  assert (Htail : Forall (fun t => Spec.record_shape t
                     /\ exists table0, In table0 (table :: rest)
                          /\ extract_tables.data t
                             = extract_tables.clean_table table0)
           (extract_tables.page_loop page_num (S table_num) rest)).
  { eapply Forall_impl; [apply IH|].
    intros t [Hs (tb & Hin & Hd)]. split; [exact Hs|].
    exists tb. split; [right; exact Hin | exact Hd]. }
  destruct table as [|row table']; [exact Htail|].
  destruct (extract_tables.clean_table (row :: table')) as [|first more] eqn:Ec;
    [exact Htail|].
  constructor; [|exact Htail].
  split.
  - destruct (clean_table_rows (row :: table')) as [H1 H2].
    rewrite Ec in H1, H2.
    unfold Spec.record_shape; simpl. repeat split; try assumption.
    discriminate.
  - exists (row :: table'). split; [left; reflexivity|]. simpl.
    symmetry. exact Ec.
Qed.

Lemma pdf_loop_shape pages :
  forall page_num,
    Forall (fun t => Spec.record_shape t
                     /\ exists table, In table (concat pages)
                          /\ extract_tables.data t
                             = extract_tables.clean_table table)
           (extract_tables.pdf_loop page_num pages).
Proof.
  induction pages as [|page_tables rest IH]; intros page_num; simpl;
    [constructor|].
  apply Forall_app. split.
  - eapply Forall_impl; [apply page_loop_shape|].
    intros t [Hs (tb & Hin & Hd)]. split; [exact Hs|].
    exists tb. split; [apply in_or_app; left; exact Hin | exact Hd].
  - eapply Forall_impl; [apply IH|].
    intros t [Hs (tb & Hin & Hd)]. split; [exact Hs|].
    exists tb. split; [apply in_or_app; right; exact Hin | exact Hd].
Qed.

(** C10: every record returned by [extract_tables_from_pdf] has a
    non-empty [data] list without empty rows, whose cells are the stripped
    cells of one of the tables found (an absent cell becoming the empty
    string); [rows] is the number of data rows and [columns] the length of
    the first row, which the other rows need not share. *)
Theorem extract_tables_record_shape :
  (forall pages,
      Forall (fun t =>
                Spec.record_shape t
                /\ exists table, In table (concat pages)
                     /\ extract_tables.data t
                        = map (map extract_tables.clean_cell)
                              (List.filter Spec.nonempty table))
             (extract_tables.extract_tables_from_pdf pages))
  /\ extract_tables.clean_cell None = ""
  /\ (forall c, extract_tables.clean_cell (Some c) = strip c)
  /\ (exists pages t row,
         In t (extract_tables.extract_tables_from_pdf pages)
         /\ In row (extract_tables.data t)
         /\ length row <> extract_tables.columns t).
Proof.
  split; [|split; [reflexivity|split; [reflexivity|]]].
  - intros pages. unfold extract_tables.extract_tables_from_pdf.
    eapply Forall_impl; [apply pdf_loop_shape|].
    intros t [Hs (tb & Hin & Hd)]. split; [exact Hs|].
    exists tb. split; [exact Hin|]. rewrite Hd. apply clean_table_map.
  - exists extract_tables.ragged_pdf.
    eexists. exists ["b"; "c"; "d"].
    split; [left; reflexivity|].
    split; [right; left; reflexivity|].
    simpl. discriminate.
Qed.
(* ===================================================================== *)
(** * Polling the Datalab job *)
(* ===================================================================== *)

Lemma eq_str_true v s : eq_str v s = true <-> v = JStr s.
Proof.
  destruct v; simpl; try (split; [discriminate | intros [=]]).
  rewrite String.eqb_eq. split; [intros ->; reflexivity | intros [= ->]; reflexivity].
Qed.

Section Poll.

Import datalab_marker.

Variable server : nat -> Tick.
Variables timeout_s poll_interval_s start : Z.

(** The requests of a run are those numbered from [polls w] up to
    [polls w']; all but the last one sent the loop round again, and the
    last one decides the result unless the deadline test or [time.sleep]
    raised first. *)
Lemma poll_loop_run fuel :
  forall w r w',
    poll_loop fuel server timeout_s poll_interval_s start w = Some (r, w') ->
    (polls w <= polls w')%nat
    /\ (forall n, (polls w <= n)%nat -> (S n < polls w')%nat ->
                  Spec.verdict server n = Return None)
    /\ ((r = Raise Spec.timed_out
         /\ (timeout_s < now w' - start)%Z
         /\ forall n, (polls w <= n)%nat -> (n < polls w')%nat ->
                      Spec.verdict server n = Return None)
        \/ (r = Raise ValueError /\ (poll_interval_s < 0)%Z /\ w' = w)
        \/ ((polls w < polls w')%nat
            /\ (now w' - start
                <= timeout_s + poll_interval_s
                   + Z.of_N (latency (server (pred (polls w')))))%Z
            /\ match Spec.verdict server (pred (polls w')) with
               | Return (Some d) => r = Return d
               | Return None => False
               | Raise e => r = Raise e
               end)).
Proof.
  induction fuel as [|fuel IH]; intros w r w' Hrun; simpl in Hrun;
    [discriminate|].
  destruct (now w - start >? timeout_s)%Z eqn:Hlate.
  { injection Hrun as <- <-. split; [lia|]. split; [intros; lia|].
    left. split; [reflexivity|]. split; [lia|]. intros; lia. }
  destruct (poll_interval_s <? 0)%Z eqn:Hneg.
  { injection Hrun as <- <-. split; [lia|]. split; [intros; lia|].
    right; left. split; [reflexivity|]. split; [lia | reflexivity]. }
  unfold request, sleep in Hrun; simpl in Hrun.
  set (w1 := {| now := now w + poll_interval_s
                       + Z.of_N (latency (server (polls w)));
                polls := S (polls w) |}) in *.
  destruct (inspect (outcome (server (polls w)))) as [[d|]|e] eqn:Hv.
  - injection Hrun as <- <-. simpl.
    split; [lia|]. split; [intros; lia|].
    right; right. split; [lia|]. unfold Spec.verdict. rewrite Hv.
    split; [lia | reflexivity].
  - apply IH in Hrun as (Hle & Hmid & Hend). simpl in Hle, Hmid, Hend.
    split; [lia|]. split.
    + intros n Hn Hn'. destruct (Nat.eq_dec n (polls w)) as [->|Hne];
        [exact Hv | apply Hmid; lia].
    + destruct Hend as [(-> & Hpast & Hall)|[(_ & Hlt & _)|Hlast]].
      * left. split; [reflexivity|]. split; [exact Hpast|]. intros n Hn Hn'.
        destruct (Nat.eq_dec n (polls w)) as [->|Hne];
          [exact Hv | apply Hall; lia].
      * lia.
      * right; right. destruct Hlast as (Hlt & Htime & Hres).
        split; [lia|]. split; assumption.
  - injection Hrun as <- <-. simpl.
    split; [lia|]. split; [intros; lia|].
    right; right. split; [lia|]. unfold Spec.verdict. rewrite Hv.
    split; [lia | reflexivity].
Qed.

(** more iterations allowed, same run *)
Lemma poll_loop_more_fuel fuel :
  forall fuel' w x,
    poll_loop fuel server timeout_s poll_interval_s start w = Some x ->
    (fuel <= fuel')%nat ->
    poll_loop fuel' server timeout_s poll_interval_s start w = Some x.
Proof.
  induction fuel as [|fuel IH]; intros fuel' w x Hrun Hle; simpl in Hrun;
    [discriminate|].
  destruct fuel' as [|fuel']; [lia|]. simpl.
  destruct (now w - start >? timeout_s)%Z; [exact Hrun|].
  destruct (poll_interval_s <? 0)%Z; [exact Hrun|].
  unfold request, sleep in *; simpl in *.
  destruct (inspect (outcome (server (polls w)))) as [[d|]|e];
    try exact Hrun.
  apply IH; [exact Hrun | lia].
Qed.

(** When every round, the sleep and the request, moves the clock on by
    [step] at least, the deadline test ends the loop at the latest; a
    negative interval ends it at the first sleep. *)
Lemma poll_loop_ends step (Hstep : (0 < step)%Z)
    (Hround : (0 <= poll_interval_s)%Z ->
              forall n, (step <= poll_interval_s
                                 + Z.of_N (latency (server n)))%Z) fuel :
  forall w,
    (1 <= fuel)%nat ->
    ((timeout_s - (now w - start)) / step + 2 <= Z.of_nat fuel)%Z ->
    exists r w',
      poll_loop fuel server timeout_s poll_interval_s start w = Some (r, w')
      /\ (Z.of_nat (polls w') - Z.of_nat (polls w)
          <= Z.max 0 ((timeout_s - (now w - start)) / step + 1))%Z.
Proof.
  induction fuel as [|fuel IH]; intros w Hone Hfuel; [lia|]. simpl.
  destruct (now w - start >? timeout_s)%Z eqn:Hlate.
  { eexists _, _. split; [reflexivity|]. lia. }
  assert (Hin : (0 <= timeout_s - (now w - start))%Z) by lia.
  assert (Hq : (0 <= (timeout_s - (now w - start)) / step)%Z)
    by (apply Z.div_pos; lia).
  destruct (poll_interval_s <? 0)%Z eqn:Hneg.
  { eexists _, _. split; [reflexivity|]. lia. }
  unfold request, sleep; simpl.
  set (lat := Z.of_N (latency (server (polls w)))).
  assert (Hlat : (step <= poll_interval_s + lat)%Z)
    by (unfold lat; apply Hround; lia).
  destruct (inspect (outcome (server (polls w)))) as [[d|]|e] eqn:Hv.
  - eexists _, _. split; [reflexivity|]. simpl. lia.
  - set (w1 := {| now := now w + poll_interval_s + lat;
                  polls := S (polls w) |}).
    assert (Hdown : ((timeout_s - (now w1 - start)) / step
                     <= (timeout_s - (now w - start)) / step - 1)%Z).
    { transitivity ((timeout_s - (now w - start) + (-1) * step) / step)%Z.
      - apply Z.div_le_mono; [lia|]. unfold w1; simpl. lia.
      - rewrite Z.div_add by lia. lia. }
    destruct (IH w1) as (r & w' & Hrun & Hcount); [lia | lia |].
    exists r, w'. split; [exact Hrun|].
    change (polls w1) with (S (polls w)) in Hcount.
    set (q1 := ((timeout_s - (now w1 - start)) / step)%Z) in *.
    lia.
  - eexists _, _. split; [reflexivity|]. simpl. lia.
Qed.

End Poll.

Section PollUntilComplete.

Import datalab_marker.

Variable server : nat -> Tick.
Variables timeout_s poll_interval_s : Z.

Lemma inspect_break o d :
  inspect o = Return (Some d) ->
  exists sc kvs, o = GetJson sc d /\ d = JObj kvs
                 /\ dict_get "status" JNull kvs = JStr "complete".
Proof.
  destruct o as [e|sc|sc data]; simpl; [discriminate| |].
  - destruct (raise_for_status sc); discriminate.
  - destruct data as [| | | | |kvs]; simpl; try discriminate.
    destruct (eq_str (dict_get "status" JNull kvs) "complete") eqn:Hc.
    + intros [= <-]. exists sc, kvs. apply eq_str_true in Hc. auto.
    + destruct (hashable _); simpl; [|discriminate].
      destruct (known_status _); simpl; discriminate.
Qed.

Lemma inspect_complete sc kvs :
  dict_get "status" JNull kvs = JStr "complete" ->
  inspect (GetJson sc (JObj kvs)) = Return (Some (JObj kvs)).
Proof. intros H. simpl. rewrite H. reflexivity. Qed.

Lemma inspect_unknown sc kvs :
  known_status (dict_get "status" JNull kvs) = false ->
  inspect (GetJson sc (JObj kvs))
  = Raise (if hashable (dict_get "status" JNull kvs)
           then SystemExit "Unexpected status from Datalab: "
                           (dict_get "status" JNull kvs)
           else TypeError).
Proof.
  intros H. simpl. unfold known_status in H.
  destruct (eq_str (dict_get "status" JNull kvs) "complete") eqn:Hc;
    [discriminate|].
  destruct (hashable _); simpl; [|reflexivity].
  unfold known_status. rewrite Hc, H. reflexivity.
Qed.

(** C5: [poll_until_complete] returns a result only when the last reply
    has status "complete" and a true success flag; a "complete" reply
    whose success flag is false makes it fail with the reply's error
    message; a reply whose status is none of processing, complete and null
    makes it fail at once, no further request being sent.  In particular
    no reply with status "processing" is ever returned. *)
Theorem poll_returns_only_complete_success fuel w r w' :
  poll_until_complete fuel server timeout_s poll_interval_s w = Some (r, w') ->
  (forall d, r = Return d ->
     exists kvs sc,
       d = JObj kvs
       /\ dict_get "status" JNull kvs = JStr "complete"
       /\ dict_get "status" JNull kvs <> JStr "processing"
       /\ truthy (dict_get "success" (JBool false) kvs) = true
       /\ (polls w < polls w')%nat
       /\ outcome (server (pred (polls w'))) = GetJson sc d)
  /\ (forall n sc kvs,
        (polls w <= n)%nat ->
        outcome (server n) = GetJson sc (JObj kvs) ->
        dict_get "status" JNull kvs = JStr "complete" ->
        truthy (dict_get "success" (JBool false) kvs) = false ->
        (polls w' <= S n)%nat
        /\ (polls w' = S n ->
            r = Raise (SystemExit "Datalab job failed: "
                         (dict_get "error" (JStr "Unknown error") kvs))))
  /\ (forall n sc kvs,
        (polls w <= n)%nat ->
        outcome (server n) = GetJson sc (JObj kvs) ->
        known_status (dict_get "status" JNull kvs) = false ->
        (polls w' <= S n)%nat
        /\ (polls w' = S n ->
            r = Raise (if hashable (dict_get "status" JNull kvs)
                       then SystemExit "Unexpected status from Datalab: "
                                       (dict_get "status" JNull kvs)
                       else TypeError))).
Proof.
  unfold poll_until_complete. intros Hrun.
  destruct (poll_loop fuel server timeout_s poll_interval_s (now w) w)
    as [[r0 w0]|] eqn:Hloop; [|discriminate].
  apply poll_loop_run in Hloop as (Hle & Hmid & Hend).
  assert (Hw : w0 = w') by (destruct r0; congruence). subst w0.
  split; [|split].
  - intros d ->.
    destruct r0 as [d0|e]; [|discriminate].
    destruct Hend as [[[=] _]|[[[=] _]|(Hlt & _ & Hres)]].
    unfold Spec.verdict in Hres.
    destruct (inspect (outcome (server (pred (polls w'))))) as [[d1|]|e] eqn:Hv;
      try contradiction; try discriminate.
    injection Hres as <-.
    apply inspect_break in Hv as (sc & kvs & Ho & -> & Hst).
    injection Hrun as Hrun. unfold check_success in Hrun. simpl in Hrun.
    destruct (truthy (dict_get "success" (JBool false) kvs)) eqn:Hs;
      simpl in Hrun; [|discriminate].
    injection Hrun as <-.
    exists kvs, sc. repeat split; try assumption.
    rewrite Hst. discriminate.
  - intros n sc kvs Hn Ho Hst Hs.
    assert (Hv : Spec.verdict server n = Return (Some (JObj kvs))).
    { unfold Spec.verdict. rewrite Ho. apply inspect_complete, Hst. }
    assert (Hbound : (polls w' <= S n)%nat).
    { destruct (le_lt_dec (polls w') (S n)) as [|Hgt]; [assumption|].
      rewrite (Hmid n Hn Hgt) in Hv. discriminate. }
    split; [exact Hbound|]. intros Hlast.
    destruct Hend as [(_ & _ & Hall)|[(_ & _ & ->)|(_ & _ & Hres)]].
    + rewrite (Hall n Hn) in Hv by lia. discriminate.
    + lia.
    + rewrite Hlast in Hres. simpl in Hres. rewrite Hv in Hres. subst r0.
      injection Hrun as <-. unfold check_success. simpl. rewrite Hs.
      reflexivity.
  - intros n sc kvs Hn Ho Hst.
    assert (Hv : Spec.verdict server n
                 = Raise (if hashable (dict_get "status" JNull kvs)
                          then SystemExit "Unexpected status from Datalab: "
                                          (dict_get "status" JNull kvs)
                          else TypeError)).
    { unfold Spec.verdict. rewrite Ho. apply inspect_unknown, Hst. }
    assert (Hbound : (polls w' <= S n)%nat).
    { destruct (le_lt_dec (polls w') (S n)) as [|Hgt]; [assumption|].
      rewrite (Hmid n Hn Hgt) in Hv. discriminate. }
    split; [exact Hbound|]. intros Hlast.
    destruct Hend as [(_ & _ & Hall)|[(_ & _ & ->)|(_ & _ & Hres)]].
    + rewrite (Hall n Hn) in Hv by lia. discriminate.
    + lia.
    + rewrite Hlast in Hres. simpl in Hres. rewrite Hv in Hres. subst r0.
      injection Hrun as <-. reflexivity.
Qed.

End PollUntilComplete.

Lemma poll_returns_only_complete_success_witness :
  exists kvs sc,
    datalab_marker.complete_ok = JObj kvs
    /\ dict_get "status" JNull kvs = JStr "complete"
    /\ dict_get "status" JNull kvs <> JStr "processing"
    /\ truthy (dict_get "success" (JBool false) kvs) = true
    /\ (0 < 2)%nat
    /\ datalab_marker.outcome (datalab_marker.slow_job 1)
       = datalab_marker.GetJson sc datalab_marker.complete_ok.
Proof.
  exact (proj1 (poll_returns_only_complete_success
                  datalab_marker.slow_job 10 7 5 datalab_marker.epoch
                  (Return datalab_marker.complete_ok)
                  {| datalab_marker.now := 14; datalab_marker.polls := 2 |}
                  eq_refl)
               datalab_marker.complete_ok eq_refl).
Defined.

(** a job reported as failed, and a job in a status the client does not
    know: both runs end at the second request *)
Example failing_and_queued_jobs :
  datalab_marker.poll_until_complete 5 datalab_marker.failing_job 900 2
    datalab_marker.epoch
  = Some (Raise (SystemExit "Datalab job failed: "
                            (JStr "page limit exceeded")),
          {| datalab_marker.now := 4; datalab_marker.polls := 2 |})
  /\ datalab_marker.poll_until_complete 5 datalab_marker.queued_job 900 2
       datalab_marker.epoch
     = Some (Raise (SystemExit "Unexpected status from Datalab: "
                               (JStr "queued")),
             {| datalab_marker.now := 4; datalab_marker.polls := 2 |}).
Proof. split; reflexivity. Qed.

Section PollTermination.

Import datalab_marker.

Variable server : nat -> Tick.
Variables timeout_s poll_interval_s : Z.

(** C6, amended: for every [timeout_s] and every poll interval
    [poll_until_complete] terminates, with a result or a failure.  With
    a negative interval it fails before any request.  Otherwise it sends
    at most [timeout_s / poll_interval_s + 1] requests, counting an
    interval shorter than a clock tick as one tick, a request being
    taken to last a tick at least when the interval is 0.  The deadline
    is tested only before each sleep: a result comes back at most one
    interval and the last request's duration after [timeout_s]. *)
Theorem poll_terminates w :
  (poll_interval_s = 0%Z -> forall n, (0 < latency (server n))%N) ->
  let rounds := (Z.to_nat (timeout_s / Z.max 1 poll_interval_s) + 1)%nat in
  exists r w',
    (forall fuel,
        (rounds + 1 <= fuel)%nat ->
        poll_until_complete fuel server timeout_s poll_interval_s w
        = Some (r, w'))
    /\ (polls w' - polls w <= rounds)%nat
    /\ ((poll_interval_s < 0)%Z ->
        polls w' = polls w
        /\ (r = Raise ValueError \/ r = Raise Spec.timed_out))
    /\ (forall d, r = Return d ->
          (now w' - now w
           <= timeout_s + poll_interval_s
              + Z.of_N (latency (server (pred (polls w')))))%Z).
Proof.
  intros Hlasts rounds.
  destruct (Z_lt_dec poll_interval_s 0) as [Hneg|Hnonneg].
  { (* [time.sleep] rejects the interval at the first round *)
    exists (Raise (if (0 >? timeout_s)%Z then Spec.timed_out else ValueError)),
           w.
    split; [|split; [lia|split]].
    - intros [|fuel] Hfuel; [lia|].
      unfold poll_until_complete. cbn [poll_loop].
      rewrite Z.sub_diag.
      destruct (0 >? timeout_s)%Z; [reflexivity|].
      destruct (Z.ltb_spec poll_interval_s 0); [reflexivity | lia].
    - intros _. split; [reflexivity|].
      destruct (0 >? timeout_s)%Z; auto.
    - intros d. destruct (0 >? timeout_s)%Z; discriminate. }
  set (step := Z.max 1 poll_interval_s).
  assert (Hstep : (0 < step)%Z) by (unfold step; lia).
  assert (Hround : (0 <= poll_interval_s)%Z ->
                   forall n, (step <= poll_interval_s
                                      + Z.of_N (latency (server n)))%Z).
  { intros _ n. unfold step.
    destruct (Z.eq_dec poll_interval_s 0%Z) as [Hz|Hz].
    - specialize (Hlasts Hz n). lia.
    - lia. }
  destruct (poll_loop_ends server timeout_s poll_interval_s (now w) step
              Hstep Hround (rounds + 1) w) as (r0 & w' & Hrun & Hcount).
  { lia. }
  { replace (timeout_s - (now w - now w))%Z with timeout_s by lia.
    unfold rounds. fold step.
    destruct (Z_lt_dec timeout_s 0) as [Hlt|Hge].
    - assert (timeout_s / step < 0)%Z by (apply Z.div_lt_upper_bound; lia).
      lia.
    - assert (0 <= timeout_s / step)%Z by (apply Z.div_pos; lia). lia. }
  replace (timeout_s - (now w - now w))%Z with timeout_s in Hcount by lia.
  pose proof (poll_loop_run _ _ _ _ _ _ _ _ Hrun) as (Hle & _ & Hend).
  exists (match r0 with
          | Return last_data => check_success last_data
          | Raise e => Raise e
          end), w'.
  split; [|split; [|split]].
  - intros fuel Hfuel. unfold poll_until_complete.
    rewrite (poll_loop_more_fuel _ _ _ _ _ _ _ _ Hrun Hfuel).
    destruct r0; reflexivity.
  - unfold rounds. fold step. lia.
  - lia.
  - intros d Hd.
    destruct Hend as [(-> & _)|[(-> & _)|(_ & Htime & _)]];
      [discriminate | discriminate | exact Htime].
Qed.

End PollTermination.

Lemma poll_terminates_witness :
  exists r w',
    (forall fuel,
        (5 <= fuel)%nat ->
        datalab_marker.poll_until_complete fuel datalab_marker.stuck_link 3 0
          datalab_marker.epoch
        = Some (r, w'))
    /\ (datalab_marker.polls w' <= 4)%nat.
Proof.
  destruct (poll_terminates datalab_marker.stuck_link 3 0
              datalab_marker.epoch)
    as (r & w' & Hrun & Hcount & _).
  { intros _ n. reflexivity. }
  exists r, w'. split; [exact Hrun|].
  change (datalab_marker.polls datalab_marker.epoch) with 0%nat in Hcount.
  change (Z.to_nat (3 / Z.max 1 0) + 1)%nat with 4%nat in Hcount. lia.
Defined.

(** C6 as stated fails: with a timeout of 10 and an interval of 7 a job
    that completes at the second poll is returned at time 14. *)
Lemma poll_may_return_after_timeout : ~ Spec.returns_in_time_or_times_out.
Proof.
  intros H.
  destruct (H datalab_marker.slow_job 10%Z 7%Z datalab_marker.epoch)
    as (fuel & r & w' & Hrun & Hr).
  destruct fuel as [|[|fuel]]; [discriminate | discriminate |].
  cbn in Hrun. injection Hrun as <- <-. cbn in Hr. lia.
Qed.

Example slow_job_run :
  datalab_marker.poll_until_complete 2 datalab_marker.slow_job 10 7
    datalab_marker.epoch
  = Some (Return datalab_marker.complete_ok,
          {| datalab_marker.now := 14; datalab_marker.polls := 2 |}).
Proof. reflexivity. Qed.
(* ===================================================================== *)
(** * The structured-extraction artifact *)
(* ===================================================================== *)

Lemma append_cancel_l (s a b : string) : s ++ a = s ++ b -> a = b.
Proof.
  induction s as [|c s IH]; simpl; [auto|].
  intros [= H]. auto.
Qed.

Lemma extraction_path_separate out_dir base_name :
  datalab_marker.extra_json_path out_dir base_name
  <> datalab_marker.response_json_path out_dir base_name.
Proof.
  unfold datalab_marker.extra_json_path, datalab_marker.response_json_path,
    Fs.join.
  intros H. do 3 apply append_cancel_l in H. discriminate.
Qed.

(** the loop over the candidate keys stops at the first dict or list *)
Lemma scan_keys_first keys result v :
  datalab_marker.scan_keys keys result = Some v <->
  exists before key after,
    keys = (before ++ key :: after)%list
    /\ dict_get key JNull result = v
    /\ is_dict_or_list v = true
    /\ Forall (fun k => is_dict_or_list (dict_get k JNull result) = false)
              before.
Proof.
  induction keys as [|k keys IH]; simpl.
  - split; [discriminate|].
    intros (before & key & after & H & _). destruct before; discriminate.
  - destruct (is_dict_or_list (dict_get k JNull result)) eqn:Hk.
    + split.
      * intros [= <-]. exists [], k, keys. repeat split; auto.
      * intros (before & key & after & Hkeys & Hv & _ & Hall).
        destruct before as [|b before]; simpl in Hkeys.
        -- injection Hkeys as -> _. congruence.
        -- injection Hkeys as <- _.
           apply Forall_cons in Hall as [Hb _]. congruence.
    + rewrite IH. split.
      * intros (before & key & after & -> & Hv & Hd & Hall).
        exists (k :: before), key, after. repeat split; auto.
      * intros (before & key & after & Hkeys & Hv & Hd & Hall).
        destruct before as [|b before]; simpl in Hkeys.
        -- injection Hkeys as -> _. congruence.
        -- injection Hkeys as <- ->.
           apply Forall_cons in Hall as [_ Hall].
           exists before, key, after. repeat split; auto.
Qed.

Section Materialize.

Import datalab_marker.

Variable json_dumps : Json -> string.
Variables out_dir base_name : string.
Variable result : dict.
Variable fs : Fs.FS.

(** C9, amended: when a schema was supplied, the candidate keys json,
    structured_output, structured_data, extractions, extracted are scanned
    in this order and the first value that is a dict or a list, empty or
    not, is written to the extraction artifact, a file of its own; what
    any parser inverting the serializer on that value reads back from the
    artifact is the value itself.  Without a schema, or without such a
    value, nothing is written. *)
Theorem extraction_artifact_roundtrip :
  save_extraction json_dumps None out_dir base_name result fs
  = (Return tt, fs)
  /\ (forall schema,
        scan_keys extraction_keys result = None ->
        save_extraction json_dumps (Some schema) out_dir base_name result fs
        = (Return tt, fs))
  /\ (forall schema v,
        scan_keys extraction_keys result = Some v ->
        Fs.unwritable fs (extra_json_path out_dir base_name) = false ->
        exists fs',
          save_extraction json_dumps (Some schema) out_dir base_name result fs
          = (Return tt, fs')
          /\ Fs.files fs' !! extra_json_path out_dir base_name
             = Some (json_dumps v)
          /\ (forall json_loads : string -> option Json,
                json_loads (json_dumps v) = Some v ->
                Fs.files fs' !! extra_json_path out_dir base_name
                  ≫= json_loads = Some v)
          /\ extra_json_path out_dir base_name
             <> response_json_path out_dir base_name
          /\ (forall p, p <> extra_json_path out_dir base_name ->
                        Fs.files fs' !! p = Fs.files fs !! p))
  /\ (forall v,
        scan_keys extraction_keys result = Some v <->
        exists before key after,
          extraction_keys = (before ++ key :: after)%list
          /\ dict_get key JNull result = v
          /\ is_dict_or_list v = true
          /\ Forall (fun k => is_dict_or_list (dict_get k JNull result) = false)
                    before).
Proof.
  split; [reflexivity|]. split; [|split].
  - intros schema Hnone. unfold save_extraction. rewrite Hnone. reflexivity.
  - intros schema v Hv Hw.
    unfold save_extraction, save_json, Fs.write_text. rewrite Hv, Hw.
    eexists. split; [reflexivity|]. simpl.
    split; [apply lookup_insert_eq|].
    split; [intros json_loads Hl; rewrite lookup_insert_eq; exact Hl|].
    split; [apply extraction_path_separate|].
    intros p Hp. apply lookup_insert_ne. congruence.
  - intros v. apply scan_keys_first.
Qed.

End Materialize.

Lemma extraction_artifact_roundtrip_witness :
  exists fs',
    datalab_marker.save_extraction dumps (Some "{}") "out" "paper"
      datalab_marker.empty_first datalab_marker.empty_fs
    = (Return tt, fs')
    /\ Fs.files fs' !! datalab_marker.extra_json_path "out" "paper"
       = Some (dumps (JArr [])).
Proof.
  destruct (proj1 (proj2 (proj2
              (extraction_artifact_roundtrip dumps "out" "paper"
                 datalab_marker.empty_first datalab_marker.empty_fs)))
              "{}" (JArr []) eq_refl eq_refl)
    as (fs' & Hrun & Hfile & _).
  exists fs'. split; assumption.
Defined.

(** C9 as stated fails: the scan does not skip empty values.  With an
    empty list under "json" and an object under "structured_output", the
    artifact holds the empty list. *)
Lemma extraction_takes_empty_value : ~ Spec.persists_first_nonempty.
Proof.
  intros H.
  specialize (H dumps "{}" "out" "paper" datalab_marker.empty_first
                datalab_marker.empty_fs
                (JObj [("title", JStr "Phase 2 results")]) eq_refl eq_refl).
  unfold datalab_marker.save_extraction in H. simpl in H.
  rewrite lookup_insert_eq in H. vm_compute in H. discriminate.
Qed.
(* ===================================================================== *)
(** * The vision call *)
(* ===================================================================== *)

Section VisionCall.

Import graphify_images.

Variable env : Env.
Variable image_path : Path.

(** One pass of the loop: what it logs, when it goes round again, and
    what it raises. *)
Lemma attempt_once_post attempt body resp w x w' :
  attempt_once env image_path attempt body resp w = (x, w') ->
  let o := post env image_path attempt body in
  match x with
  | Return (Parsed parsed) =>
      w' = Spec.after_request w attempt body []
      /\ Spec.retryable o = false
      /\ exists status data,
           o = PostJson status data /\ (status < 400)%Z
           /\ read_reply env data = Return parsed
  | Return (Continue body' resp') =>
      w' = Spec.after_request w attempt body [backoff attempt]
      /\ attempt <> max_attempts
      /\ Spec.retryable o = true
      /\ body' = Spec.next_body o body
  | Raise e =>
      w' = Spec.after_request w attempt body []
      /\ (o = PostTimeout ->
          attempt = max_attempts
          /\ e = SystemExit "GPT API timeout on " (JStr (name image_path)))
      /\ (forall status data,
             o = PostJson status data -> (400 <= status)%Z ->
             Spec.plain_error data = true ->
             (overloaded status = true -> attempt = max_attempts)
             /\ e = SystemExit (if overloaded status
                                then "GPT API error after retries: "
                                else "GPT API error: ") data)
  end.
Proof.
  intros Hrun o. subst o. run_pass.
  destruct (post env image_path attempt body) as [| |status|status data] eqn:Ho.
  - (* timeout *)
    destruct (Z.eqb_spec attempt 3) as [Hk|Hk]; injection Hrun as <- <-;
      finish.
  - (* another exception of requests.post *)
    destruct resp as [status|];
      [destruct (raise_for_status status)|]; injection Hrun as <- <-; finish.
  - (* not JSON *)
    destruct (raise_for_status status); injection Hrun as <- <-; finish.
  - (* JSON *)
    destruct (status >=? 400)%Z eqn:Hs.
    + unfold Spec.retryable, Spec.next_body, Spec.blamed, Spec.plain_error.
      rewrite Hs.
      destruct (error_fields data) as [[param message]|e0] eqn:Hf; simpl in *;
        [|injection Hrun as <- <-; finish].
      destruct (blames "temperature" param message) as [[|]|e1] eqn:Ht;
        simpl in *.
      * destruct (Z.eqb_spec attempt 3) as [Hk|Hk]; injection Hrun as <- <-;
          finish.
      * destruct (blames "response_format" param message) as [[|]|e2] eqn:Hr;
          simpl in *.
        -- destruct (Z.eqb_spec attempt 3) as [Hk|Hk]; injection Hrun as <- <-;
             finish.
        -- destruct (overloaded status) eqn:Hov; simpl in *.
           ++ destruct (Z.eqb_spec attempt 3) as [Hk|Hk];
                injection Hrun as <- <-; finish.
           ++ injection Hrun as <- <-; finish.
        -- injection Hrun as <- <-; finish.
      * injection Hrun as <- <-; finish.
    + unfold Spec.retryable. rewrite Hs.
      destruct (read_reply env data) as [parsed|e0] eqn:Hp; simpl in *;
        injection Hrun as <- <-; [|finish].
      split; [unfold Spec.after_request; rewrite app_nil_r; reflexivity|].
      split; [reflexivity|]. exists status, data.
      split; [reflexivity|]. split; [lia | exact Hp].
Qed.

Lemma attempt_loop_cons attempt rest body resp w :
  attempt_loop env image_path (attempt :: rest) body resp w
  = match attempt_once env image_path attempt body resp w with
    | (Return (Parsed parsed), w1) => (Return parsed, w1)
    | (Return (Continue body' resp'), w1) =>
        attempt_loop env image_path rest body' resp' w1
    | (Raise e, w1) => (Raise e, w1)
    end.
Proof.
  simpl. unfold Py.bind.
  destruct (attempt_once env image_path attempt body resp w) as [[[p|b r]|e] w1];
    reflexivity.
Qed.

Lemma blames_after_temperature param message :
  blames "temperature" param message = Return false ->
  exists b, blames "response_format" param message = Return b.
Proof.
  unfold blames. destruct (eq_str param "temperature"); [discriminate|].
  destruct message; simpl; try discriminate.
  intros _. destruct (eq_str param "response_format"); eexists; reflexivity.
Qed.

Lemma error_fields_raises data e :
  error_fields data = Raise e -> e = AttributeError.
Proof.
  unfold error_fields, bind_res, get.
  destruct (match data with
            | JObj d => dict_get "error" (JObj []) d
            | _ => JObj []
            end); intros [=]; congruence.
Qed.

Lemma blames_raises field param message e :
  blames field param message = Raise e -> e = AttributeError.
Proof.
  unfold blames, says_unsupported.
  destruct (eq_str param field); [discriminate|].
  destruct message; intros [=]; congruence.
Qed.

Lemma attempt_once_exact attempt body resp w x w' :
  attempt_once env image_path attempt body resp w = (x, w') ->
  let o := post env image_path attempt body in
  match x with
  | Return (Parsed parsed) =>
      Spec.goes_round o = false
      /\ exists status data,
           o = PostJson status data /\ (status < 400)%Z
           /\ read_reply env data = Return parsed
  | Return (Continue _ _) =>
      Spec.goes_round o = true /\ attempt <> max_attempts
  | Raise e =>
      (Spec.goes_round o = true -> attempt = max_attempts)
      /\ (o = PostTimeout ->
          e = SystemExit "GPT API timeout on " (JStr (name image_path)))
      /\ (forall status data,
            o = PostJson status data -> (400 <= status)%Z ->
            e = if Spec.readable_error data
                then SystemExit (Spec.error_text status data) data
                else AttributeError)
      /\ (forall status data,
            o = PostJson status data -> (status < 400)%Z ->
            read_reply env data = Raise e)
      /\ (forall status,
            o = PostNonJson status ->
            e = match raise_for_status status with
                | Some e' => e'
                | None => SystemExit "Non-JSON response from GPT API (HTTP "
                                     (JNum status)
                end)
  end.
Proof.
  intros Hrun o. subst o. run_pass.
  destruct (post env image_path attempt body) as [| |status|status data] eqn:Ho.
  - destruct (Z.eqb_spec attempt 3) as [Hk|Hk]; injection Hrun as <- <-;
      finish.
  - assert (Hx : exists e, x = Raise e).
    { destruct resp as [status|];
        [destruct (raise_for_status status)|]; injection Hrun as <- _;
        eexists; reflexivity. }
    destruct Hx as [e ->]. simpl.
    split; [discriminate|]. split; [discriminate|].
    split; [discriminate|]. split; discriminate.
  - assert (Hx : x = Raise (match raise_for_status status with
                            | Some e' => e'
                            | None =>
                                SystemExit
                                  "Non-JSON response from GPT API (HTTP "
                                  (JNum status)
                            end)).
    { destruct (raise_for_status status); injection Hrun as <- _;
        reflexivity. }
    rewrite Hx. simpl.
    split; [discriminate|]. split; [discriminate|].
    split; [discriminate|]. split; [discriminate|].
    intros ? [= <-]. reflexivity.
  - unfold Spec.goes_round, Spec.readable_error, Spec.error_text, Spec.blamed.
    destruct (status >=? 400)%Z eqn:Hs.
    + assert (Hge : (400 <= status)%Z) by lia.
      destruct (error_fields data) as [[param message]|e0] eqn:Hf; simpl in *.
      2:{ injection Hrun as <- <-.
          pose proof (error_fields_raises _ _ Hf) as He. subst e0.
          json_leaf Hf. }
      destruct (blames "temperature" param message) as [[|]|e1] eqn:Ht;
        simpl in *.
      * destruct (Z.eqb_spec attempt 3) as [Hk|Hk]; injection Hrun as <- <-;
          json_leaf Hf.
      * destruct (blames_after_temperature _ _ Ht) as [fmt Hr].
        rewrite Hr in *. simpl in *.
        destruct fmt; simpl in *.
        -- destruct (Z.eqb_spec attempt 3) as [Hk|Hk];
             injection Hrun as <- <-; json_leaf Hf.
        -- destruct (overloaded status) eqn:Hov; simpl in *.
           ++ destruct (Z.eqb_spec attempt 3) as [Hk|Hk];
                injection Hrun as <- <-; json_leaf Hf.
           ++ injection Hrun as <- <-; json_leaf Hf.
      * injection Hrun as <- <-.
        pose proof (blames_raises _ _ _ _ Ht) as He. subst e1.
        json_leaf Hf.
    + assert (Hlt : (status < 400)%Z) by lia.
      destruct (read_reply env data) as [parsed|e0] eqn:Hp; simpl in *;
        injection Hrun as <- <-.
      * split; [reflexivity|]. exists status, data. auto.
      * json_leaf Hp.
Qed.

End VisionCall.

(** a request that is not of the kind after which the loop goes round
    is the last one *)
Lemma last_of_unretried {A} (P : A -> Prop) (l : list A) a :
  Forall P (removelast l) -> In a l -> ~ P a -> last l = Some a.
Proof.
  induction l as [|x l IH]; [contradiction|].
  destruct l as [|y l].
  - intros _ [->|[]] _. reflexivity.
  - intros Hall Hin Hnot.
    change (removelast (x :: y :: l)) with (x :: removelast (y :: l)) in Hall.
    apply Forall_cons in Hall as [Hx Hall].
    destruct Hin as [->|Hin]; [contradiction|].
    change (last (x :: y :: l)) with (last (y :: l)).
    apply IH; assumption.
Qed.

Lemma goes_round_retried_kind o :
  Spec.goes_round o = true -> Spec.retried_kind o = true.
Proof.
  unfold Spec.goes_round, Spec.retried_kind, Spec.transient, Spec.names_field.
  destruct o as [| |status|status data]; try discriminate; [reflexivity|].
  destruct (status >=? 400)%Z, (Spec.readable_error data),
    (Spec.blamed "temperature" data), (Spec.blamed "response_format" data),
    (graphify_images.overloaded status); simpl; congruence.
Qed.

Section AttemptBudget.

Import graphify_images.

Variable env : Env.
Variable cfg : GptConfig.
Variable image_path : Path.
Variable extra_context : option string.

(** how a call ends, by its last request *)
Lemma vision_call_run w r w' :
  posted w = [] -> slept w = [] ->
  call_gpt_vision_json env cfg image_path extra_context w = (r, w') ->
  (length (posted w') <= 3)%nat
  /\ map fst (posted w') = map Z.of_nat (seq 1 (length (posted w')))
  /\ slept w' = map backoff (removelast (map fst (posted w')))
  /\ Forall (fun d => d = 1%Z \/ d = 2%Z) (slept w')
  /\ Spec.retried_only_when Spec.goes_round env image_path w'
  /\ (forall a,
        last (posted w') = Some a ->
        let o := Spec.outcome_of env image_path a in
        match r with
        | Return parsed =>
            Spec.goes_round o = false
            /\ exists status data,
                 o = PostJson status data /\ (status < 400)%Z
                 /\ read_reply env data = Return parsed
        | Raise e =>
            (Spec.goes_round o = true -> fst a = max_attempts)
            /\ (o = PostTimeout ->
                e = SystemExit "GPT API timeout on " (JStr (name image_path)))
            /\ (forall status data,
                  o = PostJson status data -> (400 <= status)%Z ->
                  e = if Spec.readable_error data
                      then SystemExit (Spec.error_text status data) data
                      else AttributeError)
            /\ (forall status data,
                  o = PostJson status data -> (status < 400)%Z ->
                  read_reply env data = Raise e)
            /\ (forall status,
                  o = PostNonJson status ->
                  e = match raise_for_status status with
                      | Some e' => e'
                      | None =>
                          SystemExit "Non-JSON response from GPT API (HTTP "
                                     (JNum status)
                      end)
        end).
Proof.
  intros Hposted Hslept Hrun.
  unfold call_gpt_vision_json, load_image_b64 in Hrun.
  destruct (read_b64 env image_path) as [b64|];
    unfold Py.bind, Py.ret, Py.raise in Hrun; cbv beta iota in Hrun.
  2:{ injection Hrun as <- <-. rewrite Hposted, Hslept.
      unfold Spec.retried_only_when. rewrite Hposted. simpl.
      split; [lia|]. split; [reflexivity|]. split; [reflexivity|].
      split; [constructor|]. split; [constructor|]. intros a [=]. }
  cbn [fst snd] in Hrun.
  set (body := base_body cfg extra_context _) in Hrun.
  change attempt_range with [1%Z; 2%Z; 3%Z] in Hrun.
  rewrite attempt_loop_cons in Hrun.
  destruct (attempt_once env image_path 1 body None w)
    as [[[p1|b1 r1]|e1] w1] eqn:H1;
    pose proof (attempt_once_exact _ _ _ _ _ _ _ _ H1) as E1;
    apply attempt_once_post in H1; cbv zeta in H1, E1.
  { destruct H1 as (-> & _). leaf_run E1 Hrun Hposted Hslept. }
  2:{ destruct H1 as (-> & _). leaf_run E1 Hrun Hposted Hslept. }
  destruct H1 as (-> & _ & _ & ->). destruct E1 as [Hg1 _].
  rewrite attempt_loop_cons in Hrun.
  match type of Hrun with
  | context [attempt_once _ _ _ ?b ?rs ?ww] =>
      destruct (attempt_once env image_path 2 b rs ww)
        as [[[p2|b2 r2]|e2] w2] eqn:H2
  end;
    pose proof (attempt_once_exact _ _ _ _ _ _ _ _ H2) as E2;
    apply attempt_once_post in H2; cbv zeta in H2, E2.
  { destruct H2 as (-> & _). leaf_run E2 Hrun Hposted Hslept. }
  2:{ destruct H2 as (-> & _). leaf_run E2 Hrun Hposted Hslept. }
  destruct H2 as (-> & _ & _ & ->). destruct E2 as [Hg2 _].
  rewrite attempt_loop_cons in Hrun.
  match type of Hrun with
  | context [attempt_once _ _ _ ?b ?rs ?ww] =>
      destruct (attempt_once env image_path 3 b rs ww)
        as [[[p3|b3 r3]|e3] w3] eqn:H3
  end;
    pose proof (attempt_once_exact _ _ _ _ _ _ _ _ H3) as E3;
    apply attempt_once_post in H3; cbv zeta in H3, E3.
  { destruct H3 as (-> & _). leaf_run E3 Hrun Hposted Hslept. }
  { destruct H3 as (_ & Hne & _). exfalso. apply Hne. reflexivity. }
  destruct H3 as (-> & _). leaf_run E3 Hrun Hposted Hslept.
Qed.

(** C3, amended: [call_gpt_vision_json] sends at most 3 requests,
    numbered 1, 2, 3.  It goes round again only after a transport
    timeout, a reply with status 429 or 5xx, or an error reply (status
    400 or above) that blames temperature or response_format, sleeping
    [min(2 ** (attempt - 1), 8)] seconds first, that is 1 s and then
    2 s.  A reply with another 4xx status that blames neither field is
    the last request, and the call fails.  When the third request too
    ends in a failure after which the loop goes round, the call fails
    with SystemExit.  The loop goes round only after an error reply that
    the code can read: one that is not JSON, or whose error entry cannot
    be read, ends the call at once, with HTTPError or AttributeError. *)
Theorem vision_call_attempt_budget w r w' :
  posted w = [] -> slept w = [] ->
  call_gpt_vision_json env cfg image_path extra_context w = (r, w') ->
  (length (posted w') <= 3)%nat
  /\ map fst (posted w') = map Z.of_nat (seq 1 (length (posted w')))
  /\ slept w' = map backoff (removelast (map fst (posted w')))
  /\ Forall (fun d => d = 1%Z \/ d = 2%Z) (slept w')
  /\ Spec.retried_only_when Spec.retried_kind env image_path w'
  /\ Spec.retried_only_when Spec.goes_round env image_path w'
  /\ (forall a status,
        In a (posted w') ->
        let o := Spec.outcome_of env image_path a in
        Spec.status_of o = Some status ->
        (400 <= status < 500)%Z -> status <> 429%Z ->
        Spec.names_field o = false ->
        last (posted w') = Some a /\ exists e, r = Raise e)
  /\ (forall a,
        last (posted w') = Some a ->
        let o := Spec.outcome_of env image_path a in
        (forall parsed, r = Return parsed ->
           exists status data, o = PostJson status data /\ (status < 400)%Z)
        /\ (Spec.goes_round o = true ->
            fst a = max_attempts
            /\ r = Raise
                     match o with
                     | PostJson status data =>
                         SystemExit (Spec.error_text status data) data
                     | _ => SystemExit "GPT API timeout on "
                                       (JStr (name image_path))
                     end)
        /\ (forall status data,
              o = PostJson status data -> (400 <= status)%Z ->
              Spec.readable_error data = true ->
              Spec.goes_round o = false ->
              r = Raise (SystemExit "GPT API error: " data))
        /\ (forall status data,
              o = PostJson status data -> (400 <= status)%Z ->
              Spec.readable_error data = false ->
              r = Raise AttributeError)
        /\ (forall status,
              o = PostNonJson status -> (400 <= status < 600)%Z ->
              r = Raise (HTTPError status))).
Proof.
  intros Hposted Hslept Hrun.
  destruct (vision_call_run w r w' Hposted Hslept Hrun)
    as (Hlen & Hnum & Hsleep & Hback & Hround & Hlast).
  assert (Hkind : Spec.retried_only_when Spec.retried_kind env image_path w').
  { unfold Spec.retried_only_when in *.
    eapply List.Forall_impl; [|exact Hround].
    intros a. apply goes_round_retried_kind. }
  split; [exact Hlen|]. split; [exact Hnum|]. split; [exact Hsleep|].
  split; [exact Hback|]. split; [exact Hkind|]. split; [exact Hround|].
  split.
  - intros a status Hin o Hstatus Hrange H429 Hfield.
    assert (Ha : last (posted w') = Some a).
    { apply (last_of_unretried
               (fun a => Spec.retried_kind (Spec.outcome_of env image_path a)
                         = true));
        [exact Hkind | exact Hin |].
      fold o. unfold Spec.retried_kind. rewrite Hfield, orb_false_r.
      assert (Hov : overloaded status = false).
      { unfold overloaded.
        destruct (Z.eqb_spec status 429); [contradiction|].
        destruct (Z.leb_spec 500 status); [lia | reflexivity]. }
      destruct o; simpl in *; try discriminate;
        injection Hstatus as ->; rewrite Hov; discriminate. }
    split; [exact Ha|].
    specialize (Hlast a Ha). cbv zeta in Hlast. fold o in Hlast.
    destruct r as [parsed|e]; [|exists e; reflexivity].
    destruct Hlast as (_ & status' & data' & Ho & Hlt & _).
    rewrite Ho in Hstatus. simpl in Hstatus. injection Hstatus as ->. lia.
  - intros a Ha o. specialize (Hlast a Ha). cbv zeta in Hlast.
    fold o in Hlast.
    destruct r as [parsed|e].
    + destruct Hlast as (Hno & status & data & Ho & Hlt & _).
      split; [intros ? _; exists status, data; auto|].
      split; [intros Hgo; congruence|].
      split; [intros ? ? Ho'; rewrite Ho in Ho'; injection Ho' as <- <-; lia|].
      split; [intros ? ? Ho'; rewrite Ho in Ho'; injection Ho' as <- <-; lia|].
      intros ? Ho'. rewrite Ho in Ho'. discriminate.
    + destruct Hlast as (Hthird & Htimeout & Herror & _ & Hnonjson).
      split; [discriminate|].
      split.
      { intros Hgo. split; [exact (Hthird Hgo)|].
        destruct o as [| |status|status data] eqn:Ho; try discriminate.
        - rewrite (Htimeout eq_refl). reflexivity.
        - unfold Spec.goes_round in Hgo.
          destruct (Z.geb_spec status 400) as [Hge|]; [|discriminate].
          destruct (Spec.readable_error data) eqn:Hread; [|discriminate].
          rewrite (Herror status data eq_refl ltac:(lia)), Hread.
          reflexivity. }
      split.
      { intros status data Ho Hge Hread Hgo.
        rewrite (Herror status data Ho Hge), Hread. f_equal. f_equal.
        rewrite Ho in Hgo. unfold Spec.goes_round in Hgo.
        rewrite Hread in Hgo.
        destruct (Z.geb_spec status 400); [|lia]. simpl in Hgo.
        unfold Spec.error_text.
        destruct (Spec.blamed "temperature" data
                  || Spec.blamed "response_format" data); [discriminate|].
        simpl in Hgo. rewrite Hgo. reflexivity. }
      split.
      { intros status data Ho Hge Hread.
        rewrite (Herror status data Ho Hge), Hread. reflexivity. }
      intros status Ho Hrange. rewrite (Hnonjson status Ho).
      unfold raise_for_status.
      destruct (Z.leb_spec 400 status); [|lia].
      destruct (Z.ltb_spec status 600); [reflexivity | lia].
Qed.

End AttemptBudget.

Lemma vision_call_attempt_budget_witness :
  let w' := snd (graphify_images.call_gpt_vision_json
                   graphify_images.picky_endpoint graphify_images.cfg
                   graphify_images.figure1 None graphify_images.world0) in
  (length (graphify_images.posted w') <= 3)%nat
  /\ Forall (fun d => d = 1%Z \/ d = 2%Z) (graphify_images.slept w')
  /\ Spec.retried_only_when Spec.retried_kind graphify_images.picky_endpoint
       graphify_images.figure1 w'.
Proof.
  destruct (vision_call_attempt_budget graphify_images.picky_endpoint
              graphify_images.cfg graphify_images.figure1 None
              graphify_images.world0 _ _ eq_refl eq_refl
              (surjective_pairing _))
    as (H1 & _ & _ & H4 & H5 & _).
  split; [exact H1|]. split; [exact H4 | exact H5].
Defined.

(** C3 as stated fails twice.  An HTTP 400 reply that blames temperature
    is neither a timeout nor a 429 nor a 5xx, and yet a second request
    follows it.  And after two timeouts a third request answered 503
    with a page that is not JSON ends the call with HTTPError, not with
    the SystemExit of the exhausted attempts. *)
Lemma retry_rule_and_exhaustion_fail :
  ~ Spec.retries_only_when_transient
  /\ ~ Spec.exhausting_raises_SystemExit.
Proof.
  split.
  - intros H.
    specialize (H graphify_images.picky_endpoint graphify_images.cfg
                  graphify_images.figure1 None _ _ (surjective_pairing _)).
    unfold Spec.retried_only_when in H. vm_compute in H.
    inversion H as [|a l Ha Hl]. discriminate Ha.
  - intros H.
    destruct (H graphify_images.worn_out_endpoint graphify_images.cfg
                graphify_images.figure1 None
                (Raise (HTTPError 503))
                (snd (graphify_images.call_gpt_vision_json
                        graphify_images.worn_out_endpoint graphify_images.cfg
                        graphify_images.figure1 None graphify_images.world0))
                (3%Z, graphify_images.base_body graphify_images.cfg None
                        (graphify_images.to_data_url "image/png"
                           "iVBORw0KGgo=")))
      as (text & arg & Hr);
      [vm_compute; reflexivity | vm_compute; reflexivity | reflexivity
      | reflexivity | discriminate Hr].
Qed.

Example worn_out_endpoint_run :
  let run := graphify_images.call_gpt_vision_json
               graphify_images.worn_out_endpoint graphify_images.cfg
               graphify_images.figure1 None graphify_images.world0 in
  fst run = Raise (HTTPError 503)
  /\ map fst (graphify_images.posted (snd run)) = [1%Z; 2%Z; 3%Z]
  /\ graphify_images.slept (snd run) = [1%Z; 2%Z].
Proof. vm_compute. repeat split. Qed.

Example picky_endpoint_run :
  let run := graphify_images.call_gpt_vision_json
               graphify_images.picky_endpoint graphify_images.cfg
               graphify_images.figure1 None graphify_images.world0 in
  fst run = Return graphify_images.graph_reply
  /\ map fst (graphify_images.posted (snd run)) = [1%Z; 2%Z]
  /\ map (fun a => graphify_images.has_key "temperature" (snd a))
         (graphify_images.posted (snd run)) = [true; false]
  /\ graphify_images.slept (snd run) = [1%Z].
Proof. vm_compute. repeat split. Qed.

(** ** Dropping an optional field the endpoint refuses *)

Lemma assoc_pop_same k d : assoc k (dict_pop k d) = None.
Proof.
  induction d as [|[k' v] d IH]; simpl; [reflexivity|].
  destruct (String.eqb k k') eqn:Hk; [exact IH|].
  simpl. rewrite Hk. exact IH.
Qed.

Lemma assoc_set_other k k' v d :
  k <> k' -> assoc k (dict_set k' v d) = assoc k d.
Proof.
  intros Hne. apply String.eqb_neq in Hne.
  induction d as [|[k0 v0] d IH]; simpl.
  - rewrite Hne. reflexivity.
  - destruct (String.eqb k' k0) eqn:Hk0; simpl.
    + apply String.eqb_eq in Hk0. subst k0. rewrite Hne. reflexivity.
    + destruct (String.eqb k k0); [reflexivity | exact IH].
Qed.

Lemma assoc_pop_other k k' d :
  k <> k' -> assoc k (dict_pop k' d) = assoc k d.
Proof.
  intros Hne. induction d as [|[k0 v0] d IH]; simpl; [reflexivity|].
  destruct (String.eqb k' k0) eqn:Hk0; simpl.
  - apply String.eqb_eq in Hk0. subst k0.
    apply String.eqb_neq in Hne. rewrite Hne. exact IH.
  - destruct (String.eqb k k0); [reflexivity | exact IH].
Qed.

Lemma assoc_set_same k v d : assoc k (dict_set k v d) = Some v.
Proof.
  induction d as [|[k0 v0] d IH]; simpl.
  - rewrite String.eqb_refl. reflexivity.
  - destruct (String.eqb k k0) eqn:Hk0; simpl.
    + rewrite String.eqb_refl. reflexivity.
    + rewrite Hk0. exact IH.
Qed.

Lemma drop_temperature_gone body :
  graphify_images.has_key "temperature"
    (graphify_images.drop_temperature body) = false.
Proof.
  unfold graphify_images.drop_temperature.
  destruct (graphify_images.has_key "temperature" body) eqn:H; [|exact H].
  unfold graphify_images.has_key. rewrite assoc_pop_same. reflexivity.
Qed.

Lemma drop_response_format_gone body :
  graphify_images.has_key "response_format"
    (graphify_images.drop_response_format body) = false.
Proof.
  unfold graphify_images.drop_response_format.
  destruct (graphify_images.has_key "response_format" body) eqn:H; [|exact H].
  unfold graphify_images.has_key.
  rewrite assoc_set_other by discriminate.
  rewrite assoc_pop_same. reflexivity.
Qed.

Lemma drop_temperature_keeps body k :
  k <> "temperature" ->
  assoc k (graphify_images.drop_temperature body) = assoc k body.
Proof.
  intros Hk. unfold graphify_images.drop_temperature.
  destruct (graphify_images.has_key "temperature" body); [|reflexivity].
  apply assoc_pop_other, Hk.
Qed.

Lemma drop_response_format_keeps body k :
  k <> "response_format" -> k <> "messages" ->
  assoc k (graphify_images.drop_response_format body) = assoc k body.
Proof.
  intros Hk Hm. unfold graphify_images.drop_response_format.
  destruct (graphify_images.has_key "response_format" body); [|reflexivity].
  rewrite assoc_set_other by exact Hm. apply assoc_pop_other, Hk.
Qed.

Lemma drop_response_format_messages body :
  graphify_images.has_key "response_format" body = true ->
  assoc "messages" (graphify_images.drop_response_format body)
  = Some (JArr (graphify_images.strict_json_message
                  :: Spec.messages_of body)).
Proof.
  intros H. unfold graphify_images.drop_response_format. rewrite H.
  rewrite assoc_set_same. unfold Spec.messages_of, dict_get.
  rewrite assoc_pop_other by discriminate. reflexivity.
Qed.

Section UnsupportedField.

Import graphify_images.

Variable env : Env.
Variable image_path : Path.

(** a pass that meets an error reply blaming temperature *)
Lemma attempt_once_temperature attempt body resp w status data param message :
  post env image_path attempt body = PostJson status data ->
  (400 <= status)%Z ->
  error_fields data = Return (param, message) ->
  blames "temperature" param message = Return true ->
  attempt_once env image_path attempt body resp w
  = if (attempt =? max_attempts)%Z
    then (Raise (SystemExit "GPT API error: " data),
          Spec.after_request w attempt body [])
    else (Return (Continue (drop_temperature body) (Some status)),
          Spec.after_request w attempt body [backoff attempt]).
Proof.
  intros Ho Hs Hf Ht. run_pass. rewrite Ho.
  destruct (status >=? 400)%Z eqn:Hge; [|lia].
  rewrite Hf. simpl. rewrite Ht. simpl.
  unfold Spec.after_request.
  destruct (attempt =? 3)%Z; simpl; rewrite ?app_nil_r; reflexivity.
Qed.

(** a pass that meets an error reply blaming response_format only *)
Lemma attempt_once_response_format
    attempt body resp w status data param message :
  post env image_path attempt body = PostJson status data ->
  (400 <= status)%Z ->
  error_fields data = Return (param, message) ->
  blames "temperature" param message = Return false ->
  blames "response_format" param message = Return true ->
  attempt_once env image_path attempt body resp w
  = if (attempt =? max_attempts)%Z
    then (Raise (SystemExit "GPT API error: " data),
          Spec.after_request w attempt body [])
    else (Return (Continue (drop_response_format body) (Some status)),
          Spec.after_request w attempt body [backoff attempt]).
Proof.
  intros Ho Hs Hf Ht Hr. run_pass. rewrite Ho.
  destruct (status >=? 400)%Z eqn:Hge; [|lia].
  rewrite Hf. simpl. rewrite Ht. simpl. rewrite Hr. simpl.
  unfold Spec.after_request.
  destruct (attempt =? 3)%Z; simpl; rewrite ?app_nil_r; reflexivity.
Qed.

(** C4: an error reply (status 400 or above) that blames temperature, or
    else response_format, makes [call_gpt_vision_json] drop that field
    from the request body; unless this was attempt 3, it sleeps and the
    next attempt sends the body without the field, so the removal has
    used up one attempt.  The body sent next is the previous one less
    the field: every other key keeps its value, but that with
    response_format gone the messages get the strict-JSON system message
    in front.  A first-attempt HTTP 400 with the message
    "Unsupported parameter: temperature" followed by a good reply ends
    with that reply parsed, after requests number 1 and 2. *)
Theorem unsupported_field_is_removed_and_retried :
  (forall attempt rest body resp w status data param message,
      post env image_path attempt body = PostJson status data ->
      (400 <= status)%Z ->
      error_fields data = Return (param, message) ->
      attempt <> max_attempts ->
      (blames "temperature" param message = Return true ->
       attempt_loop env image_path (attempt :: rest) body resp w
       = attempt_loop env image_path rest (drop_temperature body)
           (Some status)
           (Spec.after_request w attempt body [backoff attempt]))
      /\ (blames "temperature" param message = Return false ->
          blames "response_format" param message = Return true ->
          attempt_loop env image_path (attempt :: rest) body resp w
          = attempt_loop env image_path rest (drop_response_format body)
              (Some status)
              (Spec.after_request w attempt body [backoff attempt])))
  /\ (forall body,
        has_key "temperature" (drop_temperature body) = false
        /\ (forall k, k <> "temperature" ->
                      assoc k (drop_temperature body) = assoc k body)
        /\ has_key "response_format" (drop_response_format body) = false
        /\ (forall k, k <> "response_format" -> k <> "messages" ->
                      assoc k (drop_response_format body) = assoc k body)
        /\ (has_key "response_format" body = true ->
            assoc "messages" (drop_response_format body)
            = Some (JArr (strict_json_message :: Spec.messages_of body)))
        /\ (has_key "response_format" body = false ->
            drop_response_format body = body))
  /\ (forall cfg extra_context w b64 d e status2 data2 parsed,
        read_b64 env image_path = Some b64 ->
        let body :=
          base_body cfg extra_context
            (to_data_url (infer_mime_type image_path) b64) in
        post env image_path 1 body = PostJson 400 (JObj d) ->
        dict_get "error" (JObj []) d = JObj e ->
        dict_get "message" (JStr "") e
        = JStr "Unsupported parameter: temperature" ->
        post env image_path 2 (drop_temperature body)
        = PostJson status2 data2 ->
        (status2 < 400)%Z ->
        read_reply env data2 = Return parsed ->
        exists w',
          call_gpt_vision_json env cfg image_path extra_context w
          = (Return parsed, w')
          /\ posted w'
             = (posted w ++ [(1%Z, body); (2%Z, drop_temperature body)])%list
          /\ slept w' = (slept w ++ [1%Z])%list
          /\ (2 < max_attempts)%Z).
Proof.
  split; [|split].
  - intros attempt rest body resp w status data param message Ho Hs Hf Hk.
    apply Z.eqb_neq in Hk. split.
    + intros Ht. rewrite attempt_loop_cons.
      rewrite (attempt_once_temperature _ _ _ _ _ _ _ _ Ho Hs Hf Ht), Hk.
      reflexivity.
    + intros Ht Hr. rewrite attempt_loop_cons.
      rewrite (attempt_once_response_format _ _ _ _ _ _ _ _ Ho Hs Hf Ht Hr), Hk.
      reflexivity.
  - intros body.
    split; [apply drop_temperature_gone|].
    split; [intros k; apply drop_temperature_keeps|].
    split; [apply drop_response_format_gone|].
    split; [intros k; apply drop_response_format_keeps|].
    split; [apply drop_response_format_messages|].
    intros H. unfold drop_response_format. rewrite H. reflexivity.
  - intros cfg extra_context w b64 d e status2 data2 parsed Hread body
      Ho1 He Hm Ho2 Hs2 Hp.
    assert (Hf : error_fields (JObj d)
                 = Return (dict_get "param" JNull e,
                           JStr "Unsupported parameter: temperature")).
    { unfold error_fields. rewrite He. simpl. rewrite Hm. reflexivity. }
    assert (Ht : blames "temperature" (dict_get "param" JNull e)
                   (JStr "Unsupported parameter: temperature") = Return true).
    { unfold blames. destruct (eq_str _ _); reflexivity. }
    unfold call_gpt_vision_json, load_image_b64. rewrite Hread.
    unfold Py.bind at 1. unfold Py.ret at 1. cbv beta iota. cbn [fst snd].
    fold body. change attempt_range with [1%Z; 2%Z; 3%Z].
    rewrite attempt_loop_cons.
    rewrite (attempt_once_temperature _ _ _ _ _ _ _ _ Ho1 ltac:(lia) Hf Ht).
    change (1 =? max_attempts)%Z with false. cbv iota.
    rewrite attempt_loop_cons.
    unfold attempt_once, log_post, Py.bind, Py.ret, Py.modify, Py.lift.
    rewrite Ho2. simpl. destruct (status2 >=? 400)%Z eqn:Hge; [lia|].
    rewrite Hp. eexists. split; [reflexivity|]. simpl.
    rewrite <- !app_assoc. simpl. repeat split.
Qed.

End UnsupportedField.

Lemma unsupported_field_is_removed_and_retried_witness :
  let body :=
    graphify_images.base_body graphify_images.cfg None
      (graphify_images.to_data_url "image/png" "iVBORw0KGgo=") in
  exists w',
    graphify_images.call_gpt_vision_json graphify_images.picky_endpoint
      graphify_images.cfg graphify_images.figure1 None graphify_images.world0
    = (Return graphify_images.graph_reply, w')
    /\ graphify_images.posted w'
       = [(1%Z, body);
          (2%Z, List.filter
                  (fun kv => negb (String.eqb (fst kv) "temperature")) body)]
    /\ graphify_images.slept w' = [1%Z].
Proof.
  intros body.
  destruct (proj2 (proj2 (unsupported_field_is_removed_and_retried
                            graphify_images.picky_endpoint
                            graphify_images.figure1))
              graphify_images.cfg None graphify_images.world0
              "iVBORw0KGgo="
              [("error",
                JObj [("message", JStr "Unsupported parameter: temperature");
                      ("type", JStr "invalid_request_error")])]
              [("message", JStr "Unsupported parameter: temperature");
               ("type", JStr "invalid_request_error")]
              200%Z
              (graphify_images.completion (dumps graphify_images.graph_reply))
              graphify_images.graph_reply
              eq_refl eq_refl eq_refl eq_refl eq_refl eq_refl eq_refl)
    as (w' & Hrun & Hposted & Hslept & _).
  exists w'. split; [exact Hrun|].
  rewrite Hposted, Hslept. split; reflexivity.
Defined.
(* ===================================================================== *)
(** * The sandbox *)
(* ===================================================================== *)

Section Sandbox.

Import graphify_images.

Variable env : Env.


Lemma execute_generated_code_total python_code output_path exec_timeout_s w :
  exists ok error,
    execute_generated_code env python_code output_path exec_timeout_s w
    = (Return (ok, error),
       Spec.after_run env w python_code output_path exec_timeout_s).
Proof.
  unfold execute_generated_code, run_child, log_exec, Spec.after_run,
    Py.bind, Py.modify, Py.ret.
  simpl.
  destruct (run_code env python_code output_path exec_timeout_s (fs w))
    as [outcome fs'].
  destruct outcome; simpl; eexists _, _; reflexivity.
Qed.

End Sandbox.


(** ... and code whose entry point returns without saving anything is
    reported as a success, and no file is there. *)
Example successful_run_without_file :
  let run := graphify_images.execute_generated_code
               (graphify_images.plain_endpoint graphify_images.forgets_to_save)
               "def recreate_plot(output_path): pass"
               "out/figure-1.reconstructed.png" 30 graphify_images.world0 in
  fst run = Return (true, JNull)
  /\ Fs.exists_ "out/figure-1.reconstructed.png"
       (graphify_images.fs (snd run)) = false.
Proof. vm_compute. split; reflexivity. Qed.
(* ===================================================================== *)
(** * Processing one image *)
(* ===================================================================== *)

Section Worker.

Import graphify_images.

Variable env : Env.
Variable out_dir : string.
Variable gpt_cfg : GptConfig.
Variable execute : bool.
Variable extra_context : option string.
Variable exec_timeout_s : Z.

(** the vision call runs no generated code and touches no file *)
Lemma attempt_loop_quiet image_path attempts :
  forall body resp w r w',
    attempt_loop env image_path attempts body resp w = (r, w') ->
    executed w' = executed w /\ fs w' = fs w.
Proof.
  induction attempts as [|attempt rest IH]; intros body resp w r w' Hrun.
  - injection Hrun as <- <-. split; reflexivity.
  - rewrite attempt_loop_cons in Hrun.
    destruct (attempt_once env image_path attempt body resp w)
      as [[[p|b rs]|e] w1] eqn:H1;
      apply attempt_once_post in H1; cbv zeta in H1.
    + destruct H1 as (-> & _). injection Hrun as <- <-. split; reflexivity.
    + destruct H1 as (-> & _). apply IH in Hrun. exact Hrun.
    + destruct H1 as (-> & _). injection Hrun as <- <-. split; reflexivity.
Qed.

Lemma call_gpt_vision_json_quiet image_path w r w' :
  call_gpt_vision_json env gpt_cfg image_path extra_context w = (r, w') ->
  executed w' = executed w /\ fs w' = fs w.
Proof.
  unfold call_gpt_vision_json, load_image_b64.
  destruct (read_b64 env image_path); unfold Py.bind, Py.ret, Py.raise.
  - apply attempt_loop_quiet.
  - intros [= <- <-]. split; reflexivity.
Qed.

Lemma classify_quiet img_path w r w' :
  classify env gpt_cfg extra_context img_path w = (r, w') ->
  executed w' = executed w.
Proof.
  unfold classify, Py.try_except_else.
  destruct (call_gpt_vision_json env gpt_cfg img_path extra_context w)
    as [[parsed|e] w1] eqn:Hcall;
    apply call_gpt_vision_json_quiet in Hcall as [He _].
  - unfold Py.lift. intros [= <- <-]. exact He.
  - destruct (is_Exception e); unfold Py.ret; intros [= <- <-]; exact He.
Qed.

Lemma save_result_quiet json_path result w r w' :
  save_result env json_path result w = (r, w') ->
  executed w' = executed w.
Proof.
  unfold save_result, Py.try_except, Py.bind, with_fs, Fs.write_text,
    Py.lift, Py.ret.
  destruct (Fs.unwritable (fs w) json_path); simpl;
    intros [= <- <-]; reflexivity.
Qed.

Lemma list_grew {A} (l : list A) x : (l ++ [x])%list <> l.
Proof.
  intros H. apply (f_equal (@length A)) in H.
  rewrite length_app in H. simpl in H. lia.
Qed.

(** C8: a worker runs generated code at most once, and only when the
    execute flag is set, the classification's is_graph is true and its
    python_code is a str, which is the code it runs, on the image's
    reconstruction path.  The entry's reconstructed field is filled in,
    with that path, exactly when the code was run and the run
    succeeded. *)
Theorem execution_only_when_asked img_path w entry w' :
  _process env out_dir gpt_cfg execute extra_context exec_timeout_s
    img_path w = (Return entry, w') ->
  let recon_path := recon_path_of out_dir img_path in
  exists result w1,
    Py.bind (classify env gpt_cfg extra_context img_path)
            (save_result env (json_path_of out_dir img_path)) w
    = (Return result, w1)
    /\ executed w1 = executed w
    /\ Spec.field "is_graph" entry
       = JBool (truthy (dict_get "is_graph" JNull result))
    /\ ((executed w' = executed w
         /\ Spec.field "reconstructed" entry = JNull)
        \/ (execute = true
            /\ truthy (dict_get "is_graph" JNull result) = true
            /\ exists python_code ok error,
                 dict_get "python_code" JNull result = JStr python_code
                 /\ execute_generated_code env python_code recon_path
                      exec_timeout_s w1 = (Return (ok, error), w')
                 /\ executed w'
                    = (executed w ++ [(python_code, recon_path)])%list
                 /\ Spec.field "reconstructed" entry
                    = if ok then JStr recon_path else JNull))
    /\ (Spec.field "reconstructed" entry <> JNull <->
        executed w' <> executed w
        /\ exists python_code error,
             execute_generated_code env python_code recon_path
               exec_timeout_s w1 = (Return (true, error), w')).
Proof.
  intros Hrun recon_path. subst recon_path. unfold _process in Hrun.
  unfold Py.bind at 1 in Hrun. unfold Py.bind at 1.
  destruct (classify env gpt_cfg extra_context img_path w)
    as [[result0|e0] w0] eqn:Hclassify; [|discriminate].
  unfold Py.bind at 1 in Hrun.
  destruct (save_result env (json_path_of out_dir img_path) result0 w0)
    as [[result|e1] w1] eqn:Hsave; [|discriminate].
  exists result, w1. split; [reflexivity|].
  assert (Hquiet : executed w1 = executed w).
  { apply classify_quiet in Hclassify. apply save_result_quiet in Hsave.
    congruence. }
  split; [exact Hquiet|].
  unfold Py.bind at 1 in Hrun.
  destruct (wants_execution execute result) eqn:Hwants.
  - (* the guard holds *)
    unfold wants_execution in Hwants.
    apply andb_prop in Hwants as [Hwants Hcode].
    apply andb_prop in Hwants as [Hexec Hgraph].
    destruct (dict_get "python_code" JNull result) as [| | |python_code| |]
      eqn:Hpy; try discriminate.
    destruct (execute_generated_code_total env python_code
                (recon_path_of out_dir img_path) exec_timeout_s w1)
      as (ok & error & Hexecd).
    rewrite Hexecd in Hrun. unfold Py.ret in Hrun. simpl in Hrun.
    injection Hrun as <- <-.
    assert (Hlog : executed (Spec.after_run env w1 python_code
                               (recon_path_of out_dir img_path) exec_timeout_s)
                   = (executed w
                      ++ [(python_code, recon_path_of out_dir img_path)])%list).
    { simpl. rewrite Hquiet. reflexivity. }
    split; [reflexivity|]. split.
    + right. split; [exact Hexec|]. split; [exact Hgraph|].
      exists python_code, ok, error. repeat split; assumption.
    + simpl. split.
      * intros Hfilled. split.
        -- rewrite Hquiet. apply list_grew.
        -- destruct ok; [|contradiction].
           exists python_code, error. exact Hexecd.
      * intros (_ & code' & error' & Hexecd').
        destruct (execute_generated_code_total env code'
                    (recon_path_of out_dir img_path) exec_timeout_s w1)
          as (ok' & error'' & Hother).
        rewrite Hother in Hexecd'.
        apply (f_equal (fun x => (fst x, executed (snd x)))) in Hexecd'.
        simpl in Hexecd'. injection Hexecd' as -> -> Hsame.
        apply app_inv_head in Hsame. injection Hsame as ->.
        rewrite Hexecd in Hother. injection Hother as -> _.
        discriminate.
  - (* no run *)
    unfold Py.ret in Hrun. simpl in Hrun. injection Hrun as <- <-.
    split; [reflexivity|]. split.
    + left. split; [exact Hquiet | reflexivity].
    + simpl. split; [contradiction|].
      intros [Hgrew _]. contradiction.
Qed.

End Worker.

Lemma execution_only_when_asked_witness :
  exists result,
    Spec.field "is_graph" graphify_images.redrawn_entry
    = JBool (truthy (dict_get "is_graph" JNull result))
    /\ truthy (dict_get "is_graph" JNull result) = true.
Proof.
  destruct (execution_only_when_asked graphify_images.picky_endpoint "out"
              graphify_images.cfg true None 30 graphify_images.figure1
              graphify_images.world0 graphify_images.redrawn_entry _
              (surjective_pairing _))
    as (result & w1 & _ & _ & Hgraph & _).
  exists result. split; [exact Hgraph|].
  simpl in Hgraph. injection Hgraph as <-. reflexivity.
Defined.
(* ===================================================================== *)
(** * The batch *)
(* ===================================================================== *)

Section Capture.

Import graphify_images.

Variable env : Env.
Variable out_dir : string.
Variable gpt_cfg : GptConfig.
Variable execute : bool.
Variable extra_context : option string.
Variable exec_timeout_s : Z.

(** what the [except Exception] clause of the worker catches ... *)
Lemma classify_captures img_path w e w' :
  call_gpt_vision_json env gpt_cfg img_path extra_context w = (Raise e, w') ->
  is_Exception e = true ->
  classify env gpt_cfg extra_context img_path w
  = (Return [("is_graph", JBool false);
             ("error", JStr ("GPT call failed: " ++ exn_str env e))], w').
Proof.
  intros Hcall He. unfold classify, Py.try_except_else.
  rewrite Hcall, He. reflexivity.
Qed.

(** ... and what passes through it and leaves the worker *)
Lemma worker_lets_through img_path w e w' :
  call_gpt_vision_json env gpt_cfg img_path extra_context w = (Raise e, w') ->
  is_Exception e = false ->
  _process env out_dir gpt_cfg execute extra_context exec_timeout_s img_path w
  = (Raise e, w').
Proof.
  intros Hcall He. unfold _process, classify, Py.try_except_else, Py.bind.
  rewrite Hcall, He. reflexivity.
Qed.

(** ** The summary of a batch that runs to its end *)

Lemma submit_all_length images :
  forall w,
    length (fst (submit_all env out_dir gpt_cfg execute extra_context
                   exec_timeout_s images w))
    = length images.
Proof.
  induction images as [|p rest IH]; intros w; simpl; [reflexivity|].
  destruct (_process env out_dir gpt_cfg execute extra_context exec_timeout_s
              p w) as [r w1].
  specialize (IH w1).
  destruct (submit_all env out_dir gpt_cfg execute extra_context
              exec_timeout_s rest w1) as [futures w2].
  simpl in *. congruence.
Qed.

Lemma collect_length futures :
  forall summary summary',
    collect env futures summary = Return summary' ->
    length summary' = (length summary + length futures)%nat.
Proof.
  induction futures as [|[p r] rest IH]; intros summary summary'; simpl.
  - intros [= <-]. lia.
  - destruct r as [entry|exc]; [|destruct (is_Exception exc)];
      try discriminate;
      intros H; apply IH in H; rewrite length_app in H; simpl in H; lia.
Qed.

Lemma one_by_one_length images :
  forall summary w summary' w',
    one_by_one env out_dir gpt_cfg execute extra_context exec_timeout_s
      images summary w = (Return summary', w') ->
    length summary' = (length summary + length images)%nat.
Proof.
  induction images as [|p rest IH]; intros summary w summary' w'; simpl.
  - intros [= <- <-]. lia.
  - unfold Py.bind.
    destruct (_process env out_dir gpt_cfg execute extra_context
                exec_timeout_s p w) as [[entry|e] w1]; [|discriminate].
    intros H. apply IH in H. rewrite length_app in H. simpl in H. lia.
Qed.

(** A batch that is not aborted has one entry per image, after the
    truncation to [max_images]. *)
Lemma summary_one_entry_per_image listing max_images concurrency w summary w' :
  (forall futures, length (as_completed env futures) = length futures) ->
  build_summary env out_dir gpt_cfg execute extra_context exec_timeout_s
    listing max_images concurrency w = (Return summary, w') ->
  length summary
  = length (match max_images with
            | Some n => slice_to n (iter_images listing)
            | None => iter_images listing
            end).
Proof.
  intros Horder. unfold build_summary.
  set (images := match max_images with
                 | Some n => slice_to n (iter_images listing)
                 | None => iter_images listing
                 end).
  destruct (negb (concurrency =? 0) && (concurrency >? 1))%Z.
  - pose proof (submit_all_length images w) as Hlen.
    destruct (submit_all env out_dir gpt_cfg execute extra_context
                exec_timeout_s images w) as [futures w1].
    intros [= Hcollect <-]. apply collect_length in Hcollect.
    rewrite Horder in Hcollect. simpl in *. lia.
  - intros H. apply one_by_one_length in H. simpl in H. exact H.
Qed.

End Capture.

(** C2 fails on the code: when all three attempts of the vision call time
    out, the call raises SystemExit, which is no [Exception]; the
    worker's [except Exception] clause does not catch it, no
    classification result is made or saved, and the exception leaves
    [_process]. *)
Theorem timeout_exhaustion_escapes_worker :
  let run := graphify_images._process graphify_images.unreachable_endpoint
               "out" graphify_images.cfg true None 30
               graphify_images.figure1 graphify_images.world0 in
  fst run = Raise (SystemExit "GPT API timeout on " (JStr "figure 1.png"))
  /\ is_Exception (SystemExit "GPT API timeout on " (JStr "figure 1.png"))
     = false
  /\ map fst (graphify_images.posted (snd run)) = [1%Z; 2%Z; 3%Z]
  /\ Fs.exists_ "out/figure-1.graph.json" (graphify_images.fs (snd run))
     = false.
Proof. vm_compute. repeat split. Qed.

(** C1 fails on the code: with two images in the directory and an
    endpoint that rejects the API key, the SystemExit of the first vision
    call leaves the worker; the sequential loop lets it through, the
    pool's [except Exception] does not catch it either, and
    [detect_and_reconstruct_graphs] raises without a summary. *)
Theorem rejected_image_aborts_batch :
  let run concurrency :=
    graphify_images.detect_and_reconstruct_graphs
      graphify_images.rejecting_endpoint "out" graphify_images.cfg false None
      30 graphify_images.two_figures None concurrency
      graphify_images.world0 in
  length (graphify_images.iter_images graphify_images.two_figures) = 2%nat
  /\ fst (run 1%Z)
     = Raise (SystemExit "GPT API error: " graphify_images.bad_key_reply)
  /\ fst (run 3%Z)
     = Raise (SystemExit "GPT API error: " graphify_images.bad_key_reply)
  /\ Fs.exists_ (graphify_images.summary_path "out")
       (graphify_images.fs (snd (run 1%Z))) = false
  /\ Fs.exists_ (graphify_images.summary_path "out")
       (graphify_images.fs (snd (run 3%Z))) = false.
Proof. vm_compute. repeat split. Qed.

(** The same batch against an endpoint that answers: one entry per
    image. *)
Example answered_batch :
  let run := graphify_images.detect_and_reconstruct_graphs
               (graphify_images.plain_endpoint graphify_images.draws)
               "out" graphify_images.cfg true None 30
               graphify_images.two_figures None 3 graphify_images.world0 in
  fst run = Return (JObj [("summary_path", JStr "out/summary.json");
                          ("count", JNum 2)]).
Proof. vm_compute. reflexivity. Qed.
(* ===================================================================== *)
(** * Further properties: file names, image lists, the pool *)
(* ===================================================================== *)

(** a failing write touches no other file, and leaves of its own file
    what was there or a beginning of the new content *)
Lemma write_text_fails p content fs :
  Fs.unwritable fs p = true ->
  exists fs',
    Fs.write_text p content fs = (Raise OSError, fs')
    /\ Spec.after_failed_write p content fs fs'.
Proof.
  intros Hw. unfold Fs.write_text. rewrite Hw.
  eexists. split; [reflexivity|]. unfold Spec.after_failed_write.
  destruct (Fs.torn fs p) as [n|]; simpl.
  - split; [intros q Hq; apply lookup_insert_ne; congruence|].
    right. exists n. apply lookup_insert_eq.
  - split; [reflexivity | left; reflexivity].
Qed.

Section StripMore.

Variable drop : ascii -> bool.

Lemma lstrip_if_id s :
  (forall c, Spec.first_char s = Some c -> drop c = false) ->
  lstrip_if drop s = s.
Proof.
  destruct s as [|a s]; simpl; [reflexivity|].
  intros H. rewrite (H a eq_refl). reflexivity.
Qed.

Lemma rstrip_if_id s :
  (forall c, Spec.last_char s = Some c -> drop c = false) ->
  rstrip_if drop s = s.
Proof.
  induction s as [|a s IH]; simpl; [reflexivity|].
  destruct s as [|b s].
  - intros H. simpl. rewrite (H a eq_refl). reflexivity.
  - intros H. rewrite IH by exact H. reflexivity.
Qed.

Lemma lstrip_if_all p s :
  Spec.all_chars p s = true -> Spec.all_chars p (lstrip_if drop s) = true.
Proof.
  induction s as [|a s IH]; simpl; [reflexivity|].
  intros H. apply andb_prop in H as [Ha Hs].
  destruct (drop a); [apply IH, Hs|]. simpl. rewrite Ha, Hs. reflexivity.
Qed.

Lemma rstrip_if_all p s :
  Spec.all_chars p s = true -> Spec.all_chars p (rstrip_if drop s) = true.
Proof.
  induction s as [|a s IH]; simpl; [reflexivity|].
  intros H. apply andb_prop in H as [Ha Hs]. specialize (IH Hs).
  destruct (rstrip_if drop s) as [|b r].
  - destruct (drop a); simpl; [reflexivity|]. rewrite Ha. reflexivity.
  - simpl in *. rewrite Ha, IH. reflexivity.
Qed.

Lemma strip_if_id s :
  (forall c, Spec.first_char s = Some c -> drop c = false) ->
  (forall c, Spec.last_char s = Some c -> drop c = false) ->
  strip_if drop s = s.
Proof.
  intros Hf Hl. unfold strip_if. rewrite lstrip_if_id by exact Hf.
  apply rstrip_if_id, Hl.
Qed.

End StripMore.

Lemma sub_unsafe_safe s : forall in_run,
  Spec.all_chars graphify_images.safe_char
    (graphify_images.sub_unsafe in_run s) = true.
Proof.
  induction s as [|a s IH]; intros in_run; simpl; [reflexivity|].
  destruct (graphify_images.safe_char a) eqn:Ha.
  - simpl. rewrite Ha, IH. reflexivity.
  - destruct in_run; [apply IH|]. simpl. apply IH.
Qed.

Lemma sub_unsafe_id s : forall in_run,
  Spec.all_chars graphify_images.safe_char s = true ->
  graphify_images.sub_unsafe in_run s = s.
Proof.
  induction s as [|a s IH]; intros in_run; simpl; [reflexivity|].
  intros H. apply andb_prop in H as [Ha Hs].
  rewrite Ha, (IH false Hs). reflexivity.
Qed.

Lemma not_dash c : Ascii.eqb graphify_images.dash c = false
                   <-> c <> graphify_images.dash.
Proof.
  rewrite <- not_true_iff_false, Ascii.eqb_eq. split; intros H E; apply H;
    congruence.
Qed.

(** X1: [sanitize_filename] always yields a usable file name: it is not
    empty, holds only letters, digits, [_], [.] and [-], neither starts
    nor ends with [-], and sanitizing it again changes nothing. *)
Theorem sanitize_filename_safe name :
  let cleaned := graphify_images.sanitize_filename name in
  cleaned <> ""
  /\ Spec.all_chars graphify_images.safe_char cleaned = true
  /\ Spec.first_char cleaned <> Some graphify_images.dash
  /\ Spec.last_char cleaned <> Some graphify_images.dash
  /\ graphify_images.sanitize_filename cleaned = cleaned.
Proof.
  unfold graphify_images.sanitize_filename.
  set (s := strip_if (Ascii.eqb graphify_images.dash)
              (graphify_images.sub_unsafe false name)).
  assert (Hall : Spec.all_chars graphify_images.safe_char s = true).
  { unfold s, strip_if. apply rstrip_if_all, lstrip_if_all, sub_unsafe_safe. }
  assert (Hfirst : forall c, Spec.first_char s = Some c ->
                             Ascii.eqb graphify_images.dash c = false).
  { intros c Hc. unfold s, strip_if in Hc. apply rstrip_if_first in Hc.
    eapply lstrip_if_first; eassumption. }
  assert (Hlast : forall c, Spec.last_char s = Some c ->
                            Ascii.eqb graphify_images.dash c = false).
  { intros c Hc. unfold s, strip_if in Hc.
    eapply rstrip_if_last; eassumption. }
  destruct (String.eqb s "") eqn:He.
  - cbv zeta. repeat split; try discriminate; reflexivity.
  - cbv zeta. apply String.eqb_neq in He.
    split; [exact He|]. split; [exact Hall|].
    split; [intros Hc; apply Hfirst in Hc; apply not_dash in Hc; congruence|].
    split; [intros Hc; apply Hlast in Hc; apply not_dash in Hc; congruence|].
    rewrite sub_unsafe_id by exact Hall.
    rewrite strip_if_id by assumption.
    apply String.eqb_neq in He. rewrite He. reflexivity.
Qed.

Lemma mem_supported_mime p :
  graphify_images.mem (lower (graphify_images.suffix p))
    graphify_images.SUPPORTED_IMAGE_EXTS = true ->
  In (graphify_images.infer_mime_type p)
     ["image/jpeg"; "image/png"; "image/webp"].
Proof.
  unfold graphify_images.infer_mime_type, graphify_images.mem,
    graphify_images.SUPPORTED_IMAGE_EXTS.
  set (ext := lower (graphify_images.suffix p)). simpl.
  destruct (String.eqb ext ".png") eqn:Hpng.
  - apply String.eqb_eq in Hpng. rewrite Hpng. simpl. auto.
  - destruct (String.eqb ext ".jpg") eqn:Hjpg; simpl; [auto|].
    destruct (String.eqb ext ".jpeg") eqn:Hjpeg; simpl; [auto|].
    destruct (String.eqb ext ".webp") eqn:Hwebp; simpl; [auto|].
    discriminate.
Qed.

(** X2: [iter_images] yields, in directory order, exactly the entries
    that are files with a supported suffix (whatever its case), and
    [infer_mime_type] gives each of them an image type, never
    application/octet-stream. *)
Theorem iter_images_supported listing :
  graphify_images.iter_images listing
  = map graphify_images.entry_path (List.filter Spec.supported listing)
  /\ Forall (fun p => In (graphify_images.infer_mime_type p)
                         ["image/jpeg"; "image/png"; "image/webp"])
            (graphify_images.iter_images listing).
Proof.
  split.
  - induction listing as [|e rest IH]; simpl; [reflexivity|].
    unfold Spec.supported at 1.
    destruct (graphify_images.is_file e && _); simpl; congruence.
  - induction listing as [|e rest IH]; [constructor|].
    cbn [graphify_images.iter_images].
    destruct (graphify_images.is_file e) eqn:Hf; [|exact IH].
    rewrite andb_true_l.
    destruct (graphify_images.mem
                (lower (graphify_images.suffix (graphify_images.entry_path e)))
                graphify_images.SUPPORTED_IMAGE_EXTS) eqn:Hm; [|exact IH].
    constructor; [apply mem_supported_mime, Hm | exact IH].
Qed.

Lemma slice_to_length {A} (n : Z) (l : list A) :
  (0 <= n)%Z ->
  length (graphify_images.slice_to n l) = Nat.min (Z.to_nat n) (length l).
Proof.
  intros Hn. unfold graphify_images.slice_to.
  destruct (n <? 0)%Z eqn:Hneg; [lia|]. apply length_firstn.
Qed.

(** X3: Python's [l[:n]] as the batch uses it: for [n >= 0] the first
    [min(n, len l)] elements, for [n < 0] all but the last [-n]; always a
    prefix of the list. *)
Theorem slice_to_prefix {A} (n : Z) (l : list A) :
  (exists rest, l = (graphify_images.slice_to n l ++ rest)%list)
  /\ ((0 <= n)%Z ->
      length (graphify_images.slice_to n l) = Nat.min (Z.to_nat n) (length l))
  /\ ((n < 0)%Z ->
      length (graphify_images.slice_to n l) = (length l - Z.to_nat (- n))%nat).
Proof.
  split; [|split].
  - unfold graphify_images.slice_to.
    destruct (n <? 0)%Z; eexists; symmetry; apply firstn_skipn.
  - apply slice_to_length.
  - intros Hn. unfold graphify_images.slice_to.
    destruct (n <? 0)%Z eqn:Hneg; [|lia].
    rewrite length_firstn. lia.
Qed.

Section Pool.

Import graphify_images.

Variable env : Env.

Lemma collect_captured futures :
  forall summary,
    forallb Spec.captured futures = true ->
    collect env futures summary
    = Return (summary ++ map (Spec.entry_of env) futures)%list.
Proof.
  induction futures as [|[p r] rest IH]; intros summary; simpl.
  - rewrite app_nil_r. reflexivity.
  - intros H. apply andb_prop in H as [Hc Hrest].
    unfold Spec.captured in Hc. simpl in Hc.
    destruct r as [entry|exc]; [|rewrite Hc];
      rewrite IH by exact Hrest; rewrite <- app_assoc; reflexivity.
Qed.

Lemma collect_escapes futures :
  forall summary before p exc after,
    futures = (before ++ (p, Raise exc) :: after)%list ->
    forallb Spec.captured before = true ->
    is_Exception exc = false ->
    collect env futures summary = Raise exc.
Proof.
  intros summary before. revert futures summary.
  induction before as [|[q r] before IH];
    intros futures summary p exc after -> Hb He; simpl.
  - rewrite He. reflexivity.
  - simpl in Hb. apply andb_prop in Hb as [Hc Hb].
    unfold Spec.captured in Hc. simpl in Hc.
    destruct r as [entry|exc0]; [|rewrite Hc];
      eapply IH; eauto.
Qed.

(** X4: the loop over the finished tasks of the pool.  When every task
    returned or raised an [Exception], the summary has one entry per task
    in completion order, a failed task being recorded as a worker-error
    entry with the image, no reconstruction and a non-empty error.  The
    first task that raised something else (a SystemExit) ends the loop
    with that exception. *)
Theorem pool_summary futures :
  (forallb Spec.captured futures = true ->
   collect env futures [] = Return (map (Spec.entry_of env) futures))
  /\ (forall before p exc after,
        futures = (before ++ (p, Raise exc) :: after)%list ->
        forallb Spec.captured before = true ->
        is_Exception exc = false ->
        collect env futures [] = Raise exc)
  /\ (forall p exc,
        Spec.field "image" (worker_error_entry env p exc) = JStr (str p)
        /\ Spec.field "reconstructed" (worker_error_entry env p exc) = JNull
        /\ Spec.field "is_graph" (worker_error_entry env p exc) = JBool false
        /\ truthy (Spec.field "error" (worker_error_entry env p exc)) = true).
Proof.
  split; [|split].
  - intros H. rewrite (collect_captured _ [] H). reflexivity.
  - intros before p exc after. apply collect_escapes.
  - intros p exc. repeat split.
Qed.

End Pool.

Lemma pool_summary_witness :
  graphify_images.collect
    (graphify_images.plain_endpoint graphify_images.draws)
    [(graphify_images.figure1, Return graphify_images.redrawn_entry);
     (graphify_images.figure2, Raise AttributeError)] []
  = Return [graphify_images.redrawn_entry;
            graphify_images.worker_error_entry
              (graphify_images.plain_endpoint graphify_images.draws)
              graphify_images.figure2 AttributeError].
Proof.
  exact (proj1 (pool_summary
                  (graphify_images.plain_endpoint graphify_images.draws)
                  [(graphify_images.figure1,
                    Return graphify_images.redrawn_entry);
                   (graphify_images.figure2, Raise AttributeError)])
               eq_refl).
Defined.
(* ===================================================================== *)
(** * Further properties: the worker and the vision call *)
(* ===================================================================== *)

Lemma iter_images_length listing :
  (length (graphify_images.iter_images listing) <= length listing)%nat.
Proof.
  induction listing as [|e rest IH]; simpl; [lia|].
  destruct (graphify_images.is_file e && _); simpl; lia.
Qed.

Lemma batch_images_length listing max_images :
  (length (Spec.batch_images listing max_images) <= length listing)%nat
  /\ (forall n, max_images = Some n -> (0 <= n)%Z ->
        (length (Spec.batch_images listing max_images) <= Z.to_nat n)%nat).
Proof.
  pose proof (iter_images_length listing) as Hl.
  unfold Spec.batch_images. destruct max_images as [n|].
  - split.
    + unfold graphify_images.slice_to.
      destruct (n <? 0)%Z; rewrite length_firstn; lia.
    + intros n' [= <-] Hn. rewrite slice_to_length by exact Hn. lia.
  - split; [exact Hl | discriminate].
Qed.

Section BatchResult.

Import graphify_images.

Variable env : Env.
Variable out_dir : string.
Variable gpt_cfg : GptConfig.
Variable execute : bool.
Variable extra_context : option string.
Variable exec_timeout_s : Z.

(** X5: when [detect_and_reconstruct_graphs] returns, summary.json holds
    the serialized list of entries, the returned count is the number of
    entries, and there is one entry per image of the directory listing
    after the cut to [max_images]: never more than the listing has
    entries, nor more than a non-negative [max_images]. *)
Theorem batch_result listing max_images concurrency w res w' :
  (forall futures, length (as_completed env futures) = length futures) ->
  detect_and_reconstruct_graphs env out_dir gpt_cfg execute extra_context
    exec_timeout_s listing max_images concurrency w = (Return res, w') ->
  exists summary,
    res = JObj [("summary_path", JStr (summary_path out_dir));
                ("count", JNum (Z.of_nat (length summary)))]
    /\ Fs.files (fs w') !! summary_path out_dir
       = Some (json_dumps env (JArr summary))
    /\ length summary = length (Spec.batch_images listing max_images)
    /\ (length summary <= length listing)%nat
    /\ (forall n, max_images = Some n -> (0 <= n)%Z ->
          (length summary <= Z.to_nat n)%nat).
Proof.
  intros Horder Hrun. unfold detect_and_reconstruct_graphs in Hrun.
  unfold Py.bind at 1 in Hrun.
  destruct (build_summary env out_dir gpt_cfg execute extra_context
              exec_timeout_s listing max_images concurrency w)
    as [[summary|e] w1] eqn:Hsum; [|discriminate].
  apply summary_one_entry_per_image in Hsum; [|exact Horder].
  fold (Spec.batch_images listing max_images) in Hsum.
  unfold Py.bind, with_fs, Fs.write_text, Py.ret in Hrun.
  destruct (Fs.unwritable (fs w1) (summary_path out_dir)); [discriminate|].
  injection Hrun as <- <-. exists summary.
  destruct (batch_images_length listing max_images) as [Hl Hn].
  split; [reflexivity|]. split; [simpl; apply lookup_insert_eq|].
  split; [exact Hsum|]. rewrite Hsum. split; assumption.
Qed.

(** X6: a vision call that fails with an [Exception] (an unreadable
    image, an HTTPError, a reply of the wrong shape) does not stop the
    worker: the entry says is_graph false, has no reconstruction, carries
    the error text "GPT call failed: ...", and no generated code is run.
    The failure record is saved as the image's JSON artifact; when that
    write fails too, the save error is appended to the entry's error,
    every other file is as before and the artifact is as before or holds
    a beginning of the record. *)
Theorem captured_failure_entry img_path w e w1 :
  call_gpt_vision_json env gpt_cfg img_path extra_context w = (Raise e, w1) ->
  is_Exception e = true ->
  let json_path := json_path_of out_dir img_path in
  let failure := "GPT call failed: " ++ exn_str env e in
  exists entry w',
    _process env out_dir gpt_cfg execute extra_context exec_timeout_s
      img_path w = (Return entry, w')
    /\ Spec.field "image" entry = JStr (str img_path)
    /\ Spec.field "is_graph" entry = JBool false
    /\ Spec.field "reconstructed" entry = JNull
    /\ executed w' = executed w
    /\ (Fs.unwritable (fs w1) json_path = false ->
        Spec.field "error" entry = JStr failure
        /\ Fs.files (fs w') !! json_path
           = Some (json_dumps env
                     (JObj [("is_graph", JBool false);
                            ("error", JStr failure)])))
    /\ (Fs.unwritable (fs w1) json_path = true ->
        Spec.field "error" entry
        = JStr (failure ++ " | save-json-error: " ++ exn_str env OSError)
        /\ Spec.after_failed_write json_path
             (json_dumps env (JObj [("is_graph", JBool false);
                                    ("error", JStr failure)]))
             (fs w1) (fs w')).
Proof.
  intros Hcall He json_path failure.
  pose proof (call_gpt_vision_json_quiet _ _ _ _ _ _ _ Hcall) as [Hq _].
  unfold _process, classify, Py.try_except_else.
  unfold Py.bind at 1. rewrite Hcall, He. unfold Py.ret at 1.
  cbv beta iota.
  unfold save_result, Py.try_except, Py.bind, with_fs, Fs.write_text.
  fold json_path. fold failure.
  destruct (Fs.unwritable (fs w1) json_path) eqn:Hw.
  - simpl. unfold Py.lift, add_save_error. simpl.
    unfold wants_execution. simpl. rewrite andb_false_r. simpl.
    unfold Py.ret. eexists _, _. split; [reflexivity|]. simpl.
    split; [reflexivity|]. split; [reflexivity|]. split; [reflexivity|].
    split; [assumption|]. split; [discriminate|]. intros _.
    split; [reflexivity|].
    destruct (write_text_fails json_path
                (json_dumps env (JObj [("is_graph", JBool false);
                                       ("error", JStr failure)]))
                (fs w1) Hw) as (fs' & Hrun & Hleft).
    unfold Fs.write_text in Hrun. rewrite Hw in Hrun.
    injection Hrun as <-. exact Hleft.
  - simpl. unfold wants_execution. simpl. rewrite andb_false_r. simpl.
    unfold Py.ret. eexists _, _. split; [reflexivity|]. simpl.
    repeat split; try assumption; try discriminate.
    apply lookup_insert_eq.
Qed.

End BatchResult.

Lemma batch_result_witness :
  exists summary,
    length summary = 2%nat
    /\ Fs.files (graphify_images.fs
                   (snd (graphify_images.detect_and_reconstruct_graphs
                           (graphify_images.plain_endpoint
                              graphify_images.draws)
                           "out" graphify_images.cfg true None 30
                           graphify_images.two_figures None 3
                           graphify_images.world0)))
         !! graphify_images.summary_path "out"
       = Some (dumps (JArr summary)).
Proof.
  destruct (batch_result (graphify_images.plain_endpoint graphify_images.draws)
              "out" graphify_images.cfg true None 30
              graphify_images.two_figures None 3 graphify_images.world0
              (JObj [("summary_path", JStr "out/summary.json");
                     ("count", JNum 2)]) _
              (fun _ => eq_refl) (surjective_pairing _))
    as (summary & Hres & Hfile & _).
  exists summary. split; [|exact Hfile].
  injection Hres as Hcount. lia.
Defined.

Lemma captured_failure_entry_witness :
  exists entry w',
    graphify_images._process graphify_images.gateway_down "out"
      graphify_images.cfg true None 30 graphify_images.figure1
      graphify_images.world0 = (Return entry, w')
    /\ Spec.field "is_graph" entry = JBool false
    /\ Spec.field "error" entry = JStr "GPT call failed: HTTPError".
Proof.
  destruct (captured_failure_entry graphify_images.gateway_down "out"
              graphify_images.cfg true None 30 graphify_images.figure1
              graphify_images.world0 (HTTPError 502) _
              (surjective_pairing _) eq_refl)
    as (entry & w' & Hrun & _ & Hgraph & _ & _ & Hsaved & _).
  exists entry, w'. split; [exact Hrun|]. split; [exact Hgraph|].
  exact (proj1 (Hsaved eq_refl)).
Defined.

(** ** Dict facts *)

Lemma assoc_app_l k d d' v :
  assoc k d = Some v -> assoc k (d ++ d')%list = Some v.
Proof.
  induction d as [|[k0 v0] d IH]; simpl; [discriminate|].
  destruct (String.eqb k k0); auto.
Qed.

Lemma assoc_app_r k d d' :
  assoc k d = None -> assoc k (d ++ d')%list = assoc k d'.
Proof.
  induction d as [|[k0 v0] d IH]; simpl; [reflexivity|].
  destruct (String.eqb k k0); [discriminate | auto].
Qed.

Section Classification.

Import graphify_images.

Variable env : Env.
Variable gpt_cfg : GptConfig.
Variable extra_context : option string.

(** X7: a classification result always has an is_graph key.  A parsed
    reply keeps all its keys and values and gets is_graph false only when
    the key is missing; a reply that parsed to something else than an
    object makes the worker fail with AttributeError instead. *)
Theorem classification_has_is_graph img_path w :
  (forall result w',
      classify env gpt_cfg extra_context img_path w = (Return result, w') ->
      has_key "is_graph" result = true)
  /\ (forall d w1,
        call_gpt_vision_json env gpt_cfg img_path extra_context w
        = (Return (JObj d), w1) ->
        exists result,
          classify env gpt_cfg extra_context img_path w = (Return result, w1)
          /\ dict_get "is_graph" JNull result
             = dict_get "is_graph" (JBool false) d
          /\ forall k v, assoc k d = Some v -> assoc k result = Some v)
  /\ (forall parsed w1,
        call_gpt_vision_json env gpt_cfg img_path extra_context w
        = (Return parsed, w1) ->
        (forall d, parsed <> JObj d) ->
        classify env gpt_cfg extra_context img_path w
        = (Raise AttributeError, w1)).
Proof.
  unfold classify, Py.try_except_else, Py.lift, Py.ret.
  split; [|split].
  - intros result w'.
    destruct (call_gpt_vision_json env gpt_cfg img_path extra_context w)
      as [[parsed|e] w1].
    + destruct parsed as [| | | | |d]; simpl; try discriminate.
      intros [= <- <-]. unfold has_key.
      destruct (assoc "is_graph" d) eqn:Hd; [rewrite Hd; reflexivity|].
      rewrite assoc_app_r by exact Hd. reflexivity.
    + destruct (is_Exception e); [|discriminate].
      intros [= <- <-]. reflexivity.
  - intros d w1 ->. simpl. eexists. split; [reflexivity|].
    unfold has_key, dict_get.
    destruct (assoc "is_graph" d) eqn:Hd.
    + rewrite Hd. split; [reflexivity | auto].
    + rewrite assoc_app_r by exact Hd. split; [reflexivity|].
      intros k v Hk. apply assoc_app_l, Hk.
  - intros parsed w1 -> Hnot.
    destruct parsed as [| | | | |d]; try reflexivity.
    exfalso. apply (Hnot d). reflexivity.
Qed.

(** X8: saving the raw JSON result.  When the write succeeds the file
    holds the serialized result and the result is passed on unchanged.
    When it fails the worker goes on with a result whose error has
    " | save-json-error: ..." appended (to the text already there, if
    any) and whose other keys are as before, so the decision to run the
    generated code is not affected; only an error value that is neither
    empty nor a str makes the worker fail, with TypeError.  The failing
    write touches no other file, and leaves of the artifact what was
    there or a beginning of the serialized result. *)
Theorem save_failure_is_recorded execute json_path result w :
  (Fs.unwritable (fs w) json_path = false ->
   exists w',
     save_result env json_path result w = (Return result, w')
     /\ Fs.files (fs w') !! json_path = Some (json_dumps env (JObj result)))
  /\ (Fs.unwritable (fs w) json_path = true ->
      forall s,
        (if truthy (dict_get "error" JNull result)
         then dict_get "error" JNull result else JStr "") = JStr s ->
        exists result' w',
          save_result env json_path result w = (Return result', w')
          /\ dict_get "error" JNull result'
             = JStr (s ++ " | save-json-error: " ++ exn_str env OSError)
          /\ (forall k, k <> "error" -> assoc k result' = assoc k result)
          /\ wants_execution execute result'
             = wants_execution execute result
          /\ Spec.after_failed_write json_path
               (json_dumps env (JObj result)) (fs w) (fs w')
          /\ executed w' = executed w)
  /\ (Fs.unwritable (fs w) json_path = true ->
      truthy (dict_get "error" JNull result) = true ->
      is_str (dict_get "error" JNull result) = false ->
      exists w',
        save_result env json_path result w = (Raise TypeError, w')
        /\ Spec.after_failed_write json_path
             (json_dumps env (JObj result)) (fs w) (fs w')).
Proof.
  unfold save_result, Py.try_except, Py.bind, with_fs.
  split; [|split].
  - intros Hw. unfold Fs.write_text. rewrite Hw. simpl.
    eexists. split; [reflexivity|]. simpl. apply lookup_insert_eq.
  - intros Hw s Hs.
    destruct (write_text_fails json_path (json_dumps env (JObj result))
                (fs w) Hw) as (fs' & -> & Hleft).
    simpl. unfold Py.lift, add_save_error. rewrite Hs.
    eexists _, _. split; [reflexivity|].
    split; [unfold dict_get; rewrite assoc_set_same; reflexivity|].
    assert (Hother : forall k, k <> "error" ->
              assoc k (dict_set "error"
                         (JStr (s ++ " | save-json-error: "
                                  ++ exn_str env OSError)) result)
              = assoc k result).
    { intros k Hk. apply assoc_set_other, Hk. }
    split; [exact Hother|].
    split; [unfold wants_execution, dict_get;
            rewrite !Hother by discriminate; reflexivity|].
    split; [exact Hleft | reflexivity].
  - intros Hw Ht Hs.
    destruct (write_text_fails json_path (json_dumps env (JObj result))
                (fs w) Hw) as (fs' & -> & Hleft).
    simpl. unfold Py.lift, add_save_error. rewrite Ht.
    destruct (dict_get "error" JNull result); try discriminate;
      eexists; (split; [reflexivity | exact Hleft]).
Qed.

End Classification.

Lemma save_failure_is_recorded_witness :
  exists w',
    graphify_images.save_result
      (graphify_images.plain_endpoint graphify_images.draws)
      "out/figure-1.graph.json" [("is_graph", JBool true)]
      graphify_images.world0
    = (Return [("is_graph", JBool true)], w')
    /\ Fs.files (graphify_images.fs w') !! "out/figure-1.graph.json"
       = Some (dumps (JObj [("is_graph", JBool true)])).
Proof.
  exact (proj1 (save_failure_is_recorded
                  (graphify_images.plain_endpoint graphify_images.draws)
                  true "out/figure-1.graph.json" [("is_graph", JBool true)]
                  graphify_images.world0)
               eq_refl).
Defined.

Section RequestBodies.

Import graphify_images.

Variable env : Env.
Variable image_path : Path.

Lemma attempt_loop_follows attempts :
  forall body resp w r w',
    attempt_loop env image_path attempts body resp w = (r, w') ->
    exists sent,
      posted w' = (posted w ++ sent)%list
      /\ Spec.follows env image_path sent
      /\ (forall a rest, sent = a :: rest -> snd a = body)
      /\ (length sent <= length attempts)%nat.
Proof.
  induction attempts as [|attempt rest IH]; intros body resp w r w' Hrun.
  - injection Hrun as <- <-. exists []. rewrite app_nil_r.
    split; [reflexivity|]. split; [apply Spec.follows_nil|].
    split; [discriminate | simpl; lia].
  - rewrite attempt_loop_cons in Hrun.
    destruct (attempt_once env image_path attempt body resp w)
      as [[[p|b rs]|e] w1] eqn:H1;
      apply attempt_once_post in H1; cbv zeta in H1.
    + destruct H1 as (-> & _). injection Hrun as <- <-.
      exists [(attempt, body)]. simpl.
      split; [reflexivity|]. split; [apply Spec.follows_one|].
      split; [intros a l [= <- _]; reflexivity | lia].
    + destruct H1 as (-> & _ & _ & ->).
      apply IH in Hrun as (sent & Hposted & Hfollows & Hhead & Hlen).
      exists ((attempt, body) :: sent). simpl in Hposted.
      split; [rewrite Hposted, <- app_assoc; reflexivity|].
      split.
      * destruct sent as [|b sent]; [apply Spec.follows_one|].
        apply Spec.follows_cons; [|exact Hfollows].
        rewrite (Hhead b sent eq_refl). reflexivity.
      * split; [intros a l [= <- _]; reflexivity | simpl; lia].
    + destruct H1 as (-> & _). injection Hrun as <- <-.
      exists [(attempt, body)]. simpl.
      split; [reflexivity|]. split; [apply Spec.follows_one|].
      split; [intros a l [= <- _]; reflexivity | lia].
Qed.

Lemma follows_tail a l :
  Spec.follows env image_path (a :: l) -> Spec.follows env image_path l.
Proof.
  intros H. inversion H; subst; [apply Spec.follows_nil | assumption].
Qed.

(** what one change of the body keeps, all later bodies keep *)
Lemma follows_persist (P : dict -> Prop) :
  (forall o b, P b -> P (Spec.next_body o b)) ->
  forall sent before a after,
    Spec.follows env image_path sent ->
    sent = (before ++ a :: after)%list ->
    P (snd a) ->
    Forall (fun b => P (snd b)) after.
Proof.
  intros Hstep sent before. revert sent.
  induction before as [|x before IH]; intros sent a after Hf -> Ha.
  - simpl in Hf. revert a Hf Ha.
    induction after as [|b after IHa]; intros a Hf Ha; [constructor|].
    inversion Hf as [| |a0 b0 rest0 Hb Hf']; subst.
    assert (Pb : P (snd b)) by (rewrite Hb; apply Hstep, Ha).
    constructor; [exact Pb | apply (IHa b Hf' Pb)].
  - simpl in Hf. apply follows_tail in Hf. eapply IH; eauto.
Qed.

End RequestBodies.

Lemma has_key_pop_other k k' d :
  k <> k' ->
  graphify_images.has_key k (dict_pop k' d) = graphify_images.has_key k d.
Proof.
  intros H. unfold graphify_images.has_key.
  rewrite assoc_pop_other by exact H. reflexivity.
Qed.

Lemma has_key_set_other k k' v d :
  k <> k' ->
  graphify_images.has_key k (dict_set k' v d) = graphify_images.has_key k d.
Proof.
  intros H. unfold graphify_images.has_key.
  rewrite assoc_set_other by exact H. reflexivity.
Qed.

Lemma next_body_cases o b :
  Spec.next_body o b = b
  \/ Spec.next_body o b = graphify_images.drop_temperature b
  \/ Spec.next_body o b = graphify_images.drop_response_format b.
Proof.
  unfold Spec.next_body. destruct o; auto.
  destruct (Spec.blamed "temperature" data); auto.
  destruct (Spec.blamed "response_format" data); auto.
Qed.

Lemma temperature_stays_out o b :
  graphify_images.has_key "temperature" b = false ->
  graphify_images.has_key "temperature" (Spec.next_body o b) = false.
Proof.
  intros H. destruct (next_body_cases o b) as [->|[->| ->]]; [exact H| |].
  - apply drop_temperature_gone.
  - unfold graphify_images.drop_response_format.
    destruct (graphify_images.has_key "response_format" b); [|exact H].
    rewrite has_key_set_other, has_key_pop_other by discriminate. exact H.
Qed.

Lemma response_format_stays_out o b :
  graphify_images.has_key "response_format" b = false ->
  graphify_images.has_key "response_format" (Spec.next_body o b) = false.
Proof.
  intros H. destruct (next_body_cases o b) as [->|[->| ->]]; [exact H| |].
  - unfold graphify_images.drop_temperature.
    destruct (graphify_images.has_key "temperature" b); [|exact H].
    rewrite has_key_pop_other by discriminate. exact H.
  - apply drop_response_format_gone.
Qed.

Lemma dict_get_messages_assoc d ms :
  dict_get "messages" JNull d = JArr ms -> assoc "messages" d = Some (JArr ms).
Proof.
  unfold dict_get. destruct (assoc "messages" d); [congruence | discriminate].
Qed.

Lemma same_request_step body0 o b :
  (exists ms, dict_get "messages" JNull body0 = JArr ms) ->
  Spec.same_request body0 b -> Spec.same_request body0 (Spec.next_body o b).
Proof.
  intros [ms0 Hms0] [Hmodel Hmsgs].
  destruct (next_body_cases o b) as [->|[->| ->]]; [split; assumption| |].
  - unfold graphify_images.drop_temperature.
    destruct (graphify_images.has_key "temperature" b); [|split; assumption].
    split.
    + unfold dict_get. rewrite assoc_pop_other by discriminate. exact Hmodel.
    + rewrite has_key_pop_other by discriminate.
      unfold dict_get in *. rewrite assoc_pop_other by discriminate.
      exact Hmsgs.
  - destruct (graphify_images.has_key "response_format" b) eqn:Hrf;
      unfold graphify_images.drop_response_format; rewrite Hrf;
      [|split; [exact Hmodel | rewrite Hrf; exact Hmsgs]].
    destruct Hmsgs as [[_ Hsame]|[Hno _]]; [|congruence].
    rewrite Hms0 in Hsame. apply dict_get_messages_assoc in Hsame.
    split.
    + unfold dict_get.
      rewrite assoc_set_other, assoc_pop_other by discriminate.
      exact Hmodel.
    + right. split.
      * rewrite has_key_set_other by discriminate.
        unfold graphify_images.has_key. rewrite assoc_pop_same. reflexivity.
      * exists ms0. split; [exact Hms0|].
        unfold dict_get at 1. rewrite assoc_set_same.
        unfold dict_get. rewrite assoc_pop_other by discriminate.
        rewrite Hsame. reflexivity.
Qed.

Section SameRequest.

Import graphify_images.

Variable env : Env.
Variable cfg : GptConfig.
Variable image_path : Path.
Variable extra_context : option string.

(** X9: the requests of one [call_gpt_vision_json] call.  There are at
    most three; the first carries the full body and each later one the
    body before it, changed as its reply asked.  All of them name the
    configured model and carry the two original messages, with the
    "Respond with strict JSON only." system message in front exactly
    when response_format has been dropped; a field once dropped stays out
    of every later request. *)
Theorem retries_keep_the_request w r w' b64 :
  read_b64 env image_path = Some b64 ->
  call_gpt_vision_json env cfg image_path extra_context w = (r, w') ->
  let body0 := base_body cfg extra_context
                 (to_data_url (infer_mime_type image_path) b64) in
  exists sent,
    posted w' = (posted w ++ sent)%list
    /\ (length sent <= 3)%nat
    /\ (forall a rest, sent = a :: rest -> snd a = body0)
    /\ Spec.follows env image_path sent
    /\ Forall (fun a => dict_get "model" JNull (snd a) = JStr (model cfg)
                        /\ Spec.same_request body0 (snd a)) sent
    /\ (forall before a after,
          sent = (before ++ a :: after)%list ->
          (has_key "temperature" (snd a) = false ->
           Forall (fun b => has_key "temperature" (snd b) = false) after)
          /\ (has_key "response_format" (snd a) = false ->
              Forall (fun b => has_key "response_format" (snd b) = false)
                     after)).
Proof.
  intros Hread Hrun body0.
  unfold call_gpt_vision_json, load_image_b64 in Hrun. rewrite Hread in Hrun.
  unfold Py.bind at 1 in Hrun. unfold Py.ret at 1 in Hrun.
  cbv beta iota in Hrun. cbn [fst snd] in Hrun. fold body0 in Hrun.
  apply attempt_loop_follows in Hrun as (sent & Hposted & Hfollows & Hhead & Hlen).
  exists sent. split; [exact Hposted|]. split; [exact Hlen|].
  split; [exact Hhead|]. split; [exact Hfollows|].
  assert (Hbase : Spec.same_request body0 body0).
  { split; [reflexivity|]. left. split; reflexivity. }
  assert (Hms : exists ms, dict_get "messages" JNull body0 = JArr ms)
    by (eexists; reflexivity).
  split.
  - destruct sent as [|a sent]; [constructor|].
    pose proof (Hhead a sent eq_refl) as Ha.
    assert (Hall : Forall (fun b => Spec.same_request body0 (snd b)) (a :: sent)).
    { constructor; [rewrite Ha; exact Hbase|].
      apply (follows_persist env image_path (Spec.same_request body0)
               (fun o b => same_request_step body0 o b Hms)
               (a :: sent) [] a sent Hfollows eq_refl).
      rewrite Ha. exact Hbase. }
    eapply Forall_impl; [exact Hall|].
    intros b Hb. split; [|exact Hb]. destruct Hb as [Hmodel _].
    rewrite Hmodel. reflexivity.
  - intros before a after Hsent. split; intros Hgone.
    + apply (follows_persist env image_path
               (fun b => has_key "temperature" b = false)
               temperature_stays_out sent before a after Hfollows Hsent Hgone).
    + apply (follows_persist env image_path
               (fun b => has_key "response_format" b = false)
               response_format_stays_out sent before a after Hfollows Hsent
               Hgone).
Qed.

(** X10: failures of a vision call that are never retried.  An image
    that cannot be read ends the call with OSError before any request.
    A reply that is not JSON ends it at once, with HTTPError when the
    status is 4xx or 5xx (429 and 5xx included) and with SystemExit
    otherwise.  A failure inside [requests.post] other than a timeout
    ends it at once as well: at the first attempt with
    UnboundLocalError, because the handler reads [resp], which no
    response has been assigned to. *)
Theorem unretried_failures w :
  (read_b64 env image_path = None ->
   call_gpt_vision_json env cfg image_path extra_context w
   = (Raise OSError, w))
  /\ (forall b64,
        read_b64 env image_path = Some b64 ->
        let body0 := base_body cfg extra_context
                       (to_data_url (infer_mime_type image_path) b64) in
        (post env image_path 1 body0 = PostRaises ->
         call_gpt_vision_json env cfg image_path extra_context w
         = (Raise UnboundLocalError, Spec.after_request w 1 body0 []))
        /\ (forall status,
              post env image_path 1 body0 = PostNonJson status ->
              call_gpt_vision_json env cfg image_path extra_context w
              = (Raise (if ((400 <=? status) && (status <? 600))%Z
                        then HTTPError status
                        else SystemExit "Non-JSON response from GPT API (HTTP "
                                        (JNum status)),
                 Spec.after_request w 1 body0 [])))
  /\ (forall attempt rest body resp w0 status,
        post env image_path attempt body = PostNonJson status ->
        attempt_loop env image_path (attempt :: rest) body resp w0
        = (Raise (if ((400 <=? status) && (status <? 600))%Z
                  then HTTPError status
                  else SystemExit "Non-JSON response from GPT API (HTTP "
                                  (JNum status)),
           Spec.after_request w0 attempt body [])).
Proof.
  split; [|split].
  - intros Hread. unfold call_gpt_vision_json, load_image_b64.
    rewrite Hread. reflexivity.
  - intros b64 Hread body0.
    assert (Hcall : call_gpt_vision_json env cfg image_path extra_context w
                    = attempt_loop env image_path [1%Z; 2%Z; 3%Z] body0 None w).
    { unfold call_gpt_vision_json, load_image_b64. rewrite Hread.
      reflexivity. }
    rewrite Hcall. split.
    + intros Ho. rewrite attempt_loop_cons.
      unfold attempt_once, log_post, Py.bind, Py.modify, Py.raise.
      rewrite Ho. unfold Spec.after_request. rewrite app_nil_r. reflexivity.
    + intros status Ho. rewrite attempt_loop_cons.
      unfold attempt_once, log_post, Py.bind, Py.modify, Py.raise.
      rewrite Ho. unfold raise_for_status, Spec.after_request.
      rewrite app_nil_r.
      destruct ((400 <=? status) && (status <? 600))%Z; reflexivity.
  - intros attempt rest body resp w0 status Ho. rewrite attempt_loop_cons.
    unfold attempt_once, log_post, Py.bind, Py.modify, Py.raise.
    rewrite Ho. unfold raise_for_status, Spec.after_request.
    rewrite app_nil_r.
    destruct ((400 <=? status) && (status <? 600))%Z; reflexivity.
Qed.

End SameRequest.

Lemma retries_keep_the_request_witness :
  exists sent,
    graphify_images.posted
      (snd (graphify_images.call_gpt_vision_json
              graphify_images.picky_endpoint graphify_images.cfg
              graphify_images.figure1 None graphify_images.world0))
    = sent
    /\ (length sent <= 3)%nat
    /\ Forall (fun a => dict_get "model" JNull (snd a) = JStr "gpt-5-mini")
              sent.
Proof.
  destruct (retries_keep_the_request graphify_images.picky_endpoint
              graphify_images.cfg graphify_images.figure1 None
              graphify_images.world0 _ _ "iVBORw0KGgo=" eq_refl
              (surjective_pairing _))
    as (sent & Hposted & Hlen & _ & _ & Hall & _).
  exists sent. split; [exact Hposted|]. split; [exact Hlen|].
  eapply Forall_impl; [exact Hall|]. intros a [Hmodel _]. exact Hmodel.
Defined.
(* ===================================================================== *)
(** * Further properties: the Datalab client *)
(* ===================================================================== *)

Section Submission.

Import datalab_marker.

(** X11: [read_api_key] returns a non-empty key or exits.  A non-empty
    command-line key wins; the environment's key is used only when the
    command line gives none or an empty one; with neither the function
    raises SystemExit. *)
Theorem read_api_key_precedence cmdline_api_key env_key :
  (forall key,
      read_api_key cmdline_api_key env_key = Return key ->
      key <> ""
      /\ (cmdline_api_key = Some key
          \/ ((cmdline_api_key = None \/ cmdline_api_key = Some "")
              /\ env_key = Some key)))
  /\ (forall key, key <> "" ->
        read_api_key (Some key) env_key = Return key)
  /\ ((cmdline_api_key = None \/ cmdline_api_key = Some "") ->
      (env_key = None \/ env_key = Some "") ->
      exists text, read_api_key cmdline_api_key env_key
                   = Raise (SystemExit text JNull)).
Proof.
  unfold read_api_key, or_else. split; [|split].
  - intros key.
    destruct cmdline_api_key as [c|].
    + destruct (String.eqb c "") eqn:Hc.
      * apply String.eqb_eq in Hc. subst c.
        destruct env_key as [k|]; [|discriminate].
        destruct (String.eqb k "") eqn:Hk; [discriminate|].
        intros [= <-]. apply String.eqb_neq in Hk. auto.
      * rewrite Hc. intros [= <-]. apply String.eqb_neq in Hc. auto.
    + destruct env_key as [k|]; [|discriminate].
      destruct (String.eqb k "") eqn:Hk; [discriminate|].
      intros [= <-]. apply String.eqb_neq in Hk. auto.
  - intros key Hkey. apply String.eqb_neq in Hkey. rewrite Hkey, Hkey.
    reflexivity.
  - intros [-> | ->] [-> | ->]; eexists; reflexivity.
Qed.

(** X12: the multipart form.  The six fixed fields are always there, the
    flags as the texts "true" and "false"; page_schema is sent exactly
    when a schema was given; use_llm is sent as given on the command
    line, and without that option it is sent as "true" when a schema was
    given and left out otherwise. *)
Theorem form_fields pdf_name pdf_path output_format force_ocr paginate
    args_use_llm strip_existing_ocr disable_image_extraction page_schema_json :
  let flag (b : bool) : option FormField :=
    Some (None, Text (if b then "true" else "false"), None) in
  let form := build_form_data pdf_name pdf_path output_format force_ocr
                paginate (use_llm_opt args_use_llm page_schema_json)
                strip_existing_ocr disable_image_extraction
                page_schema_json in
  form_field "file" form
  = Some (Some pdf_name, OpenFile pdf_path, Some "application/pdf")
  /\ form_field "output_format" form = Some (None, Text output_format, None)
  /\ form_field "force_ocr" form = flag force_ocr
  /\ form_field "paginate" form = flag paginate
  /\ form_field "strip_existing_ocr" form = flag strip_existing_ocr
  /\ form_field "disable_image_extraction" form
     = flag disable_image_extraction
  /\ form_field "page_schema" form
     = match page_schema_json with
       | Some schema => Some (None, Text schema, None)
       | None => None
       end
  /\ form_field "use_llm" form
     = match args_use_llm, page_schema_json with
       | Some s, _ => flag (String.eqb (lower s) "true")
       | None, Some _ => flag true
       | None, None => None
       end.
Proof.
  destruct args_use_llm as [s|], page_schema_json as [schema|];
    destruct force_ocr, paginate, strip_existing_ocr,
      disable_image_extraction;
    simpl; try destruct (String.eqb (lower s) "true");
    repeat split; reflexivity.
Qed.

(** X13: [submit_marker_job] returns the reply exactly when it is a JSON
    object received with a status below 400 whose success is true and
    whose request_check_url is present and non-empty, so the caller can
    always read the URL to poll.  A reply with status 400 or above, or
    without a true success, raises SystemExit with the reply's error, or
    the response text when the error is missing or empty. *)
Theorem submit_returns_usable_handle o :
  (forall data,
      submit_marker_job o = Return data <->
      exists status_code text kvs,
        o = SubmitJson status_code text (JObj kvs)
        /\ data = JObj kvs
        /\ (status_code < 400)%Z
        /\ truthy (dict_get "success" (JBool false) kvs) = true
        /\ truthy (dict_get "request_check_url" JNull kvs) = true)
  /\ (forall status_code text kvs,
        o = SubmitJson status_code text (JObj kvs) ->
        (400 <= status_code)%Z
        \/ truthy (dict_get "success" (JBool false) kvs) = false ->
        submit_marker_job o
        = Raise (SystemExit "Marker submission failed: "
                   (if truthy (dict_get "error" JNull kvs)
                    then dict_get "error" JNull kvs else JStr text))).
Proof.
  split.
  - intros data. split.
    + destruct o as [e|sc text|sc text d]; simpl; [discriminate| |].
      * destruct (raise_for_status sc); discriminate.
      * destruct (sc >=? 400)%Z eqn:Hsc.
        -- destruct (get d "error" JNull); discriminate.
        -- destruct d as [| | | | |kvs]; simpl; try discriminate.
           destruct (truthy (dict_get "success" (JBool false) kvs)) eqn:Hs;
             simpl; [|discriminate].
           destruct (truthy (dict_get "request_check_url" JNull kvs)) eqn:Hu;
             simpl; [|discriminate].
           intros [= <-]. exists sc, text, kvs.
           repeat split; try assumption; lia.
    + intros (sc & text & kvs & -> & -> & Hsc & Hs & Hu). simpl.
      destruct (sc >=? 400)%Z eqn:Hge; [lia|].
      rewrite Hs. simpl. rewrite Hu. reflexivity.
  - intros sc text kvs -> H. simpl.
    destruct (sc >=? 400)%Z eqn:Hge; [reflexivity|].
    destruct H as [H|H]; [lia|]. rewrite H. reflexivity.
Qed.

Lemma keeps_dash : keeps (ascii_of_nat 45) = true.
Proof. reflexivity. Qed.

(** X14: [safe_stem] replaces, character by character, whatever is not
    alphanumeric, [-] or [_] by [-]: the result has the length of the
    stem and only such characters, a stem made of them is returned as it
    is, and applying the function twice changes nothing more. *)
Theorem safe_stem_safe stem :
  String.length (safe_stem stem) = String.length stem
  /\ Spec.all_chars keeps (safe_stem stem) = true
  /\ (Spec.all_chars keeps stem = true -> safe_stem stem = stem)
  /\ safe_stem (safe_stem stem) = safe_stem stem.
Proof.
  assert (Hall : forall s, Spec.all_chars keeps (safe_stem s) = true).
  { induction s as [|c s IH]; cbn [safe_stem Spec.all_chars];
      [reflexivity|].
    rewrite IH, andb_true_r.
    destruct (keeps c) eqn:Hc; [exact Hc | exact keeps_dash]. }
  assert (Hid : forall s, Spec.all_chars keeps s = true -> safe_stem s = s).
  { induction s as [|c s IH]; cbn [safe_stem Spec.all_chars];
      [reflexivity|].
    intros H. apply andb_prop in H as [Hc Hs]. rewrite Hc, (IH Hs).
    reflexivity. }
  split; [|split; [apply Hall | split; [apply Hid | apply Hid, Hall]]].
  induction stem as [|c s IH]; cbn [safe_stem String.length]; congruence.
Qed.

End Submission.

Lemma lstrip_if_empty drop s :
  lstrip_if drop s = "" <-> Spec.all_chars drop s = true.
Proof.
  induction s as [|c s IH]; simpl; [tauto|].
  destruct (drop c); simpl; [exact IH|]. split; discriminate.
Qed.

Lemma rstrip_if_nonempty drop c s :
  drop c = false -> rstrip_if drop (String c s) <> "".
Proof.
  intros Hc. simpl. destruct (rstrip_if drop s); [rewrite Hc|]; discriminate.
Qed.

Lemma strip_empty s : strip s = "" <-> Spec.all_chars isspace s = true.
Proof.
  rewrite <- lstrip_if_empty. unfold strip, strip_if.
  destruct (lstrip_if isspace s) as [|c t] eqn:Hl; [simpl; tauto|].
  assert (Hc : isspace c = false).
  { apply (lstrip_if_first isspace s). rewrite Hl. reflexivity. }
  split; [|discriminate].
  intros H. exfalso. exact (rstrip_if_nonempty isspace c t Hc H).
Qed.

Section Outputs.

Import datalab_marker.

Variable b64decode : string -> option string.
Variable json_dumps : Json -> string.
Variable py_str : Json -> string.
Variable div : string -> string -> string.
Variable stem_of : string -> string.

(** X15: the markdown artifact is written exactly when the result's
    markdown is a str with at least one character that is not
    whitespace, and it then holds the markdown as received, leading and
    trailing whitespace included; otherwise no file is touched. *)
Theorem markdown_artifact out_dir base_name result fs :
  (forall markdown,
      dict_get "markdown" JNull result = JStr markdown ->
      Spec.all_chars isspace markdown = false ->
      Fs.unwritable fs (md_path out_dir base_name) = false ->
      exists fs',
        save_markdown out_dir base_name result fs
        = (Return (Some (md_path out_dir base_name)), fs')
        /\ Fs.files fs' !! md_path out_dir base_name = Some markdown
        /\ forall p, p <> md_path out_dir base_name ->
                     Fs.files fs' !! p = Fs.files fs !! p)
  /\ ((forall markdown,
         dict_get "markdown" JNull result = JStr markdown ->
         Spec.all_chars isspace markdown = true) ->
      save_markdown out_dir base_name result fs = (Return None, fs)).
Proof.
  unfold save_markdown. split.
  - intros markdown -> Hblank Hw.
    assert (Hs : String.eqb (strip markdown) "" = false).
    { apply String.eqb_neq. rewrite strip_empty. congruence. }
    rewrite Hs. simpl. unfold Py.bind, Fs.write_text, Py.ret. rewrite Hw.
    eexists. split; [reflexivity|]. simpl.
    split; [apply lookup_insert_eq|].
    intros p Hp. apply lookup_insert_ne. congruence.
  - intros Hall.
    destruct (dict_get "markdown" JNull result) as [| | |markdown| |];
      try reflexivity.
    specialize (Hall markdown eq_refl). apply strip_empty in Hall.
    rewrite Hall. reflexivity.
Qed.

(** X16: [try_decode_base64_to_file] never raises.  It answers True
    exactly when the entry carries a base64 text (the entry itself, or
    the first str among its keys data, content, base64, b64) that
    decodes and the file can be written; the file then holds the decoded
    bytes.  When it answers False nothing has changed, unless decoded
    bytes could not be written: then no other file has changed and the
    file is as before or holds a beginning of the bytes. *)
Theorem decode_attachment content out_path fs :
  exists ok fs',
    try_decode_base64_to_file b64decode content out_path fs = (Return ok, fs')
    /\ (ok = false ->
        match Spec.attachment_text content with
        | Some s =>
            match b64decode s with
            | Some data =>
                Fs.unwritable fs out_path = true
                /\ Spec.after_failed_write out_path data fs fs'
            | None => fs' = fs
            end
        | None => fs' = fs
        end)
    /\ (ok = true <->
        exists s data,
          Spec.attachment_text content = Some s
          /\ b64decode s = Some data
          /\ Fs.unwritable fs out_path = false)
    /\ (ok = true ->
        exists s data,
          Spec.attachment_text content = Some s
          /\ b64decode s = Some data
          /\ Fs.files fs' !! out_path = Some data
          /\ forall p, p <> out_path -> Fs.files fs' !! p = Fs.files fs !! p).
Proof.
  assert (Hrun : try_decode_base64_to_file b64decode content out_path fs
                 = Py.try_except
                     (match Spec.attachment_text content with
                      | Some s => decode_to_file b64decode s out_path
                      | None => Py.ret false
                      end)
                     (fun _ => Py.ret false) fs).
  { unfold try_decode_base64_to_file, Spec.attachment_text.
    destruct content; reflexivity. }
  rewrite Hrun. clear Hrun.
  destruct (Spec.attachment_text content) as [s|].
  - unfold Py.try_except, decode_to_file, Py.bind, Py.raise, Py.ret.
    destruct (b64decode s) as [data|] eqn:Hd.
    + destruct (Fs.unwritable fs out_path) eqn:Hw.
      * destruct (write_text_fails out_path data fs Hw)
          as (fs1 & -> & Hleft).
        cbn. exists false, fs1. split; [reflexivity|].
        split; [intros _; split; [reflexivity | exact Hleft]|].
        split; [|discriminate].
        split; [discriminate|]. intros (s0 & d & _ & _ & H). discriminate.
      * unfold Fs.write_text. rewrite Hw. cbn.
        eexists true, _. split; [reflexivity|]. split; [discriminate|].
        split; [split; [intros _; exists s, data; auto | reflexivity]|].
        intros _. exists s, data.
        split; [reflexivity|]. split; [exact Hd|]. cbn.
        split; [apply lookup_insert_eq|].
        intros p Hp. apply lookup_insert_ne. congruence.
    + cbn. exists false, fs. split; [reflexivity|]. split; [reflexivity|].
      split; [|discriminate].
      split; [discriminate|]. intros (s0 & d & [= <-] & H & _). congruence.
  - exists false, fs. split; [reflexivity|]. split; [reflexivity|].
    split; [|discriminate].
    split; [discriminate|]. intros (s0 & d & H & _). discriminate.
Qed.

Lemma try_decode_total content out_path fs :
  exists ok fs',
    try_decode_base64_to_file b64decode content out_path fs = (Return ok, fs').
Proof.
  unfold try_decode_base64_to_file, Py.try_except.
  assert (Hdecode : forall s,
            exists ok fs',
              (match decode_to_file b64decode s out_path fs with
               | (Raise e, w') => if is_Exception e then Py.ret false w'
                                  else (Raise e, w')
               | r => r
               end) = (Return ok, fs')).
  { intros s. unfold decode_to_file, Py.bind, Py.raise, Py.ret, Fs.write_text.
    destruct (b64decode s); simpl; [|eexists _, _; reflexivity].
    destruct (Fs.unwritable fs out_path); simpl; eexists _, _; reflexivity. }
  destruct content as [| | |s| |d]; try (eexists _, _; reflexivity).
  - apply Hdecode.
  - destruct (first_str ["data"; "content"; "base64"; "b64"] d);
      [apply Hdecode | eexists _, _; reflexivity].
Qed.

End Outputs.

Lemma markdown_artifact_witness :
  exists fs',
    datalab_marker.save_markdown "out" "paper"
      [("markdown", JStr " # Title ")] datalab_marker.empty_fs
    = (Return (Some (datalab_marker.md_path "out" "paper")), fs')
    /\ Fs.files fs' !! datalab_marker.md_path "out" "paper"
       = Some " # Title ".
Proof.
  destruct (proj1 (markdown_artifact "out" "paper"
                     [("markdown", JStr " # Title ")]
                     datalab_marker.empty_fs)
              " # Title " eq_refl eq_refl eq_refl) as (fs' & Hrun & Hfile & _).
  exists fs'. split; assumption.
Defined.

Section SavedImages.

Import datalab_marker.

Variable b64decode : string -> option string.
Variable json_dumps : Json -> string.
Variable py_str : Json -> string.
Variable div : string -> string -> string.
Variable stem_of : string -> string.

Lemma save_image_counts images_dir key value c fs c' fs' :
  save_image b64decode json_dumps py_str div stem_of images_dir key value c fs
  = (Return c', fs') ->
  (num_urls c = length (urls_lines c) ->
   num_urls c' = length (urls_lines c'))
  /\ (num_saved c <= num_saved c')%nat
  /\ (num_urls c <= num_urls c')%nat
  /\ (num_saved c' + num_urls c' <= S (num_saved c + num_urls c))%nat.
Proof.
  unfold save_image, Py.bind, Py.lift, Py.ret, Py.raise.
  destruct (entry_filename py_str key value) as [[| | |filename| |]|e];
    try discriminate.
  destruct (try_decode_total b64decode value (div images_dir filename) fs)
    as (ok & fs1 & Hdec).
  rewrite Hdec. destruct ok.
  - intros [= <- <-]. simpl. repeat split; lia.
  - unfold Fs.write_text.
    destruct value as [| | | | |d];
      try (destruct (Fs.unwritable fs1 _); [discriminate|];
           intros [= <- <-]; repeat split; try lia; auto).
    destruct (dict_get "url" JNull d) as [| | |url| |];
      try (destruct (Fs.unwritable fs1 _); [discriminate|];
           intros [= <- <-]; repeat split; try lia; auto).
    intros [= <- <-]. simpl. rewrite length_app. simpl.
    repeat split; lia.
Qed.

Lemma save_each_counts images_dir images :
  forall c fs c' fs',
    save_each b64decode json_dumps py_str div stem_of images_dir images c fs
    = (Return c', fs') ->
    (num_urls c = length (urls_lines c) ->
     num_urls c' = length (urls_lines c'))
    /\ (num_saved c' + num_urls c'
        <= num_saved c + num_urls c + length images)%nat.
Proof.
  induction images as [|[key value] rest IH]; intros c fs c' fs'; simpl.
  - unfold Py.ret. intros [= <- <-]. split; [auto | lia].
  - unfold Py.bind.
    destruct (save_image b64decode json_dumps py_str div stem_of images_dir
                key value c fs) as [[c1|e] fs1] eqn:H1; [|discriminate].
    apply save_image_counts in H1 as (Hlines & _ & _ & Hsum).
    intros Hrest. apply IH in Hrest as (Hlines' & Hsum').
    split; [auto | lia].
Qed.

(** X17: the account [save_images_if_present] gives of the attachments.
    Without an images entry, or when it is empty or not an object, the
    answer is (0, 0) and no file is touched.  Otherwise every entry is
    counted at most once, as saved or as a link, so the two numbers add
    up to no more than the number of entries; and when links were found,
    image_urls.txt holds one line for each of them. *)
Theorem saved_images_accounting response images_dir fs :
  ((forall images, dict_get "images" JNull response = JObj images ->
                   images = []) ->
   save_images_if_present b64decode json_dumps py_str div stem_of response
     images_dir fs = (Return (0%nat, 0%nat), fs))
  /\ (forall images saved urls fs',
        dict_get "images" JNull response = JObj images ->
        save_images_if_present b64decode json_dumps py_str div stem_of
          response images_dir fs = (Return (saved, urls), fs') ->
        (saved + urls <= length images)%nat
        /\ ((0 < urls)%nat ->
            exists lines,
              length lines = urls
              /\ Fs.files fs' !! div images_dir "image_urls.txt"
                 = Some (join_lines lines))).
Proof.
  unfold save_images_if_present. split.
  - intros Hempty.
    destruct (dict_get "images" JNull response) as [| | | | |images];
      try reflexivity.
    rewrite (Hempty images eq_refl). reflexivity.
  - intros images saved urls fs' -> Hrun.
    destruct images as [|kv images].
    { injection Hrun as <- <- <-. simpl. split; lia. }
    unfold Py.bind at 1 in Hrun.
    destruct (save_each b64decode json_dumps py_str div stem_of images_dir
                (kv :: images)
                {| num_saved := 0; num_urls := 0; urls_lines := [] |} fs)
      as [[c|e] fs1] eqn:Heach; [|discriminate].
    apply save_each_counts in Heach as (Hlines & Hsum).
    specialize (Hlines eq_refl). simpl in Hsum.
    destruct (urls_lines c) as [|l ls] eqn:Hl.
    + injection Hrun as <- <- <-. simpl in Hlines.
      split; [simpl; lia | lia].
    + unfold Py.bind, Fs.write_text, Py.ret in Hrun.
      destruct (Fs.unwritable fs1 _); [discriminate|].
      injection Hrun as <- <- <-.
      split; [simpl; lia|]. intros _. exists (l :: ls).
      split; [symmetry; exact Hlines|]. simpl. apply lookup_insert_eq.
Qed.

End SavedImages.

Lemma saved_images_accounting_witness :
  (1 + 1 <= 3)%nat
  /\ ((0 < 1)%nat ->
      exists lines,
        length lines = 1%nat
        /\ Fs.files
             (snd (datalab_marker.save_images_if_present
                     datalab_marker.decode_known dumps dumps Fs.join
                     (fun s => s) datalab_marker.three_images
                     "out/paper_images" datalab_marker.empty_fs))
             !! Fs.join "out/paper_images" "image_urls.txt"
           = Some (datalab_marker.join_lines lines)).
Proof.
  exact (proj2 (saved_images_accounting datalab_marker.decode_known dumps
                  dumps Fs.join (fun s => s) datalab_marker.three_images
                  "out/paper_images" datalab_marker.empty_fs)
               _ 1%nat 1%nat _ eq_refl (surjective_pairing _)).
Defined.

Section PollSpacing.

Import datalab_marker.

Variable server : nat -> Tick.
Variables timeout_s poll_interval_s : Z.

Lemma poll_loop_spacing start fuel :
  forall w r w',
    (0 <= poll_interval_s)%Z ->
    poll_loop fuel server timeout_s poll_interval_s start w = Some (r, w') ->
    (Z.of_nat (polls w' - polls w) * poll_interval_s <= now w' - now w)%Z.
Proof.
  induction fuel as [|fuel IH]; intros w r w' Hpos Hrun; simpl in Hrun;
    [discriminate|].
  destruct (now w - start >? timeout_s)%Z.
  { injection Hrun as <- <-. replace (polls w - polls w)%nat with 0%nat by lia.
    lia. }
  destruct (poll_interval_s <? 0)%Z eqn:Hneg; [lia|].
  unfold request, sleep in Hrun; simpl in Hrun.
  set (lat := Z.of_N (latency (server (polls w)))) in *.
  assert (Hlat : (0 <= lat)%Z) by (unfold lat; lia).
  destruct (inspect (outcome (server (polls w)))) as [[d|]|e].
  - injection Hrun as <- <-. simpl.
    replace (S (polls w) - polls w)%nat with 1%nat by lia. lia.
  - pose proof (poll_loop_run _ _ _ _ _ _ _ _ Hrun) as (Hle & _).
    apply IH in Hrun; [|exact Hpos]. simpl in Hrun, Hle.
    replace (polls w' - polls w)%nat
      with (S (polls w' - S (polls w)))%nat by lia.
    rewrite Nat2Z.inj_succ. lia.
  - injection Hrun as <- <-. simpl.
    replace (S (polls w) - polls w)%nat with 1%nat by lia. lia.
Qed.

(** X18: [poll_until_complete] sleeps a whole poll interval before every
    request: when it ends, at least the number of requests sent times the
    interval has passed, so the endpoint is never asked more often than
    once per interval. *)
Theorem poll_spacing fuel w r w' :
  (0 <= poll_interval_s)%Z ->
  poll_until_complete fuel server timeout_s poll_interval_s w = Some (r, w') ->
  (Z.of_nat (polls w' - polls w) * poll_interval_s <= now w' - now w)%Z.
Proof.
  intros Hpos. unfold poll_until_complete.
  destruct (poll_loop fuel server timeout_s poll_interval_s (now w) w)
    as [[r0 w0]|] eqn:Hloop; [|discriminate].
  apply poll_loop_spacing in Hloop; [|exact Hpos].
  destruct r0; intros [= <- <-]; exact Hloop.
Qed.

End PollSpacing.

Lemma poll_spacing_witness : (Z.of_nat (2 - 0) * 7 <= 14 - 0)%Z.
Proof.
  exact (poll_spacing datalab_marker.slow_job 10 7 5 datalab_marker.epoch
           (Return datalab_marker.complete_ok)
           {| datalab_marker.now := 14; datalab_marker.polls := 2 |}
           ltac:(lia) eq_refl).
Defined.
(* ===================================================================== *)
(** * Further properties: the spreadsheet and the HTTP handler *)
(* ===================================================================== *)

Section Excel.

Import extract_tables.

Lemma width_ge data row : In row data -> (length row <= width data)%nat.
Proof.
  induction data as [|r data IH]; simpl; [contradiction|].
  intros [->|H]; [lia|]. specialize (IH H). lia.
Qed.

Lemma pad_length w row : (length row <= w)%nat -> length (pad w row) = w.
Proof.
  intros H. unfold pad. rewrite length_app, length_map, repeat_length. lia.
Qed.

Lemma cell_eqb_eq a b : cell_eqb a b = true <-> a = b.
Proof.
  destruct a, b; simpl; try (split; [discriminate | intros [=]]).
  - rewrite String.eqb_eq. split; congruence.
  - split; reflexivity.
Qed.

Lemma row_equals_eq a : forall b, row_equals a b = true <-> a = b.
Proof.
  induction a as [|x a IH]; destruct b as [|y b]; simpl;
    try (split; [discriminate | intros [=]]); [tauto|].
  rewrite andb_true_iff, cell_eqb_eq, IH. split; [intros []|intros [=]];
    subst; auto.
Qed.

Lemma pad_inj w r1 r2 : pad w r1 = pad w r2 -> r1 = r2.
Proof.
  unfold pad. generalize (w - length r1)%nat (w - length r2)%nat.
  revert r2.
  induction r1 as [|x r1 IH]; intros [|y r2] n m; simpl; auto.
  - destruct n; simpl; discriminate.
  - destruct m; simpl; discriminate.
  - intros [= -> H]. f_equal. exact (IH _ _ _ H).
Qed.

(** X19: the sheets of the workbook.  There is one sheet per table, named
    Table_1, Table_2, ... in the order of the tables, all names
    different.  Every sheet is rectangular: each row and the header have
    the width of the table's widest row, shorter rows being filled up.
    The first row becomes the header, and leaves the body, exactly when
    the table has at least two rows and the first two differ; otherwise
    the columns are numbered and all rows stay. *)
Theorem excel_sheets tables :
  map fst (sheets tables)
  = map (fun i => "Table_" ++ pretty i) (seq 1 (length tables))
  /\ NoDup (map fst (sheets tables))
  /\ map snd (sheets tables)
     = map (fun t => promote_header (DataFrame (data t))) tables
  /\ (forall d,
        let df := promote_header (DataFrame d) in
        Forall (fun row => length row = width d) (cells df)
        /\ length (labels df) = width d
        /\ (forall r1 r2 rest,
              d = r1 :: r2 :: rest -> r1 <> r2 ->
              labels df = map Header (pad (width d) r1)
              /\ cells df = map (pad (width d)) (r2 :: rest))
        /\ ((forall r1 r2 rest, d = r1 :: r2 :: rest -> r1 = r2) ->
            labels df = map Position (seq 0 (width d))
            /\ cells df = map (pad (width d)) d)).
Proof.
  assert (Hnames : forall l i,
            map fst (sheets_from i l)
            = map (fun i => "Table_" ++ pretty i) (seq i (length l))).
  { induction l as [|t l IH]; intros i; [reflexivity|].
    cbn [sheets_from map fst length seq]. rewrite IH. reflexivity. }
  assert (Hframes : forall l i,
            map snd (sheets_from i l)
            = map (fun t => promote_header (DataFrame (data t))) l).
  { induction l as [|t l IH]; intros i; [reflexivity|].
    cbn [sheets_from map snd]. rewrite IH. reflexivity. }
  split; [apply Hnames|]. split; [|split; [apply Hframes|]].
  - unfold sheets. rewrite Hnames.
    apply NoDup_fmap_2; [|apply NoDup_seq].
    intros i j H. apply append_cancel_l in H.
    apply (inj pretty) in H. exact H.
  - intros d df.
    assert (Hpad : Forall (fun row => length row = width d)
                          (map (pad (width d)) d)).
    { apply Forall_map, Forall_forall. intros row Hin.
      apply pad_length, width_ge.
      apply list_elem_of_In. exact Hin. }
    assert (Hw : length (labels (DataFrame d)) = width d).
    { cbn [DataFrame labels]. rewrite length_map, length_seq. reflexivity. }
    destruct d as [|r1 [|r2 rest]].
    + split; [exact Hpad|]. split; [exact Hw|].
      split; [discriminate | split; reflexivity].
    + split; [exact Hpad|]. split; [exact Hw|].
      split; [discriminate | split; reflexivity].
    + set (w := width (r1 :: r2 :: rest)) in *.
      unfold df.
      change (promote_header (DataFrame (r1 :: r2 :: rest)))
        with (if negb (row_equals (pad w r1) (pad w r2))
              then {| labels := map Header (pad w r1);
                      cells := map (pad w) (r2 :: rest) |}
              else DataFrame (r1 :: r2 :: rest)).
      destruct (row_equals (pad w r1) (pad w r2)) eqn:Heq; cbn [negb].
      * apply row_equals_eq, pad_inj in Heq. subst r2.
        split; [exact Hpad|]. split; [exact Hw|].
        split; [intros ? ? ? [= <- <- <-] Hne; contradiction|].
        intros _. split; reflexivity.
      * assert (Hne : r1 <> r2).
        { intros ->. rewrite (proj2 (row_equals_eq _ _) eq_refl) in Heq.
          discriminate. }
        cbn [labels cells]. rewrite length_map.
        split; [apply Forall_cons in Hpad as [_ Hpad]; exact Hpad|].
        split; [apply pad_length, width_ge; left; reflexivity|].
        split; [intros ? ? ? [= <- <- <-] _; split; reflexivity|].
        intros Hsame. exfalso. apply Hne. eapply Hsame. reflexivity.
Qed.

End Excel.

Section HandlerProperties.

Import extract_tables.

Variable json_loads : string -> option Json.
Variable b64decode : string -> option string.
Variable b64encode : string -> string.
Variable open_pdf : string -> Res (list (list Table)).
Variable write_excel : list (string * Frame) -> Res string.
Variable py_str : Json -> string.
Variable exn_str : exn -> string.

Lemma handler_of_handle request :
  extract_tables.handler json_loads b64decode b64encode open_pdf
    write_excel py_str exn_str request
  = match extract_tables.handle json_loads b64decode b64encode open_pdf
    write_excel py_str request with
    | Return response => Return response
    | Raise e =>
        if is_Exception e
        then Return (reply 500 (Spec.processing_error (exn_str e)))
        else Raise e
    end.
Proof. reflexivity. Qed.

Lemma handle_post request :
  method request = "POST" ->
  extract_tables.handle json_loads b64decode b64encode open_pdf
    write_excel py_str request
  = and_then (extract_tables.request_data json_loads request) (fun data =>
    and_then (get data "pdf_data" JNull) (fun pdf_data =>
    and_then (get data "filename" (JStr "document.pdf")) (fun filename =>
    if negb (truthy pdf_data) then Return (reply 400 Spec.no_pdf_data)
    else
      and_then (match pdf_data with
                | JStr s => match b64decode s with
                            | Some pdf_bytes => Return pdf_bytes
                            | None => Raise ValueError
                            end
                | _ => Raise TypeError
                end) (fun pdf_bytes =>
      and_then (open_pdf pdf_bytes) (fun pages =>
      let tables := extract_tables_from_pdf pages in
      match tables with
      | [] => Return (reply 200 Spec.no_tables_found)
      | _ :: _ =>
          and_then (write_excel (sheets tables)) (fun excel_data =>
          Return (reply 200
                    (JObj [("success", JBool true);
                           ("tables", JArr (map table_json tables));
                           ("excel_data", JStr (b64encode excel_data));
                           ("message",
                            JStr ("Successfully extracted "
                                  ++ pretty (length tables)
                                  ++ " table(s) from "
                                  ++ show py_str filename))])))
      end))))).
Proof.
  intros Hm. unfold extract_tables.handle. rewrite Hm. reflexivity.
Qed.

Lemma handle_shape request response :
  extract_tables.handle json_loads b64decode b64encode open_pdf
    write_excel py_str request = Return response ->
  headers response = cors_headers
  /\ (statusCode response = 200 \/ statusCode response = 400
      \/ statusCode response = 405)%Z
  /\ (statusCode response = 405%Z <->
      method request <> "OPTIONS" /\ method request <> "POST")
  /\ (statusCode response = 400%Z ->
      body response = Spec.no_pdf_data).
Proof.
  destruct (String.eqb (method request) "OPTIONS") eqn:Ho.
  { unfold extract_tables.handle. rewrite Ho. intros [= <-].
    apply String.eqb_eq in Ho. cbn [reply headers statusCode body].
    split; [reflexivity|]. split; [auto|].
    split; [split; [discriminate | tauto] | discriminate]. }
  destruct (String.eqb (method request) "POST") eqn:Hp.
  2:{ unfold extract_tables.handle. rewrite Ho, Hp. intros [= <-].
      apply String.eqb_neq in Ho, Hp. cbn [reply headers statusCode body].
      split; [reflexivity|]. split; [auto|].
      split; [tauto | discriminate]. }
  apply String.eqb_eq in Hp. rewrite (handle_post _ Hp).
  assert (Hno : ~ (method request <> "OPTIONS" /\ method request <> "POST"))
    by tauto.
  unfold and_then. intros H.
  repeat (break_match H; try discriminate);
    injection H as <-; cbn [reply headers statusCode body];
    (split; [reflexivity|]); (split; [auto|]);
    (split; [split; [discriminate | tauto]|]);
    first [discriminate | reflexivity].
Qed.

(** X20: what [handler] answers.  Only an exception that is no
    [Exception] leaves it; every response carries the CORS headers and
    one of the statuses 200, 400, 405, 500.  An OPTIONS request is
    answered 200 whatever else it holds, any other method than POST 405
    (the comparison is exact, so a lower-case "post" too), and 405 is
    given for nothing else; 400 and 500 come with success false. *)
Theorem handler_answers request :
  (forall e, extract_tables.handler json_loads b64decode b64encode open_pdf
    write_excel py_str exn_str request = Raise e ->
             is_Exception e = false /\ method request = "POST")
  /\ (method request = "OPTIONS" ->
      extract_tables.handler json_loads b64decode b64encode open_pdf
    write_excel py_str exn_str request
      = Return (reply 200 (JObj [("message", JStr "CORS preflight")])))
  /\ (method request <> "OPTIONS" -> method request <> "POST" ->
      extract_tables.handler json_loads b64decode b64encode open_pdf
    write_excel py_str exn_str request
      = Return (reply 405 (JObj [("error", JStr "Method not allowed")])))
  /\ (forall response,
        extract_tables.handler json_loads b64decode b64encode open_pdf
    write_excel py_str exn_str request = Return response ->
        headers response = cors_headers
        /\ (statusCode response = 200 \/ statusCode response = 400
            \/ statusCode response = 405 \/ statusCode response = 500)%Z
        /\ (statusCode response = 405%Z ->
            method request <> "OPTIONS" /\ method request <> "POST")
        /\ (statusCode response = 400%Z \/ statusCode response = 500%Z ->
            Spec.field "success" (body response) = JBool false
            /\ method request = "POST")).
Proof.
  rewrite handler_of_handle.
  split; [|split; [|split]].
  - intros e.
    destruct (String.eqb (method request) "OPTIONS") eqn:Ho;
      [unfold extract_tables.handle; rewrite Ho; discriminate|].
    destruct (String.eqb (method request) "POST") eqn:Hp;
      [|unfold extract_tables.handle; rewrite Ho, Hp; discriminate].
    apply String.eqb_eq in Hp.
    destruct (extract_tables.handle json_loads b64decode b64encode open_pdf
    write_excel py_str request) as [r|e']; [discriminate|].
    destruct (is_Exception e') eqn:He; [discriminate|].
    intros [= <-]. auto.
  - intros Hm. unfold extract_tables.handle. rewrite Hm. reflexivity.
  - intros Ho Hp. apply String.eqb_neq in Ho, Hp.
    unfold extract_tables.handle. rewrite Ho, Hp. reflexivity.
  - intros response.
    destruct (extract_tables.handle json_loads b64decode b64encode open_pdf
    write_excel py_str request) as [r|e] eqn:Hh.
    + intros [= <-].
      destruct (handle_shape _ _ Hh) as (Hhd & Hst & H405 & H400).
      split; [exact Hhd|]. split; [tauto|]. split; [apply H405|].
      intros [H|H].
      * rewrite (H400 H). split; [reflexivity|].
        destruct (string_dec (method request) "POST") as [|Hp]; [assumption|].
        destruct (string_dec (method request) "OPTIONS") as [Ho|Ho].
        -- exfalso. unfold extract_tables.handle in Hh.
           rewrite Ho in Hh. injection Hh as <-. discriminate.
        -- exfalso. assert (H5 : statusCode r = 405%Z) by (apply H405; auto).
           rewrite H in H5. discriminate.
      * exfalso. destruct Hst as [Hs|[Hs|Hs]]; rewrite Hs in H; discriminate.
    + destruct (is_Exception e); [|discriminate].
      intros [= <-]. cbn [reply headers statusCode body].
      split; [reflexivity|]. split; [auto|]. split; [discriminate|].
      intros _. split; [reflexivity|].
      destruct (String.eqb (method request) "OPTIONS") eqn:Ho;
        [unfold extract_tables.handle in Hh; rewrite Ho in Hh; discriminate|].
      destruct (String.eqb (method request) "POST") eqn:Hp;
        [apply String.eqb_eq; exact Hp|].
      unfold extract_tables.handle in Hh. rewrite Ho, Hp in Hh. discriminate.
Qed.


(** X21: how a POST request fails.  Without a usable [pdf_data] (absent,
    None, empty) the answer is 400; a body that is no dict, a [pdf_data]
    that is no str or no base64, a PDF the reader rejects and a workbook
    that cannot be written are all answered 500 with the exception's
    text, success false and no tables; a PDF without tables is answered
    200 with success false. *)
Theorem handler_rejections request data :
  method request = "POST" ->
  extract_tables.request_data json_loads request = Return data ->
  let answer :=
    handler json_loads b64decode b64encode open_pdf write_excel py_str
      exn_str request in
  let failed e := Return (reply 500 (Spec.processing_error (exn_str e))) in
  ((forall d, data <> JObj d) -> answer = failed AttributeError)
  /\ (forall d,
        data = JObj d ->
        let pdf_data := dict_get "pdf_data" JNull d in
        (truthy pdf_data = false ->
         answer = Return (reply 400 Spec.no_pdf_data))
        /\ (truthy pdf_data = true -> is_str pdf_data = false ->
            answer = failed TypeError)
        /\ (forall s,
              pdf_data = JStr s -> s <> "" ->
              (b64decode s = None -> answer = failed ValueError)
              /\ (forall pdf_bytes,
                    b64decode s = Some pdf_bytes ->
                    (forall e, open_pdf pdf_bytes = Raise e ->
                               is_Exception e = true -> answer = failed e)
                    /\ (forall pages,
                          open_pdf pdf_bytes = Return pages ->
                          let tables := extract_tables_from_pdf pages in
                          (tables = [] ->
                           answer = Return (reply 200 Spec.no_tables_found))
                          /\ (forall e,
                                tables <> [] ->
                                write_excel (sheets tables) = Raise e ->
                                is_Exception e = true -> answer = failed e))))).
Proof.
  intros Hm Hdata answer failed. unfold answer.
  rewrite handler_of_handle, (handle_post _ Hm), Hdata.
  cbn [and_then]. split.
  - intros Hnd. destruct data; try reflexivity. exfalso. exact (Hnd _ eq_refl).
  - intros d ->. cbn [get and_then].
    split; [intros ->; reflexivity|].
    split.
    { intros -> Hs.
      destruct (dict_get "pdf_data" JNull d); try reflexivity.
      discriminate. }
    intros s Hs Hne. rewrite Hs. cbn [truthy].
    apply String.eqb_neq in Hne. rewrite Hne. cbn [negb].
    split; [intros ->; reflexivity|].
    intros pdf_bytes ->. cbn [and_then]. split.
    + intros e -> He. cbn [and_then]. rewrite He. reflexivity.
    + intros pages ->. cbn [and_then].
      split; [intros ->; reflexivity|].
      intros e Hne' -> He.
      destruct (extract_tables_from_pdf pages); [contradiction|].
      cbn [and_then]. rewrite He. reflexivity.
Qed.

(** X22: a response reports success only for a POST request whose body
    is a dict with a non-empty base64 [pdf_data] that the reader opens
    and in which it finds at least one table.  The response then has
    status 200, lists the table records, each of the shape of
    [extract_tables_from_pdf], and its [excel_data] is the base64
    encoding of the workbook written from the sheets of these tables. *)
Theorem handler_success request response :
  extract_tables.handler json_loads b64decode b64encode open_pdf
    write_excel py_str exn_str request = Return response ->
  Spec.field "success" (body response) = JBool true ->
  statusCode response = 200%Z
  /\ method request = "POST"
  /\ exists d s pdf_bytes pages workbook,
       extract_tables.request_data json_loads request = Return (JObj d)
       /\ dict_get "pdf_data" JNull d = JStr s /\ s <> ""
       /\ b64decode s = Some pdf_bytes
       /\ open_pdf pdf_bytes = Return pages
       /\ write_excel (sheets (extract_tables_from_pdf pages))
          = Return workbook
       /\ extract_tables_from_pdf pages <> []
       /\ Forall Spec.record_shape (extract_tables_from_pdf pages)
       /\ Spec.field "tables" (body response)
          = JArr (map table_json (extract_tables_from_pdf pages))
       /\ Spec.field "excel_data" (body response)
          = JStr (b64encode workbook).
Proof.
  rewrite handler_of_handle. intros Hrun Hsuccess.
  destruct (extract_tables.handle json_loads b64decode b64encode open_pdf
    write_excel py_str request) as [r|e] eqn:Hh.
  2:{ destruct (is_Exception e); [|discriminate].
      injection Hrun as <-. discriminate. }
  injection Hrun as ->.
  destruct (String.eqb (method request) "OPTIONS") eqn:Ho.
  { unfold extract_tables.handle in Hh. rewrite Ho in Hh. injection Hh as <-.
    discriminate. }
  destruct (String.eqb (method request) "POST") eqn:Hp.
  2:{ unfold extract_tables.handle in Hh. rewrite Ho, Hp in Hh.
      injection Hh as <-. discriminate. }
  apply String.eqb_eq in Hp. rewrite (handle_post _ Hp) in Hh.
  destruct (extract_tables.request_data json_loads request) as [data|]
    eqn:Hdata; [|discriminate].
  cbn [and_then] in Hh.
  destruct data as [| | | | |d]; try discriminate.
  cbn [get and_then] in Hh.
  destruct (truthy (dict_get "pdf_data" JNull d)) eqn:Ht; cbn [negb] in Hh.
  2:{ injection Hh as <-. discriminate. }
  destruct (dict_get "pdf_data" JNull d) as [| | |s| |] eqn:Hpdf;
    try discriminate.
  destruct (b64decode s) as [pdf_bytes|] eqn:Hb; [|discriminate].
  cbn [and_then] in Hh.
  destruct (open_pdf pdf_bytes) as [pages|] eqn:Hopen; [|discriminate].
  cbn [and_then] in Hh.
  assert (Hshape : Forall Spec.record_shape (extract_tables_from_pdf pages)).
  { unfold extract_tables_from_pdf.
    eapply Forall_impl; [apply pdf_loop_shape|].
    intros t [Hs _]. exact Hs. }
  destruct (extract_tables_from_pdf pages) as [|t ts] eqn:Htables.
  { cbn zeta iota in Hh. injection Hh as <-. discriminate. }
  cbn zeta iota in Hh.
  destruct (write_excel (sheets (t :: ts))) as [workbook|] eqn:Hx;
    [|discriminate].
  cbn [and_then] in Hh. injection Hh as <-.
  split; [reflexivity|]. split; [exact Hp|].
  exists d, s, pdf_bytes, pages, workbook.
  split; [reflexivity|]. split; [exact Hpdf|].
  split.
  { intros ->. discriminate. }
  rewrite Htables.
  split; [exact Hb|]. split; [exact Hopen|]. split; [exact Hx|].
  split; [discriminate|]. split; [exact Hshape|].
  split; reflexivity.
Qed.

End HandlerProperties.

Section HandlerRuns.

Import extract_tables.

Lemma handler_rejections_witness :
  extract_tables.handler (fun _ => None) decode_test (fun s => s) rejects_pdf
    (fun _ => Return "XLSX") dumps class_name mock_request
  = Return (reply 500 (Spec.processing_error (class_name ValueError))).
Proof.
  destruct (handler_rejections (fun _ => None) decode_test (fun s => s)
              rejects_pdf (fun _ => Return "XLSX") dumps class_name
              mock_request _ eq_refl eq_refl) as [_ Hdict].
  destruct (Hdict _ eq_refl) as (_ & _ & Hstr).
  destruct (Hstr "dGVzdA==" eq_refl ltac:(discriminate)) as [_ Hdecoded].
  destruct (Hdecoded "test" eq_refl) as [Hreader _].
  exact (Hreader ValueError eq_refl eq_refl).
Defined.

Lemma handler_success_witness :
  statusCode
    (reply 200
       (JObj [("success", JBool true);
              ("tables",
               JArr (map table_json (extract_tables_from_pdf ragged_pdf)));
              ("excel_data", JStr "XLSX");
              ("message",
               JStr "Successfully extracted 1 table(s) from test.pdf")]))
  = 200%Z.
Proof.
  refine (proj1
    (handler_success (fun _ => None) decode_test (fun s => s) finds_ragged
       (fun _ => Return "XLSX") dumps class_name mock_request _ _ _)).
  - vm_compute. reflexivity.
  - reflexivity.
Defined.

End HandlerRuns.
